(** * The Delve plugin registry generators

    A shallow embedding of the two registry generation scripts of the
    repository,

      - [.github/scripts/generate-registry.py]          (module [GenerateRegistry])
      - [.github/scripts/simple-registry-generator.py]  (module [SimpleRegistryGenerator])

    together with the parts of their environment they observe: the file
    system and the working directory, [hashlib.sha256], the clock, the
    standard output and the files they write.  The properties proved at the end are those of the
    specification of the generators. *)

From Stdlib Require Import List ZArith NArith Lia Bool Arith.
From Stdlib Require Import Strings.String Strings.Ascii Strings.Byte DecimalString.
From Stdlib Require Import Sorting.Sorted Sorting.Permutation.
Import ListNotations.

Set Implicit Arguments.

(* ------------------------------------------------------------------------- *)
(** ** SHA-256 (FIPS 180-4), the function behind [hashlib.sha256] *)

Module SHA256.
Local Open Scope Z_scope.

(** 32-bit words are integers in [0, 2^32); every operation that can leave the
  range is reduced explicitly. *)
Definition wrap (x : Z) : Z := x mod 2 ^ 32.
Definition add32 (x y : Z) : Z := wrap (x + y).
Definition not32 (x : Z) : Z := Z.lxor x 0xffffffff.
Definition rotr (n x : Z) : Z := Z.lor (Z.shiftr x n) (wrap (Z.shiftl x (32 - n))).
Definition shr (n x : Z) : Z := Z.shiftr x n.

Definition Ch (x y z : Z) : Z := Z.lxor (Z.land x y) (Z.land (not32 x) z).
Definition Maj (x y z : Z) : Z :=
Z.lxor (Z.lxor (Z.land x y) (Z.land x z)) (Z.land y z).
Definition Sigma0 (x : Z) : Z := Z.lxor (Z.lxor (rotr 2 x) (rotr 13 x)) (rotr 22 x).
Definition Sigma1 (x : Z) : Z := Z.lxor (Z.lxor (rotr 6 x) (rotr 11 x)) (rotr 25 x).
Definition sigma0 (x : Z) : Z := Z.lxor (Z.lxor (rotr 7 x) (rotr 18 x)) (shr 3 x).
Definition sigma1 (x : Z) : Z := Z.lxor (Z.lxor (rotr 17 x) (rotr 19 x)) (shr 10 x).

(** The round constants are the first thirty-two bits of the fractional parts
    of the cube roots of the first sixty-four primes (section 4.2.2).
    [cube_root] is the integer cube root, found by bisection between [lo] and
    [hi]. *)
Definition primes : list Z :=
  [ 2; 3; 5; 7; 11; 13; 17; 19; 23; 29; 31; 37; 41; 43; 47; 53; 59; 61; 67; 71; 73; 79;
    83; 89; 97; 101; 103; 107; 109; 113; 127; 131; 137; 139; 149; 151; 157; 163; 167;
    173; 179; 181; 191; 193; 197; 199; 211; 223; 227; 229; 233; 239; 241; 251; 257; 263;
    269; 271; 277; 281; 283; 293; 307; 311 ].

Fixpoint bisect_cube (steps : nat) (lo hi n : Z) : Z :=
  match steps with
  | O => lo
  | S steps' =>
      let mid := (lo + hi) / 2 in
      if mid * mid * mid <=? n then bisect_cube steps' mid hi n
      else bisect_cube steps' lo mid n
  end.

Definition cube_root (n : Z) : Z := bisect_cube 40 0 (2 ^ 36) n.

Definition K : list Z := map (fun p => wrap (cube_root (p * 2 ^ 96))) primes.

(** The eight working variables, and the hash value between blocks. *)
Record regs : Type := Regs { ra : Z; rb : Z; rc : Z; rd : Z; re : Z; rf : Z; rg : Z; rh : Z }.

Definition H0 : regs :=
Regs 0x6a09e667 0xbb67ae85 0x3c6ef372 0xa54ff53a
     0x510e527f 0x9b05688c 0x1f83d9ab 0x5be0cd19.

Definition byte_val (b : byte) : Z := Z.of_N (Byte.to_N b).

(** Big-endian encoding of [x] on [n] bytes. *)
Fixpoint be_bytes (n : nat) (x : Z) : list Z :=
match n with
| O => []
| S n' => (Z.shiftr x (8 * Z.of_nat n')) mod 256 :: be_bytes n' x
end.

(** Section 5.1.1: the message, one [1] bit, [k] zero bits and the length in
  bits on 64 bits, [k] least with a total that is a multiple of 512. *)
Definition pad (msg : list byte) : list Z :=
let len := Z.of_nat (List.length msg) in
map byte_val msg ++ [0x80]
  ++ repeat 0 (Z.to_nat ((55 - len) mod 64))
  ++ be_bytes 8 (8 * len).

(** Four bytes, most significant first. *)
Fixpoint words (n : nat) (bs : list Z) : list Z :=
match n with
| O => []
| S n' =>
    match bs with
    | b0 :: b1 :: b2 :: b3 :: rest =>
        (Z.shiftl b0 24 + Z.shiftl b1 16 + Z.shiftl b2 8 + b3) :: words n' rest
    | _ => []
    end
end.

(** Section 6.2.2, step 1: the message schedule, extended one word at a
  time. *)
Fixpoint schedule (n : nat) (W : list Z) : list Z :=
match n with
| O => W
| S n' =>
    let t := List.length W in
    let at_ (i : nat) := nth (t - i) W 0 in
    schedule n' (W ++ [add32 (add32 (add32 (sigma1 (at_ 2%nat)) (at_ 7%nat))
                                    (sigma0 (at_ 15%nat))) (at_ 16%nat)])
end.

(** Section 6.2.2, step 3: one round. *)
Definition round (r : regs) (kw : Z * Z) : regs :=
let T1 := add32 (add32 (add32 (add32 (rh r) (Sigma1 (re r))) (Ch (re r) (rf r) (rg r)))
                       (fst kw)) (snd kw) in
let T2 := add32 (Sigma0 (ra r)) (Maj (ra r) (rb r) (rc r)) in
Regs (add32 T1 T2) (ra r) (rb r) (rc r) (add32 (rd r) T1) (re r) (rf r) (rg r).

Definition add_regs (x y : regs) : regs :=
Regs (add32 (ra x) (ra y)) (add32 (rb x) (rb y)) (add32 (rc x) (rc y))
     (add32 (rd x) (rd y)) (add32 (re x) (re y)) (add32 (rf x) (rf y))
     (add32 (rg x) (rg y)) (add32 (rh x) (rh y)).

Definition compress (H : regs) (block : list Z) : regs :=
let W := schedule 48 (words 16 block) in
add_regs H (fold_left round (combine K W) H).

Fixpoint blocks (n : nat) (H : regs) (bs : list Z) : regs :=
match n with
| O => H
| S n' => blocks n' (compress H (firstn 64 bs)) (skipn 64 bs)
end.

Definition digest (msg : list byte) : regs :=
let p := pad msg in
blocks (List.length p / 64) H0 p.

Definition hex_digit (d : Z) : ascii :=
nth (Z.to_nat (d mod 16))
    [ "0"; "1"; "2"; "3"; "4"; "5"; "6"; "7";
      "8"; "9"; "a"; "b"; "c"; "d"; "e"; "f" ]%char "0"%char.

Definition hex32 (x : Z) : string :=
String (hex_digit (Z.shiftr x 28)) (String (hex_digit (Z.shiftr x 24))
(String (hex_digit (Z.shiftr x 20)) (String (hex_digit (Z.shiftr x 16))
(String (hex_digit (Z.shiftr x 12)) (String (hex_digit (Z.shiftr x 8))
(String (hex_digit (Z.shiftr x 4)) (String (hex_digit x) EmptyString))))))).

Definition hex (r : regs) : string :=
(hex32 (ra r) ++ hex32 (rb r) ++ hex32 (rc r) ++ hex32 (rd r)
 ++ hex32 (re r) ++ hex32 (rf r) ++ hex32 (rg r) ++ hex32 (rh r))%string.

(** The lower-case hexadecimal digest of a message. *)
Definition hexdigest (msg : list byte) : string := hex (digest msg).

End SHA256.

(* ------------------------------------------------------------------------- *)
(** ** Python values the scripts handle *)

Local Open Scope string_scope.

(** A [bytes] object holding the UTF-8 text [s]. *)
Definition bytes_of (s : string) : list byte := list_byte_of_string s.

(** [s.startswith(p)] *)
Fixpoint startswith (p s : string) : bool :=
  match p, s with
  | EmptyString, _ => true
  | String a p', String b s' => Ascii.eqb a b && startswith p' s'
  | String _ _, EmptyString => false
  end.

(** [s.split("/")]: the pieces between the separators, empty ones kept; never
    an empty list. *)
Fixpoint split_slash (s : string) : list string :=
  match s with
  | EmptyString => [EmptyString]
  | String c s' =>
      if Ascii.eqb c "/" then EmptyString :: split_slash s'
      else match split_slash s' with
           | h :: t => String c h :: t
           | [] => [String c EmptyString]
           end
  end.

(** [str(n)] for a length. *)
Definition str_nat (n : nat) : string := NilEmpty.string_of_uint (Nat.to_uint n).

(** Python compares [str] values code point by code point; on the UTF-8 bytes
    of a [string] that is the byte-wise lexicographic order. *)
Definition str_lt (a b : string) : bool :=
  match String.compare a b with Lt => true | _ => false end.

(** A [dict] keeps its keys in insertion order; assigning to a key that is
    present replaces the value where it stands. *)
Definition dict (V : Type) : Type := list (string * V).

Fixpoint dict_get {V} (k : string) (d : dict V) : option V :=
  match d with
  | [] => None
  | (k', v) :: d' => if String.eqb k k' then Some v else dict_get k d'
  end.

Fixpoint dict_set {V} (k : string) (v : V) (d : dict V) : dict V :=
  match d with
  | [] => [(k, v)]
  | (k', v') :: d' =>
      if String.eqb k k' then (k, v) :: d' else (k', v') :: dict_set k v d'
  end.

Definition keys {V} (d : dict V) : list string := map fst d.
Definition values {V} (d : dict V) : list V := map snd d.

(** [sum(...)] over lengths. *)
Definition sum (l : list nat) : nat := fold_left Nat.add l 0.

(** [l.sort(key=..., reverse=True)]: a stable sort into descending key order;
    among equal keys the original order is kept, as [list.sort] documents for
    [reverse]. *)
Section Sort.
Variable A : Type.
Variable key : A -> string.

Fixpoint insert_desc (x : A) (l : list A) : list A :=
  match l with
  | [] => [x]
  | y :: l' =>
      if str_lt (key x) (key y) then y :: insert_desc x l' else x :: l
  end.

Fixpoint sort_reverse (l : list A) : list A :=
  match l with
  | [] => []
  | x :: l' => insert_desc x (sort_reverse l')
  end.
End Sort.

(* ------------------------------------------------------------------------- *)
(** ** The file system *)

(** A file holds bytes; a directory has a modification time and named
    entries, in the order the system lists them.  There are no symbolic
    links. *)
#[warnings="-register-all"]
Inductive node : Type :=
| File (content : list byte)
| Dir (mtime : Z) (entries : list (string * node)).

(** What a run finds: the tree below the root, and the working directory, as
    the names that lead to it from the root. *)
Record filesystem : Type := { root : node; cwd : list string }.

(** A [pathlib.Path], as its parts.  The parts of a relative path are its
    components, so [Path(".")] is [[]]; an absolute path has the empty string
    before them, which stands for the root. *)
Definition path : Type := list string.

(** The components of a name: the pieces between the slashes, without the
    empty ones and without ["."], which [pathlib] drops; [".."] stays. *)
Definition components (s : string) : list string :=
  filter (fun c => negb (String.eqb c "" || String.eqb c ".")) (split_slash s).

(** [Path(s)].  (Python keeps a root of exactly two slashes apart from [/];
    the system resolves both alike, and both are the root here.) *)
Definition parts (s : string) : path :=
  if startswith "/" s then "" :: components s else components s.

(** [p / s]: the parts of [s] after those of [p]; an absolute [s] replaces
    [p]. *)
Definition join (p : path) (s : string) : path :=
  if startswith "/" s then parts s else (p ++ parts s)%list.
Infix "//" := join (at level 40, left associativity).

(** [p.name] *)
Definition path_name (p : path) : string := last p "".

Fixpoint find_entry (c : string) (entries : list (string * node)) : option node :=
  match entries with
  | [] => None
  | (c', n) :: rest => if String.eqb c c' then Some n else find_entry c rest
  end.

(** What the system finds when it resolves a path: a node, with the
    directories passed on the way to it (the nearest first); or nothing,
    either because a directory on the way has no entry of that name
    ([ENOENT]) or because a component on the way is a regular file
    ([ENOTDIR]). *)
Inductive found : Type :=
| Found (above : list node) (n : node)
| Missing
| NotADirectory.

(** Resolution, component by component, from the node [n] below the
    directories [above]: a name is looked up among the entries of the
    directory reached; [".."] leads back to the directory above, and at the
    root to the root itself. *)
Fixpoint walk (above : list node) (n : node) (p : list string) : found :=
  match p with
  | [] => Found above n
  | c :: p' =>
      match n with
      | File _ => NotADirectory
      | Dir _ entries =>
          if String.eqb c ".." then
            match above with
            | parent :: above' => walk above' parent p'
            | [] => walk [] n p'
            end
          else
            match find_entry c entries with
            | Some n' => walk (n :: above) n' p'
            | None => Missing
            end
      end
  end.

(** An absolute path is resolved from the root, another from the working
    directory. *)
Definition resolve (fs : filesystem) (p : path) : found :=
  match p with
  | EmptyString :: p' => walk [] (root fs) p'
  | _ =>
      match walk [] (root fs) (cwd fs) with
      | Found above n => walk above n p
      | other => other
      end
  end.

Definition lookup (fs : filesystem) (p : path) : option node :=
  match resolve fs p with
  | Found _ n => Some n
  | _ => None
  end.

(** The exceptions the scripts can meet.  None is caught anywhere: a raised
    exception ends the run. *)
Inductive exn : Type :=
| KeyError (key : string)
| IndexError
| ValueError
| JSONDecodeError
| FileNotFoundError (p : path)
| IsADirectoryError (p : path)
| NotADirectoryError (p : path)
| FileExistsError (p : path).

Inductive result (A : Type) : Type :=
| Ok (a : A)
| Raise (e : exn).
Arguments Ok {A} a.
Arguments Raise {A} e.

(** The exception of a system call on a path that resolves to nothing. *)
Definition no_entry (fs : filesystem) (p : path) : exn :=
  match resolve fs p with
  | NotADirectory => NotADirectoryError p
  | _ => FileNotFoundError p
  end.

Section Tree.
Variable fs : filesystem.

(** [p.exists()] *)
Definition exists_ (p : path) : bool :=
  match lookup fs p with Some _ => true | None => false end.

(** [p.is_dir()] *)
Definition is_dir (p : path) : bool :=
  match lookup fs p with Some (Dir _ _) => true | _ => false end.

(** [os.listdir(p)], and the names of [p.iterdir()]. *)
Definition listdir (p : path) : result (list string) :=
  match lookup fs p with
  | Some (Dir _ entries) => Ok (map fst entries)
  | Some (File _) => Raise (NotADirectoryError p)
  | None => Raise (no_entry fs p)
  end.

(** [open(p, "rb")] and [open(p)], read to the end. *)
Definition read_bytes (p : path) : result (list byte) :=
  match lookup fs p with
  | Some (File content) => Ok content
  | Some (Dir _ _) => Raise (IsADirectoryError p)
  | None => Raise (no_entry fs p)
  end.

(** [p.stat().st_size].  The scripts ask for it only after they have read
    [p] as a file; what the system reports for a directory is not
    modelled. *)
Definition st_size (p : path) : result Z :=
  match lookup fs p with
  | Some (File content) => Ok (Z.of_nat (List.length content))
  | Some (Dir _ _) => Ok 0%Z
  | None => Raise (no_entry fs p)
  end.

(** [p.stat().st_mtime] of a directory. *)
Definition st_mtime (p : path) : result Z :=
  match lookup fs p with
  | Some (Dir mtime _) => Ok mtime
  | Some (File _) => Ok 0%Z
  | None => Raise (no_entry fs p)
  end.
End Tree.

(* ------------------------------------------------------------------------- *)
(** ** [hashlib.sha256] objects and [calculate_checksum] *)

(** A hash object is the message fed to it so far: [update] appends, and
    [hexdigest] is the SHA-256 digest of the whole, in lower-case
    hexadecimal. *)
Definition sha256_object : Type := list byte.
Definition hashlib_sha256 : sha256_object := [].
Definition update (h : sha256_object) (chunk : list byte) : sha256_object :=
  (h ++ chunk)%list.
Definition hexdigest (h : sha256_object) : string := SHA256.hexdigest h.

(** An open binary file: the bytes not read yet.  [f.read(n)] returns at most
    [n] of them and moves on. *)
Definition f_read (n : nat) (f : list byte) : list byte * list byte :=
  (firstn n f, skipn n f).

(** [for chunk in iter(lambda: f.read(4096), b""): sha256_hash.update(chunk)].
    [fuel] bounds the number of reads; a file of [n] bytes needs no more than
    [n + 1]. *)
Fixpoint read_chunks (fuel : nat) (f : list byte) (h : sha256_object) : sha256_object :=
  match fuel with
  | O => h
  | S fuel' =>
      let (chunk, f') := f_read 4096 f in
      match chunk with
      | [] => h
      | _ => read_chunks fuel' f' (update h chunk)
      end
  end.

Definition calculate_checksum (fs : filesystem) (file_path : path) : result string :=
  match read_bytes fs file_path with
  | Ok content =>
      Ok (hexdigest (read_chunks (S (List.length content)) content hashlib_sha256))
  | Raise e => Raise e
  end.

(* ------------------------------------------------------------------------- *)
(** ** The data model *)

(** The manifest [plugin.json] as [json.load] returns it: nested objects.  A
    key that may be absent is an [option]; the values that are present have
    the types the scripts use them at. *)
Module Manifest.

(** A [str.format] pattern, as Python parses it: literal text and
    replacement fields [{name}]. *)
Inductive piece : Type :=
| Text (s : string)
| Field (name : string).

Record info_section : Type := {
  id : option string;
  name : option string;
  description : option string;
  author : option string;
  license : option string;
  repository : option string;
  homepage : option string;
  tags : option (list string);
  category : option string;
  info_min_delve_version : option string
}.

Record compatibility_section : Type := {
  min_delve_version : option string;
  supported_versions : option (list string)
}.

Record assets_section : Type := { binary : option (list piece) }.

Record build_section : Type := {
  platforms : option (list string);
  assets : option assets_section
}.

Record frontend_section : Type := { entry : option string }.

Record plugin_data : Type := {
  info : option info_section;
  compatibility : option compatibility_section;
  build : option build_section;
  frontend : option frontend_section
}.

End Manifest.

(** [d[key]] on a manifest object: [KeyError] when the key is absent. *)
Definition getitem {A} (key : string) (field : option A) : result A :=
  match field with
  | Some a => Ok a
  | None => Raise (KeyError key)
  end.

(** [d.get(key, default)] *)
Definition get_default {A} (field : option A) (default : A) : A :=
  match field with
  | Some a => a
  | None => default
  end.

(** A time stamp in the output: [datetime.fromtimestamp(t).isoformat() + "Z"]
    for a modification time, [datetime.utcnow().isoformat() + "Z"] for a
    reading of the clock.  The text itself is not modelled, and a
    modification time is taken to lie in the years [datetime] can hold. *)
Inductive timestamp : Type :=
| fromtimestamp (mtime : Z)
| utcnow_at (reading : Z).

(** A key of an output object that one script leaves out, the other sets to
    [None], and both can set to a value. *)
Inductive field (A : Type) : Type :=
| Absent
| Null
| Present (a : A).
Arguments Absent {A}.
Arguments Null {A}.
Arguments Present {A} a.

Module Asset.
Record t : Type := { url : string; checksum : string; size : Z }.
End Asset.

(** ["entry"] holds what the manifest has under [frontend.entry] in one
    script, the fixed name in the other. *)
Module Frontend.
Record t : Type := { entry : option string; checksum : string }.
End Frontend.

Module Metadata.
Record t : Type := { url : string; checksum : string }.
End Metadata.

(** The value under ["compatibility"] of a version: a list of versions, or
    the manifest's whole section. *)
Inductive compatibility_value : Type :=
| CompatList (l : list string)
| CompatSection (c : Manifest.compatibility_section).

Module Version.
Record t : Type := {
  version : string;
  released : timestamp;
  compatibility : compatibility_value;
  assets : dict Asset.t;
  frontend : field Frontend.t;
  plugin_metadata : Metadata.t
}.
End Version.

Module Plugin.
Record t : Type := {
  name : string;
  description : string;
  author : string;
  license : string;
  repository : option string;
  homepage : option string;
  tags : list string;
  category : string;
  min_delve_version : string;
  versions : list Version.t
}.
End Plugin.

Module Entry.
Record t : Type := {
  id : string;
  name : string;
  description : string;
  author : string;
  category : string;
  tags : list string;
  latest_version : option string;
  min_delve_version : string
}.
End Entry.

Module Discovery.
Record t : Type := {
  plugins : list Entry.t;
  total : nat;
  last_updated : timestamp
}.
End Discovery.

Module Registry.
Record header : Type := {
  name : string;
  description : string;
  maintainer : string;
  url : string;
  api_version : string;
  last_updated : timestamp
}.

Record channel : Type := {
  channel_description : string;
  include_prerelease : bool;
  default : option bool
}.

Record category : Type := {
  category_name : string;
  category_description : string
}.

Record api : Type := {
  base_url : string;
  endpoints : dict string
}.

Record stats : Type := {
  total_plugins : nat;
  total_versions : nat;
  most_popular : list string
}.

Record t : Type := {
  registry : header;
  plugins : dict Plugin.t;
  channels : dict channel;
  categories : dict category;
  api_ : api;
  stats_ : stats
}.
End Registry.

(** What the scripts write: [registry.yml], [api/plugins.json] and one
    [api/plugins/<id>] for each plugin, each as the value given to [yaml.dump]
    or [json.dump]. *)
Inductive document : Type :=
| RegistryYml (r : Registry.t)
| PluginsJson (d : Discovery.t)
| PluginJson (p : Plugin.t).

(* ------------------------------------------------------------------------- *)
(** ** Effects: standard output, the clock, the files written, exceptions *)

Inductive effect : Type :=
| Mkdir (p : path)
| Write (p : path) (d : document).

Record world : Type := {
  stdout : list string;       (* the lines printed, oldest first *)
  effects : list effect;      (* directories made and files written, oldest first *)
  clock_reads : nat           (* how many times the clock was read *)
}.

Definition start : world := {| stdout := []; effects := []; clock_reads := 0 |}.

(** A computation runs in a world and ends with a value or an exception; what
    it printed and wrote before an exception stays. *)
Definition M (A : Type) : Type := world -> result A * world.

Definition ret {A} (a : A) : M A := fun w => (Ok a, w).
Definition raise {A} (e : exn) : M A := fun w => (Raise e, w).
Definition bind {A B} (m : M A) (k : A -> M B) : M B :=
  fun w =>
    match m w with
    | (Ok a, w') => k a w'
    | (Raise e, w') => (Raise e, w')
    end.
Definition lift {A} (r : result A) : M A := fun w => (r, w).

Notation "x <- m ;; k" := (bind m (fun x => k))
  (at level 61, m at next level, right associativity).
Notation "m ;;; k" := (bind m (fun _ => k))
  (at level 61, right associativity).

(** The world after one more line on the standard output. *)
Definition printed (line : string) (w : world) : world :=
  {| stdout := (stdout w ++ [line])%list;
     effects := effects w;
     clock_reads := clock_reads w |}.

Definition print (line : string) : M unit := fun w => (Ok tt, printed line w).

(** [for x in xs: acc = body(acc, x)], the loop variables threaded through. *)
Fixpoint for_each {A S} (xs : list A) (acc : S) (body : S -> A -> M S) : M S :=
  match xs with
  | [] => ret acc
  | x :: xs' => acc' <- body acc x ;; for_each xs' acc' body
  end.

Fixpoint path_eqb (p q : path) : bool :=
  match p, q with
  | [], [] => true
  | a :: p', b :: q' => String.eqb a b && path_eqb p' q'
  | _, _ => false
  end.

Definition made (w : world) (p : path) : bool :=
  existsb (fun e => match e with Mkdir q => path_eqb p q | Write _ _ => false end)
          (effects w).

Definition record_effect (e : effect) : M unit :=
  fun w => (Ok tt, {| stdout := stdout w;
                      effects := (effects w ++ [e])%list;
                      clock_reads := clock_reads w |}).

Section Output.
Variable fs : filesystem.

(** Is [p] a directory by now: in the tree, or made in this run. *)
Definition dir_now (w : world) (p : path) : bool := is_dir fs p || made w p.

(** [p.mkdir(exist_ok=True)] *)
Definition mkdir_exist_ok (p : path) : M unit :=
  fun w =>
    if dir_now w p then (Ok tt, w)
    else if exists_ fs p then (Raise (FileExistsError p), w)
    else if dir_now w (removelast p) then record_effect (Mkdir p) w
    else (Raise (FileNotFoundError p), w).

(** [open(p, "w")] *)
Definition open_w (p : path) : M unit :=
  fun w =>
    if dir_now w p then (Raise (IsADirectoryError p), w)
    else if dir_now w (removelast p) then (Ok tt, w)
    else if exists_ fs (removelast p) then (Raise (NotADirectoryError p), w)
    else (Raise (FileNotFoundError p), w).

(** [json.dump(d, f)] or [yaml.dump(d, f)] into the file opened at [p]. *)
Definition dump (p : path) (d : document) : M unit := record_effect (Write p d).
End Output.

(** The document a run left at [p]: the last one written there. *)
Fixpoint written_at (es : list effect) (p : path) : option document :=
  match es with
  | [] => None
  | e :: es' =>
      match written_at es' p with
      | Some d => Some d
      | None =>
          match e with
          | Write q d => if path_eqb p q then Some d else None
          | Mkdir _ => None
          end
      end
  end.

Section Clock.
(** The clock: the reading [datetime.utcnow()] returns at its [n]-th call
    of a run. *)
Variable clock : nat -> Z.

Definition utcnow : M timestamp :=
  fun w => (Ok (utcnow_at (clock (clock_reads w))),
            {| stdout := stdout w;
               effects := effects w;
               clock_reads := S (clock_reads w) |}).
End Clock.

(** [pattern.format(k1=v1, ...)] on a parsed pattern whose replacement
    fields are names and no more: a field named by a keyword is replaced by
    its value; another name raises [KeyError], a positional field ([{}] or
    [{0}]) [IndexError], as no positional argument is given.  Fields with an
    index, an attribute, a conversion or a format specification are outside
    this pattern type. *)
Definition is_digit (c : ascii) : bool :=
  (Nat.leb 48 (nat_of_ascii c) && Nat.leb (nat_of_ascii c) 57)%bool.

Fixpoint all_digits (s : string) : bool :=
  match s with
  | EmptyString => true
  | String c s' => is_digit c && all_digits s'
  end.

Fixpoint str_format (pattern : list Manifest.piece) (kwargs : dict string) : result string :=
  match pattern with
  | [] => Ok ""
  | Manifest.Text t :: rest =>
      match str_format rest kwargs with
      | Ok r => Ok (t ++ r)
      | Raise e => Raise e
      end
  | Manifest.Field name :: rest =>
      if all_digits name then Raise IndexError
      else match dict_get name kwargs with
           | None => Raise (KeyError name)
           | Some v =>
               match str_format rest kwargs with
               | Ok r => Ok (v ++ r)
               | Raise e => Raise e
               end
           end
  end.

(** The fixed parts of [registry.yml], the same in both scripts. *)
Definition registry_channels : dict Registry.channel :=
  [ ("stable", {| Registry.channel_description := "Stable, production-ready releases";
                  Registry.include_prerelease := false;
                  Registry.default := Some true |});
    ("beta", {| Registry.channel_description := "Beta releases for testing";
                Registry.include_prerelease := true;
                Registry.default := None |});
    ("development", {| Registry.channel_description := "Latest development builds";
                       Registry.include_prerelease := true;
                       Registry.default := None |}) ].

Definition registry_categories : dict Registry.category :=
  [ ("data-tools",
     {| Registry.category_name := "Data Tools";
        Registry.category_description :=
          "Plugins for data manipulation, formatting, and analysis" |});
    ("development-tools",
     {| Registry.category_name := "Development Tools";
        Registry.category_description := "Plugins for software development workflows" |});
    ("monitoring",
     {| Registry.category_name := "Monitoring & Analytics";
        Registry.category_description :=
          "Plugins for monitoring systems and analyzing metrics" |});
    ("utilities",
     {| Registry.category_name := "Utilities";
        Registry.category_description := "General purpose utility plugins" |}) ].

Definition registry_api : Registry.api :=
  {| Registry.base_url :=
       "https://raw.githubusercontent.com/PortableSheep/delve-registry/main";
     Registry.endpoints :=
       [ ("registry_metadata", "/registry.yml");
         ("plugin_list", "/api/plugins.json");
         ("plugin_details", "/api/plugins/{plugin_id}");
         ("download_asset", "/{plugin_id}/releases/{version}/{asset_name}");
         ("plugin_metadata", "/{plugin_id}/plugin.json") ] |}.

Definition registry_header (now : timestamp) : Registry.header :=
  {| Registry.name := "Official Delve Plugin Registry";
     Registry.description := "Central registry for Delve plugins";
     Registry.maintainer := "portablesheep";
     Registry.url := "https://github.com/PortableSheep/delve-registry";
     Registry.api_version := "v1";
     Registry.last_updated := now |}.

(* ------------------------------------------------------------------------- *)
(** ** [generate-registry.py] *)

Module GenerateRegistry.
Section Script.
Variable fs : filesystem.
Variable json_load : list byte -> result Manifest.plugin_data.
Variable clock : nat -> Z.

(** The name of the binary expected for [platform]: lines 61-70. *)
Definition binary_name_for (plugin_data : Manifest.plugin_data) (platform : string)
  : result (string * string * string) :=
  match split_slash platform with
  | [os_name; arch] =>
      match getitem "build" (Manifest.build plugin_data) with Raise e => Raise e | Ok build =>
      match getitem "assets" (Manifest.assets build) with Raise e => Raise e | Ok assets =>
      match getitem "binary" (Manifest.binary assets) with Raise e => Raise e | Ok binary_pattern =>
      match getitem "info" (Manifest.info plugin_data) with Raise e => Raise e | Ok info =>
      match getitem "id" (Manifest.id info) with Raise e => Raise e | Ok plugin_name =>
      match str_format binary_pattern
              [("plugin_name", plugin_name); ("os", os_name); ("arch", arch)] with
      | Raise e => Raise e
      | Ok binary_name =>
          Ok (os_name, arch,
              if String.eqb os_name "windows" then binary_name ++ ".exe" else binary_name)
      end end end end end end
  | _ => Raise ValueError
  end.

(** The frontend entry a manifest declares: [plugin_data.get("frontend",
    {}).get("entry")]. *)
Definition frontend_entry_of (plugin_data : Manifest.plugin_data) : option string :=
  match Manifest.frontend plugin_data with
  | Some f => Manifest.entry f
  | None => None
  end.

(** Truth value of an optional string: [None] and [""] are false. *)
Definition truthy (s : option string) : bool :=
  match s with
  | Some s' => negb (String.eqb s' "")
  | None => false
  end.

(** One turn of the loop over the platforms: lines 60-78. *)
Definition platform_asset (version_dir : path) (plugin_data : Manifest.plugin_data)
    (assets : dict Asset.t) (platform : string) : M (dict Asset.t) :=
  b <- lift (binary_name_for plugin_data platform) ;;
  let '(os_name, arch, binary_name) := b in
  let binary_path := version_dir // binary_name in
  if exists_ fs binary_path then
    info <- lift (getitem "info" (Manifest.info plugin_data)) ;;
    id <- lift (getitem "id" (Manifest.id info)) ;;
    checksum <- lift (calculate_checksum fs binary_path) ;;
    size <- lift (st_size fs binary_path) ;;
    ret (dict_set (os_name ++ "-" ++ arch)
           {| Asset.url := id ++ "/releases/" ++ path_name version_dir ++ "/" ++ binary_name;
              Asset.checksum := "sha256:" ++ checksum;
              Asset.size := size |} assets)
  else ret assets.

(** The frontend checksum: lines 81-89. *)
Definition frontend_checksum_of (version_dir : path) (frontend_entry : option string)
  : M (option string) :=
  if truthy frontend_entry then
    let frontend_path := version_dir // get_default frontend_entry "" in
    if exists_ fs frontend_path then
      c <- lift (calculate_checksum fs frontend_path) ;; ret (Some c)
    else ret (Some "missing")
  else ret None.

Definition process_release (version_dir : path) (plugin_data : Manifest.plugin_data)
  : M (option Version.t) :=
  (* Scan for platform binaries *)
  build <- lift (getitem "build" (Manifest.build plugin_data)) ;;
  platforms <- lift (getitem "platforms" (Manifest.platforms build)) ;;
  assets <- for_each platforms [] (platform_asset version_dir plugin_data) ;;
  (* Process frontend assets *)
  let frontend_entry := frontend_entry_of plugin_data in
  frontend_checksum <- frontend_checksum_of version_dir frontend_entry ;;
  match assets with
  | [] => ret None  (* Skip releases with no assets *)
  | _ =>
      mtime <- lift (st_mtime fs version_dir) ;;
      compatibility <- lift (getitem "compatibility" (Manifest.compatibility plugin_data)) ;;
      supported <- lift (getitem "supported_versions"
                           (Manifest.supported_versions compatibility)) ;;
      info <- lift (getitem "info" (Manifest.info plugin_data)) ;;
      id <- lift (getitem "id" (Manifest.id info)) ;;
      metadata_checksum <- lift (calculate_checksum fs ([] // id // "plugin.json")) ;;
      ret (Some
        {| Version.version := path_name version_dir;
           Version.released := fromtimestamp mtime;
           Version.compatibility := CompatList supported;
           Version.assets := assets;
           Version.frontend :=
             match frontend_checksum with
             | Some c =>
                 if truthy (Some c)
                 then Present {| Frontend.entry := frontend_entry;
                                 Frontend.checksum := "sha256:" ++ c |}
                 else Null
             | None => Null
             end;
           Version.plugin_metadata :=
             {| Metadata.url := id ++ "/plugin.json";
                Metadata.checksum := "sha256:" ++ metadata_checksum |} |})
  end.

(** One turn of the loop over the releases directory: lines 33-37. *)
Definition collect_release (releases_dir : path) (plugin_data : Manifest.plugin_data)
    (releases : list Version.t) (name : string) : M (list Version.t) :=
  let version_dir := (releases_dir ++ [name])%list in
  if is_dir fs version_dir then
    release <- process_release version_dir plugin_data ;;
    match release with
    | Some r => ret (releases ++ [r])%list
    | None => ret releases
    end
  else ret releases.

(** The releases of a plugin, in listing order: lines 29-37. *)
Definition scan_releases (plugin_dir : path) (plugin_data : Manifest.plugin_data)
  : M (list Version.t) :=
  let releases_dir := plugin_dir // "releases" in
  if exists_ fs releases_dir then
    names <- lift (listdir fs releases_dir) ;;
    for_each names [] (collect_release releases_dir plugin_data)
  else ret [].

Definition process_plugin (plugin_dir : path) (plugin_data : Manifest.plugin_data)
  : M Plugin.t :=
  releases <- scan_releases plugin_dir plugin_data ;;
  (* Sort releases by version (newest first) *)
  let releases := sort_reverse Version.version releases in
  info <- lift (getitem "info" (Manifest.info plugin_data)) ;;
  name <- lift (getitem "name" (Manifest.name info)) ;;
  description <- lift (getitem "description" (Manifest.description info)) ;;
  author <- lift (getitem "author" (Manifest.author info)) ;;
  license <- lift (getitem "license" (Manifest.license info)) ;;
  compatibility <- lift (getitem "compatibility" (Manifest.compatibility plugin_data)) ;;
  min_delve_version <- lift (getitem "min_delve_version"
                               (Manifest.min_delve_version compatibility)) ;;
  ret {| Plugin.name := name;
         Plugin.description := description;
         Plugin.author := author;
         Plugin.license := license;
         Plugin.repository := Manifest.repository info;
         Plugin.homepage := Manifest.homepage info;
         Plugin.tags := get_default (Manifest.tags info) [];
         Plugin.category := get_default (Manifest.category info) "utilities";
         Plugin.min_delve_version := min_delve_version;
         Plugin.versions := releases |}.

(** The test of line 18 on an entry of the working directory. *)
Definition candidate (name : string) : bool :=
  is_dir fs [name] && negb (String.eqb name ".github").

(** One turn of the loop over the working directory: lines 17-23. *)
Definition scan_entry (plugins : dict Plugin.t) (name : string) : M (dict Plugin.t) :=
  let plugin_dir := [name] in
  if candidate name then
    let plugin_json := plugin_dir // "plugin.json" in
    if exists_ fs plugin_json then
      content <- lift (read_bytes fs plugin_json) ;;
      plugin_data <- lift (json_load content) ;;
      plugin <- process_plugin plugin_dir plugin_data ;;
      ret (dict_set name plugin plugins)
    else ret plugins
  else ret plugins.

Definition scan_plugins : M (dict Plugin.t) :=
  names <- lift (listdir fs []) ;;
  for_each names [] scan_entry.

Definition generate_registry (plugins : dict Plugin.t) : M Registry.t :=
  now <- utcnow clock ;;
  ret {| Registry.registry := registry_header now;
         Registry.plugins := plugins;
         Registry.channels := registry_channels;
         Registry.categories := registry_categories;
         Registry.api_ := registry_api;
         Registry.stats_ :=
           {| Registry.total_plugins := List.length plugins;
              Registry.total_versions :=
                sum (map (fun p => List.length (Plugin.versions p)) (values plugins));
              Registry.most_popular := keys plugins |} |}.

(** One entry of the plugin list: lines 186-196. *)
Definition list_entry (item : string * Plugin.t) : Entry.t :=
  let (plugin_id, plugin_data) := item in
  let latest_version :=
    match Plugin.versions plugin_data with
    | v :: _ => Some v
    | [] => None
    end in
  {| Entry.id := plugin_id;
     Entry.name := Plugin.name plugin_data;
     Entry.description := Plugin.description plugin_data;
     Entry.author := Plugin.author plugin_data;
     Entry.category := Plugin.category plugin_data;
     Entry.tags := Plugin.tags plugin_data;
     Entry.latest_version :=
       match latest_version with
       | Some v => Some (Version.version v)
       | None => None
       end;
     Entry.min_delve_version := Plugin.min_delve_version plugin_data |}.

Definition generate_api_files (plugins : dict Plugin.t) : M unit :=
  (* Generate plugins.json (plugin list) *)
  let plugin_list := map list_entry plugins in
  (* Generate individual plugin detail files *)
  let api_dir := [] // "api" in
  mkdir_exist_ok fs api_dir ;;;
  let plugins_dir := api_dir // "plugins" in
  mkdir_exist_ok fs plugins_dir ;;;
  (* Write plugins.json *)
  open_w fs (api_dir // "plugins.json") ;;;
  now <- utcnow clock ;;
  dump (api_dir // "plugins.json")
    (PluginsJson {| Discovery.plugins := plugin_list;
                    Discovery.total := List.length plugin_list;
                    Discovery.last_updated := now |}) ;;;
  (* Write individual plugin files *)
  for_each plugins tt (fun _ item =>
    open_w fs (plugins_dir // fst item) ;;;
    dump (plugins_dir // fst item) (PluginJson (snd item))) ;;;
  ret tt.

Definition main : M unit :=
  print "Scanning plugins directory..." ;;;
  plugins <- scan_plugins ;;
  print ("Found " ++ str_nat (List.length plugins) ++ " plugins") ;;;
  for_each plugins tt (fun _ item =>
    let versions := List.length (Plugin.versions (snd item)) in
    print ("  - " ++ fst item ++ ": " ++ str_nat versions ++ " versions")) ;;;
  print "Generating registry.yml..." ;;;
  registry <- generate_registry plugins ;;
  open_w fs ["registry.yml"] ;;;
  dump ["registry.yml"] (RegistryYml registry) ;;;
  print "Generating API files..." ;;;
  generate_api_files plugins ;;;
  print "Registry generation complete!".

End Script.
End GenerateRegistry.

(* ------------------------------------------------------------------------- *)
(** ** [simple-registry-generator.py] *)

Module SimpleRegistryGenerator.

(** The marks that open some lines of [main], as the bytes they are printed
  with. *)
Definition mark_scanning : string :=
string_of_list_byte [xef; xa3; xbf; xc3; xbc; xc3; xae; xc3; xa7].
Definition mark_none : string :=
string_of_list_byte [xe2; x80; x9a; xc3; xb9; xc3; xa5].
Definition mark_done : string :=
string_of_list_byte [xe2; x80; x9a; xc3; xba; xc3; x96].
Definition mark_registry : string :=
string_of_list_byte [xef; xa3; xbf; xc3; xbc; xc3; xac; xc3; xb9].
Definition mark_api : string :=
string_of_list_byte [xef; xa3; xbf; xc3; xbc; xc3; xae; xc3; xa5].

Definition platforms : list string :=
["darwin-amd64"; "darwin-arm64"; "linux-amd64"; "linux-arm64"; "windows-amd64"].

Section Script.
Variable fs : filesystem.
Variable json_load : list byte -> result Manifest.plugin_data.
Variable clock : nat -> Z.

(** The name of the binary expected for [platform]: lines 82-84. *)
Definition binary_name_for (plugin_id platform : string) : string :=
  let binary_name := plugin_id ++ "-" ++ platform in
  if String.eqb platform "windows-amd64" then binary_name ++ ".exe" else binary_name.

(** One turn of the loop over the platforms: lines 81-92. *)
Definition platform_asset (version_dir : path) (plugin_id : string)
    (assets : dict Asset.t) (platform : string) : M (dict Asset.t) :=
  let binary_name := binary_name_for plugin_id platform in
  let binary_path := version_dir // binary_name in
  if exists_ fs binary_path then
    checksum <- lift (calculate_checksum fs binary_path) ;;
    size <- lift (st_size fs binary_path) ;;
    ret (dict_set platform
           {| Asset.url := plugin_id ++ "/releases/" ++ path_name version_dir
                           ++ "/" ++ binary_name;
              Asset.checksum := "sha256:" ++ checksum;
              Asset.size := size |} assets)
  else ret assets.

Definition process_version (version_dir : path) (plugin_data : Manifest.plugin_data)
  : M (option Version.t) :=
  let version := path_name version_dir in
  info <- lift (getitem "info" (Manifest.info plugin_data)) ;;
  plugin_id <- lift (getitem "id" (Manifest.id info)) ;;
  (* Find platform binaries *)
  assets <- for_each platforms [] (platform_asset version_dir plugin_id) ;;
  (* Skip if no binaries found *)
  match assets with
  | [] =>
      print ("  No binaries found for " ++ version) ;;;
      ret None
  | _ =>
      (* Build version entry *)
      mtime <- lift (st_mtime fs version_dir) ;;
      let compatibility :=
        match Manifest.compatibility plugin_data with
        | Some c => CompatSection c
        | None => CompatList ["v0.1.0"; "v0.2.0"]
        end in
      (* Add frontend if exists *)
      let frontend_file := version_dir // "component.js" in
      frontend <-
        (if exists_ fs frontend_file then
           c <- lift (calculate_checksum fs frontend_file) ;;
           ret (Present {| Frontend.entry := Some "component.js";
                           Frontend.checksum := "sha256:" ++ c |})
         else ret Absent) ;;
      (* Add plugin metadata reference *)
      metadata_checksum <-
        lift (calculate_checksum fs ([] // plugin_id // "plugin.json")) ;;
      print ("  Found version " ++ version ++ " with "
             ++ str_nat (List.length assets) ++ " platform(s)") ;;;
      ret (Some
        {| Version.version := version;
           Version.released := fromtimestamp mtime;
           Version.compatibility := compatibility;
           Version.assets := assets;
           Version.frontend := frontend;
           Version.plugin_metadata :=
             {| Metadata.url := plugin_id ++ "/plugin.json";
                Metadata.checksum := "sha256:" ++ metadata_checksum |} |})
  end.

(** The test of line 29 on an entry of the working directory: [false] is
    [continue]. *)
Definition candidate (item : string) : bool :=
  negb (negb (is_dir fs ([] // item)) || startswith "." item).

(** Lines 43-51: the versions of the releases directory, in listing
    order. *)
Definition collect_version (releases_dir : path) (plugin_data : Manifest.plugin_data)
    (versions : list Version.t) (name : string) : M (list Version.t) :=
  let version_dir := (releases_dir ++ [name])%list in
  if is_dir fs version_dir then
    version_data <- process_version version_dir plugin_data ;;
    match version_data with
    | Some v => ret (versions ++ [v])%list
    | None => ret versions
    end
  else ret versions.

Definition scan_versions (plugin_dir : path) (plugin_data : Manifest.plugin_data)
  : M (list Version.t) :=
  let releases_dir := plugin_dir // "releases" in
  if exists_ fs releases_dir then
    names <- lift (listdir fs releases_dir) ;;
    for_each names [] (collect_version releases_dir plugin_data)
  else ret [].

(** The record of a plugin with versions: lines 54-68. *)
Definition plugin_record (plugin_data : Manifest.plugin_data) (versions : list Version.t)
  : M Plugin.t :=
  (* Sort versions by semver (newest first) *)
  let versions := sort_reverse Version.version versions in
  info <- lift (getitem "info" (Manifest.info plugin_data)) ;;
  name <- lift (getitem "name" (Manifest.name info)) ;;
  description <- lift (getitem "description" (Manifest.description info)) ;;
  author <- lift (getitem "author" (Manifest.author info)) ;;
  license <- lift (getitem "license" (Manifest.license info)) ;;
  ret {| Plugin.name := name;
         Plugin.description := description;
         Plugin.author := author;
         Plugin.license := license;
         Plugin.repository := Some (get_default (Manifest.repository info) "");
         Plugin.homepage := Some (get_default (Manifest.homepage info) "");
         Plugin.tags := get_default (Manifest.tags info) [];
         Plugin.category := get_default (Manifest.category info) "utilities";
         Plugin.min_delve_version :=
           get_default (Manifest.info_min_delve_version info) "v0.1.0";
         Plugin.versions := versions |}.

(** One turn of the loop over the working directory: lines 27-68. *)
Definition scan_item (plugins : dict Plugin.t) (item : string) : M (dict Plugin.t) :=
  let plugin_dir := [] // item in
  if candidate item then
    let plugin_json := plugin_dir // "plugin.json" in
    if exists_ fs plugin_json then
      print ("Processing plugin: " ++ item) ;;;
      (* Read plugin metadata *)
      content <- lift (read_bytes fs plugin_json) ;;
      plugin_data <- lift (json_load content) ;;
      (* Process plugin releases *)
      versions <- scan_versions plugin_dir plugin_data ;;
      match versions with
      | [] => ret plugins
      | _ =>
          plugin <- plugin_record plugin_data versions ;;
          ret (dict_set item plugin plugins)
      end
    else ret plugins
  else ret plugins.

Definition scan_plugins : M (dict Plugin.t) :=
  (* Find all directories with plugin.json *)
  items <- lift (listdir fs []) ;;
  for_each items [] scan_item.

Definition generate_registry (plugins : dict Plugin.t) : M Registry.t :=
  now <- utcnow clock ;;
  ret {| Registry.registry := registry_header now;
         Registry.plugins := plugins;
         Registry.channels := registry_channels;
         Registry.categories := registry_categories;
         Registry.api_ := registry_api;
         Registry.stats_ :=
           {| Registry.total_plugins := List.length plugins;
              Registry.total_versions :=
                sum (map (fun p => List.length (Plugin.versions p)) (values plugins));
              Registry.most_popular := keys plugins |} |}.

(** One entry of the plugin list: lines 197-207. *)
Definition list_entry (item : string * Plugin.t) : Entry.t :=
  let (plugin_id, plugin_data) := item in
  let latest_version :=
    match Plugin.versions plugin_data with
    | v :: _ => Some v
    | [] => None
    end in
  {| Entry.id := plugin_id;
     Entry.name := Plugin.name plugin_data;
     Entry.description := Plugin.description plugin_data;
     Entry.author := Plugin.author plugin_data;
     Entry.category := Plugin.category plugin_data;
     Entry.tags := Plugin.tags plugin_data;
     Entry.latest_version :=
       match latest_version with
       | Some v => Some (Version.version v)
       | None => None
       end;
     Entry.min_delve_version := Plugin.min_delve_version plugin_data |}.

Definition generate_api_files (plugins : dict Plugin.t) : M unit :=
  let api_dir := [] // "api" in
  mkdir_exist_ok fs api_dir ;;;
  let plugins_dir := api_dir // "plugins" in
  mkdir_exist_ok fs plugins_dir ;;;
  (* Generate plugins.json (discovery endpoint) *)
  let plugin_list := map list_entry plugins in
  open_w fs (api_dir // "plugins.json") ;;;
  now <- utcnow clock ;;
  dump (api_dir // "plugins.json")
    (PluginsJson {| Discovery.plugins := plugin_list;
                    Discovery.total := List.length plugin_list;
                    Discovery.last_updated := now |}) ;;;
  (* Generate individual plugin detail files *)
  for_each plugins tt (fun _ item =>
    open_w fs (plugins_dir // fst item) ;;;
    dump (plugins_dir // fst item) (PluginJson (snd item))) ;;;
  ret tt.

Definition main : M unit :=
  print (mark_scanning ++ " Scanning for plugins...") ;;;
  plugins <- scan_plugins ;;
  match plugins with
  | [] => print (mark_none ++ " No plugins found")
  | _ =>
      print (mark_done ++ " Found " ++ str_nat (List.length plugins) ++ " plugins") ;;;
      print (mark_registry ++ " Generating registry.yml...") ;;;
      registry <- generate_registry plugins ;;
      open_w fs ["registry.yml"] ;;;
      dump ["registry.yml"] (RegistryYml registry) ;;;
      print (mark_api ++ " Generating API files...") ;;;
      generate_api_files plugins ;;;
      print (mark_done ++ " Registry generation complete!") ;;;
      print ("   - registry.yml: " ++ str_nat (List.length plugins) ++ " plugins") ;;;
      print "   - api/plugins.json: discovery endpoint" ;;;
      print "   - api/plugins/*: individual plugin details"
  end.

End Script.
End SimpleRegistryGenerator.

(* ------------------------------------------------------------------------- *)
(** ** The specification's version order *)

(** Semantic versions as the specification compares them: the components
    between the dots, each read as an integer, compared in order. *)
Fixpoint spec_semver_parse (s : string) (current : N) (done : list N) : list N :=
  match s with
  | EmptyString => (done ++ [current])%list
  | String c s' =>
      if Ascii.eqb c "." then spec_semver_parse s' 0%N (done ++ [current])%list
      else spec_semver_parse s' (10 * current + (N_of_ascii c - 48))%N done
  end.

Definition spec_semver (s : string) : list N := spec_semver_parse s 0%N [].

Fixpoint spec_semver_lt (a b : list N) : bool :=
  match a, b with
  | [], [] => false
  | [], _ :: _ => true
  | _ :: _, [] => false
  | x :: a', y :: b' => N.ltb x y || (N.eqb x y && spec_semver_lt a' b')
  end.

(** Strictly descending by semantic version. *)
Fixpoint spec_semver_descending (l : list string) : bool :=
  match l with
  | a :: ((b :: _) as rest) =>
      spec_semver_lt (spec_semver b) (spec_semver a) && spec_semver_descending rest
  | _ => true
  end.

(* ------------------------------------------------------------------------- *)
(** ** Sample trees *)

Definition quoted (s : string) : string := String "034"%char (s ++ String "034"%char "").

(** The text of a manifest, and the object [json.load] returns for it. *)
Definition sample_text : string :=
  "{" ++ quoted "info" ++ ": {" ++ quoted "id" ++ ": " ++ quoted "sample-plugin" ++ ", "
      ++ quoted "name" ++ ": " ++ quoted "Sample" ++ ", "
      ++ quoted "description" ++ ": " ++ quoted "A sample plugin" ++ ", "
      ++ quoted "author" ++ ": " ++ quoted "dev" ++ ", "
      ++ quoted "license" ++ ": " ++ quoted "MIT" ++ "}, "
   ++ quoted "compatibility" ++ ": {"
      ++ quoted "min_delve_version" ++ ": " ++ quoted "v0.1.0" ++ ", "
      ++ quoted "supported_versions" ++ ": [" ++ quoted "v0.1.0" ++ "]}, "
   ++ quoted "build" ++ ": {" ++ quoted "platforms" ++ ": [" ++ quoted "linux/amd64" ++ "], "
      ++ quoted "assets" ++ ": {" ++ quoted "binary" ++ ": "
      ++ quoted "{plugin_name}-{os}-{arch}" ++ "}}, "
   ++ quoted "frontend" ++ ": {" ++ quoted "entry" ++ ": " ++ quoted "component.js" ++ "}}".

Definition sample_manifest : Manifest.plugin_data :=
  {| Manifest.info := Some
       {| Manifest.id := Some "sample-plugin";
          Manifest.name := Some "Sample";
          Manifest.description := Some "A sample plugin";
          Manifest.author := Some "dev";
          Manifest.license := Some "MIT";
          Manifest.repository := None;
          Manifest.homepage := None;
          Manifest.tags := None;
          Manifest.category := None;
          Manifest.info_min_delve_version := None |};
     Manifest.compatibility := Some
       {| Manifest.min_delve_version := Some "v0.1.0";
          Manifest.supported_versions := Some ["v0.1.0"] |};
     Manifest.build := Some
       {| Manifest.platforms := Some ["linux/amd64"];
          Manifest.assets := Some
            {| Manifest.binary := Some
                 [Manifest.Field "plugin_name"; Manifest.Text "-"; Manifest.Field "os";
                  Manifest.Text "-"; Manifest.Field "arch"] |} |};
     Manifest.frontend := Some {| Manifest.entry := Some "component.js" |} |}.

(** [json.load] where the sample trees need it: on the sample manifest. *)
Definition sample_json_load (content : list byte) : result Manifest.plugin_data :=
  if String.eqb (string_of_list_byte content) sample_text then Ok sample_manifest
  else Raise JSONDecodeError.

Definition sample_clock (n : nat) : Z := 1700000000 + Z.of_nat n.

(** The sample trees are checkouts: the working directory is [/work], and
    the tree given is what it holds. *)
Definition checkout (tree : node) : filesystem :=
  {| root := Dir 0 [("work", tree)]; cwd := ["work"] |}.

(** A release directory holding the Linux binary. *)
Definition sample_release (version : string) : string * node :=
  (version, Dir 0 [("sample-plugin-linux-amd64", File (bytes_of "binary"))]).

(** One plugin with the releases 1.2.0, 1.10.0 and 1.9.0. *)
Definition tree_versions : filesystem := checkout (
  Dir 0 [ (".github", Dir 0 []);
          ("sample-plugin",
           Dir 0 [ ("plugin.json", File (bytes_of sample_text));
                   ("releases",
                    Dir 0 [ sample_release "1.2.0"; sample_release "1.10.0";
                            sample_release "1.9.0" ]) ]) ]).

(** One plugin with the release 1.0.0, without [component.js]. *)
Definition tree_one_release : filesystem := checkout (
  Dir 0 [ ("sample-plugin",
           Dir 0 [ ("plugin.json", File (bytes_of sample_text));
                   ("releases", Dir 0 [ sample_release "1.0.0" ]) ]) ]).

(** One plugin with the release 1.0.0, with [component.js]. *)
Definition tree_frontend : filesystem := checkout (
  Dir 0 [ ("sample-plugin",
           Dir 0 [ ("plugin.json", File (bytes_of sample_text));
                   ("releases",
                    Dir 0 [ ("1.0.0",
                             Dir 0 [ ("sample-plugin-linux-amd64", File (bytes_of "binary"));
                                     ("component.js", File (bytes_of "export {}")) ]) ]) ]) ]).

(** One plugin whose only release directory holds no binary. *)
Definition tree_no_binary : filesystem := checkout (
  Dir 0 [ ("sample-plugin",
           Dir 0 [ ("plugin.json", File (bytes_of sample_text));
                   ("releases", Dir 0 [ ("1.0.0", Dir 0 [("README", File (bytes_of "x"))]) ]) ]) ]).

(** One plugin directory without releases. *)
Definition tree_no_release : filesystem := checkout (
  Dir 0 [ ("sample-plugin", Dir 0 [ ("plugin.json", File (bytes_of sample_text)) ]) ]).

(** A hidden directory with a manifest, and a directory without one. *)
Definition tree_hidden : filesystem := checkout (
  Dir 0 [ (".hidden", Dir 0 [ ("plugin.json", File (bytes_of sample_text)) ]);
          ("docs", Dir 0 [ ("README", File (bytes_of "x")) ]) ]).

(* ------------------------------------------------------------------------- *)
(** ** What the statements below speak of *)

(** The detail file of one plugin. *)
Definition detail (item : string * Plugin.t) : effect :=
  Write (["api"; "plugins"] // fst item) (PluginJson (snd item)).

(** The discovery document for a plugin map. *)
Definition discovery (plugins : dict Plugin.t) (now : timestamp) : document :=
  PluginsJson {| Discovery.plugins := map GenerateRegistry.list_entry plugins;
                 Discovery.total := List.length (map GenerateRegistry.list_entry plugins);
                 Discovery.last_updated := now |}.

(** The asset describes a file of the version directory: its checksum is
    [sha256:] and the digest of the bytes of the file, its size their
    number. *)
Definition asset_of_file (fs : filesystem) (version_dir : path) (a : Asset.t) : Prop :=
  exists id binary_name content,
    Asset.url a = id ++ "/releases/" ++ path_name version_dir ++ "/" ++ binary_name
    /\ read_bytes fs (version_dir // binary_name) = Ok content
    /\ Asset.checksum a = "sha256:" ++ SHA256.hexdigest content
    /\ Asset.size a = Z.of_nat (List.length content).

(** The frontend block describes the entry file of the version directory. *)
Definition frontend_of_file (fs : filesystem) (version_dir : path) (f : Frontend.t) : Prop :=
  exists entry content,
    Frontend.entry f = Some entry
    /\ read_bytes fs (version_dir // entry) = Ok content
    /\ Frontend.checksum f = "sha256:" ++ SHA256.hexdigest content.

(** The frontend block says that the entry file is not there. *)
Definition frontend_missing (fs : filesystem) (version_dir : path) (f : Frontend.t) : Prop :=
  exists entry,
    Frontend.entry f = Some entry
    /\ exists_ fs (version_dir // entry) = false
    /\ Frontend.checksum f = "sha256:missing".

(** The manifest reference describes the [plugin.json] its URL names. *)
Definition metadata_of_file (fs : filesystem) (m : Metadata.t) : Prop :=
  exists id content,
    Metadata.url m = id ++ "/plugin.json"
    /\ read_bytes fs ([] // id // "plugin.json") = Ok content
    /\ Metadata.checksum m = "sha256:" ++ SHA256.hexdigest content.

(** Every checksum of a version record is [sha256:] and the digest of the
    file it stands for. *)
Definition checksums_are_digests (fs : filesystem) (version_dir : path) (v : Version.t) : Prop :=
  (forall k a, In (k, a) (Version.assets v) -> asset_of_file fs version_dir a)
  /\ (forall f, Version.frontend v = Present f -> frontend_of_file fs version_dir f)
  /\ metadata_of_file fs (Version.plugin_metadata v).

(** The binary [generate-registry.py] expects for [platform] is in the
    version directory. *)
Definition full_has_binary (fs : filesystem) (plugin_data : Manifest.plugin_data)
    (version_dir : path) (platform : string) : Prop :=
  exists os_name arch binary_name,
    GenerateRegistry.binary_name_for plugin_data platform = Ok (os_name, arch, binary_name)
    /\ exists_ fs (version_dir // binary_name) = true.

(** The binary [simple-registry-generator.py] expects for [platform] is in
    the version directory. *)
Definition simple_has_binary (fs : filesystem) (plugin_id : string)
    (version_dir : path) (platform : string) : Prop :=
  exists_ fs (version_dir // SimpleRegistryGenerator.binary_name_for plugin_id platform) = true.

(** The test [generate-registry.py] makes before it reads a manifest: a
    directory, not named [.github], with an entry [plugin.json]. *)
Definition full_selected (fs : filesystem) (name : string) : bool :=
  GenerateRegistry.candidate fs name && exists_ fs ([name] // "plugin.json").

(** The test [simple-registry-generator.py] makes before it reads a manifest:
    a directory whose name does not start with a dot, with an entry
    [plugin.json]. *)
Definition simple_selected (fs : filesystem) (item : string) : bool :=
  SimpleRegistryGenerator.candidate fs item && exists_ fs ([] // item // "plugin.json").

(** A release directory with at least one of the binaries the script
    expects. *)
Definition full_valid_release (fs : filesystem) (pd : Manifest.plugin_data) (version_dir : path)
  : Prop :=
  exists build platforms platform,
    Manifest.build pd = Some build
    /\ Manifest.platforms build = Some platforms
    /\ In platform platforms
    /\ full_has_binary fs pd version_dir platform.

Definition simple_valid_release (fs : filesystem) (pd : Manifest.plugin_data) (version_dir : path)
  : Prop :=
  exists info plugin_id platform,
    Manifest.info pd = Some info
    /\ Manifest.id info = Some plugin_id
    /\ In platform SimpleRegistryGenerator.platforms
    /\ simple_has_binary fs plugin_id version_dir platform.

(** A plugin directory with at least one valid release: a directory listed
    under [releases] that is a valid release. *)
Definition has_valid_release (valid : path -> Prop) (fs : filesystem) (plugin_dir : path) : Prop :=
  exists names name,
    listdir fs (plugin_dir // "releases") = Ok names
    /\ In name names
    /\ is_dir fs ((plugin_dir // "releases") ++ [name])%list = true
    /\ valid ((plugin_dir // "releases") ++ [name])%list.

(** The world with more lines on the standard output. *)
Definition with_lines (lines : list string) (w : world) : world :=
  {| stdout := (stdout w ++ lines)%list;
     effects := effects w;
     clock_reads := clock_reads w |}.

(** The plugin [generate-registry.py] records for a directory: its manifest
    loads, and its versions are empty exactly when the directory has no valid
    release. *)
Definition full_record_of (fs : filesystem) (jl : list byte -> result Manifest.plugin_data)
    (name : string) (p : Plugin.t) : Prop :=
  exists content pd,
    read_bytes fs ([name] // "plugin.json") = Ok content
    /\ jl content = Ok pd
    /\ (Plugin.versions p = [] -> ~ has_valid_release (full_valid_release fs pd) fs [name])
    /\ (Plugin.versions p <> [] -> has_valid_release (full_valid_release fs pd) fs [name]).

(** The plugin [simple-registry-generator.py] records for a directory: its
    manifest loads, the directory has a valid release and the record has
    versions. *)
Definition simple_record_of (fs : filesystem) (jl : list byte -> result Manifest.plugin_data)
    (item : string) (p : Plugin.t) : Prop :=
  exists content pd,
    read_bytes fs ([] // item // "plugin.json") = Ok content
    /\ jl content = Ok pd
    /\ has_valid_release (simple_valid_release fs pd) fs ([] // item)
    /\ Plugin.versions p <> [].

(** The line [simple-registry-generator.py] prints when it takes up a
    plugin directory. *)
Definition processing_line (item : string) : string := "Processing plugin: " ++ item.

(** Nothing in the tree stands in the way of the files the scripts write:
    [registry.yml], [api/plugins.json] and the detail files are not
    directories, and [api] and [api/plugins] are not files. *)
Definition unobstructed (fs : filesystem) (ids : list string) : Prop :=
  is_dir fs ["registry.yml"] = false
  /\ (exists_ fs ["api"] = true -> is_dir fs ["api"] = true)
  /\ (exists_ fs ["api"; "plugins"] = true -> is_dir fs ["api"; "plugins"] = true)
  /\ is_dir fs ["api"; "plugins.json"] = false
  /\ forall id, In id ids -> is_dir fs ["api"; "plugins"; id] = false.

(** A name that is one path component, as the names of directory entries
    are. *)
Definition plain_name (name : string) : Prop := parts name = [name].

(** The three outputs of a run hold the plugin [id] with the record [p]: [id]
    is a key of the plugin map written to [registry.yml], with [p] under it;
    an entry with the id [id] is in the discovery list written to
    [api/plugins.json]; and the detail file [api/plugins/<id>] holds [p]. *)
Definition in_all_outputs (es : list effect) (id : string) (p : Plugin.t) : Prop :=
  (exists r, written_at es ["registry.yml"] = Some (RegistryYml r)
             /\ dict_get id (Registry.plugins r) = Some p)
  /\ (exists d e, written_at es ["api"; "plugins.json"] = Some (PluginsJson d)
                  /\ In e (Discovery.plugins d) /\ Entry.id e = id)
  /\ written_at es ["api"; "plugins"; id] = Some (PluginJson p).

(** The plugin map of a scan that succeeded; the empty map otherwise. *)
Definition fst_ok (r : result (dict Plugin.t) * world) : dict Plugin.t :=
  match fst r with
  | Ok plugins => plugins
  | Raise _ => []
  end.

(** No plugin of a written document is without versions: no record with an
    empty version list, no discovery entry without latest version. *)
Definition no_empty_plugin (d : document) : Prop :=
  match d with
  | RegistryYml r => forall id p, In (id, p) (Registry.plugins r) -> Plugin.versions p <> []
  | PluginsJson l => forall e, In e (Discovery.plugins l) -> Entry.latest_version e <> None
  | PluginJson p => Plugin.versions p <> []
  end.

(** The latest version of a discovery entry is the version of the first
    element of the versions of the plugin, and none when there is no
    version. *)
Definition latest_version_of (p : Plugin.t) : option string :=
  match Plugin.versions p with
  | v :: _ => Some (Version.version v)
  | [] => None
  end.

(** A document without its generation time. *)
Definition erase_time (d : document) : document :=
  match d with
  | RegistryYml r =>
      RegistryYml
        {| Registry.registry :=
             {| Registry.name := Registry.name (Registry.registry r);
                Registry.description := Registry.description (Registry.registry r);
                Registry.maintainer := Registry.maintainer (Registry.registry r);
                Registry.url := Registry.url (Registry.registry r);
                Registry.api_version := Registry.api_version (Registry.registry r);
                Registry.last_updated := utcnow_at 0 |};
           Registry.plugins := Registry.plugins r;
           Registry.channels := Registry.channels r;
           Registry.categories := Registry.categories r;
           Registry.api_ := Registry.api_ r;
           Registry.stats_ := Registry.stats_ r |}
  | PluginsJson l =>
      PluginsJson {| Discovery.plugins := Discovery.plugins l;
                     Discovery.total := Discovery.total l;
                     Discovery.last_updated := utcnow_at 0 |}
  | PluginJson p => PluginJson p
  end.

Definition erase_effect_time (e : effect) : effect :=
  match e with
  | Mkdir p => Mkdir p
  | Write p d => Write p (erase_time d)
  end.

(** Two worlds that differ in the generation times written only. *)
Definition same_but_time (w1 w2 : world) : Prop :=
  stdout w1 = stdout w2
  /\ clock_reads w1 = clock_reads w2
  /\ map erase_effect_time (effects w1) = map erase_effect_time (effects w2).

(** Two outcomes that differ in the generation times only: the same
    exception or values related by [R], in such worlds. *)
Definition same_outcome {A} (R : A -> A -> Prop) (x y : result A * world) : Prop :=
  match fst x, fst y with
  | Ok a, Ok b => R a b
  | Raise e1, Raise e2 => e1 = e2
  | _, _ => False
  end
  /\ same_but_time (snd x) (snd y).

(* ------------------------------------------------------------------------- *)
(** ** Further notions: orders, tests and paths of the outputs *)

(** A version list in descending order of the version strings: no version
    is, as a string, less than one that comes after it. *)
Definition descending_as_strings (versions : list Version.t) : Prop :=
  StronglySorted (fun a b => str_lt (Version.version a) (Version.version b) = false)
                 versions.

(** The test [full_valid_release] as a computation: one of the platforms of
    the manifest has its binary in the version directory. *)
Definition full_has_some_binary (fs : filesystem) (pd : Manifest.plugin_data) (version_dir : path)
  : bool :=
  match Manifest.build pd with
  | Some build =>
      match Manifest.platforms build with
      | Some platforms =>
          existsb (fun platform =>
                     match GenerateRegistry.binary_name_for pd platform with
                     | Ok (_, _, binary_name) => exists_ fs (version_dir // binary_name)
                     | Raise _ => false
                     end) platforms
      | None => false
      end
  | None => false
  end.

(** The test [simple_valid_release] as a computation. *)
Definition simple_has_some_binary (fs : filesystem) (pd : Manifest.plugin_data) (version_dir : path)
  : bool :=
  match Manifest.info pd with
  | Some info =>
      match Manifest.id info with
      | Some plugin_id =>
          existsb (fun platform =>
                     exists_ fs (version_dir
                                 // SimpleRegistryGenerator.binary_name_for plugin_id platform))
                  SimpleRegistryGenerator.platforms
      | None => false
      end
  | None => false
  end.

(** The entries of a releases directory that give a version record: the
    directories with a binary. *)
Definition full_release_kept (fs : filesystem) (pd : Manifest.plugin_data) (releases_dir : path)
    (name : string) : bool :=
  is_dir fs (releases_dir ++ [name])%list
  && full_has_some_binary fs pd (releases_dir ++ [name])%list.

Definition simple_release_kept (fs : filesystem) (pd : Manifest.plugin_data) (releases_dir : path)
    (name : string) : bool :=
  is_dir fs (releases_dir ++ [name])%list
  && simple_has_some_binary fs pd (releases_dir ++ [name])%list.

(** The names under [releases], none when there is no such directory. *)
Definition release_names (fs : filesystem) (plugin_dir : path) : list string :=
  match listdir fs (plugin_dir // "releases") with
  | Ok names => names
  | Raise _ => []
  end.

(** The asset record of a binary with the given bytes. *)
Definition asset_for (version_dir : path) (plugin_id binary_name : string)
    (content : list byte) : Asset.t :=
  {| Asset.url := plugin_id ++ "/releases/" ++ path_name version_dir ++ "/" ++ binary_name;
     Asset.checksum := "sha256:" ++ SHA256.hexdigest content;
     Asset.size := Z.of_nat (List.length content) |}.

(** The manifest reference of a plugin id, for a manifest with the given
    bytes. *)
Definition metadata_for (plugin_id : string) (content : list byte) : Metadata.t :=
  {| Metadata.url := plugin_id ++ "/plugin.json";
     Metadata.checksum := "sha256:" ++ SHA256.hexdigest content |}.

(** The id a manifest gives under [info.id]. *)
Definition manifest_id (pd : Manifest.plugin_data) : option string :=
  match Manifest.info pd with
  | Some info => Manifest.id info
  | None => None
  end.

(** A computation that leaves the world as it is, however it ends. *)
Definition silent {A} (m : M A) : Prop := forall w, snd (m w) = w.

(** A computation that, however it ends, writes nothing, makes no directory
    and does not read the clock; it may print. *)
Definition quiet {A} (m : M A) : Prop :=
  forall w, effects (snd (m w)) = effects w
            /\ clock_reads (snd (m w)) = clock_reads w
            /\ exists lines, stdout (snd (m w)) = (stdout w ++ lines)%list.



(** The record [generate-registry.py] makes of a manifest: the manifest has
    the keys the script reads with [[]], and the fields of the record are
    those of the manifest, with the defaults of [.get]. *)
Definition full_record_fields (pd : Manifest.plugin_data) (p : Plugin.t) : Prop :=
  exists info compat,
    Manifest.info pd = Some info
    /\ Manifest.compatibility pd = Some compat
    /\ Manifest.name info = Some (Plugin.name p)
    /\ Manifest.description info = Some (Plugin.description p)
    /\ Manifest.author info = Some (Plugin.author p)
    /\ Manifest.license info = Some (Plugin.license p)
    /\ Plugin.repository p = Manifest.repository info
    /\ Plugin.homepage p = Manifest.homepage info
    /\ Plugin.tags p = get_default (Manifest.tags info) []
    /\ Plugin.category p = get_default (Manifest.category info) "utilities"
    /\ Manifest.min_delve_version compat = Some (Plugin.min_delve_version p).

(** The record [simple-registry-generator.py] makes of a manifest. *)
Definition simple_record_fields (pd : Manifest.plugin_data) (p : Plugin.t) : Prop :=
  exists info,
    Manifest.info pd = Some info
    /\ Manifest.name info = Some (Plugin.name p)
    /\ Manifest.description info = Some (Plugin.description p)
    /\ Manifest.author info = Some (Plugin.author p)
    /\ Manifest.license info = Some (Plugin.license p)
    /\ Plugin.repository p = Some (get_default (Manifest.repository info) "")
    /\ Plugin.homepage p = Some (get_default (Manifest.homepage info) "")
    /\ Plugin.tags p = get_default (Manifest.tags info) []
    /\ Plugin.category p = get_default (Manifest.category info) "utilities"
    /\ Plugin.min_delve_version p
       = get_default (Manifest.info_min_delve_version info) "v0.1.0".

(** An entry of the discovery list that repeats the record of a plugin. *)
Definition entry_of_record (item : string * Plugin.t) (e : Entry.t) : Prop :=
  Entry.id e = fst item
  /\ Entry.name e = Plugin.name (snd item)
  /\ Entry.description e = Plugin.description (snd item)
  /\ Entry.author e = Plugin.author (snd item)
  /\ Entry.category e = Plugin.category (snd item)
  /\ Entry.tags e = Plugin.tags (snd item)
  /\ Entry.min_delve_version e = Plugin.min_delve_version (snd item).

(** The line [generate-registry.py] prints for a plugin of the map. *)
Definition versions_line (item : string * Plugin.t) : string :=
  "  - " ++ fst item ++ ": " ++ str_nat (List.length (Plugin.versions (snd item)))
  ++ " versions".

(** The registry and the discovery list of a run agree: the list has one
    entry for each plugin of the registry, in the order of the plugin map,
    which is also the order of [most_popular]; the totals are the same; and
    the two generation times are the first and the second reading of the
    clock. *)
Definition documents_agree (clock : nat -> Z) (es : list effect) : Prop :=
  exists r d,
    written_at es ["registry.yml"] = Some (RegistryYml r)
    /\ written_at es ["api"; "plugins.json"] = Some (PluginsJson d)
    /\ Forall2 entry_of_record (Registry.plugins r) (Discovery.plugins d)
    /\ map Entry.id (Discovery.plugins d) = Registry.most_popular (Registry.stats_ r)
    /\ Discovery.total d = Registry.total_plugins (Registry.stats_ r)
    /\ Registry.last_updated (Registry.registry r) = utcnow_at (clock 0)
    /\ Discovery.last_updated d = utcnow_at (clock 1).

(** How often the character [c] occurs in [s]. *)
Fixpoint occurrences (c : ascii) (s : string) : nat :=
  match s with
  | EmptyString => 0
  | String c' s' => (if Ascii.eqb c' c then 1 else 0) + occurrences c s'
  end.

(** The replacement fields of a pattern. *)
Fixpoint fields_of (pattern : list Manifest.piece) : list string :=
  match pattern with
  | [] => []
  | Manifest.Text _ :: rest => fields_of rest
  | Manifest.Field name :: rest => name :: fields_of rest
  end.

(** A replacement field that is a name and no more: an identifier in ASCII
    letters, digits and [_], without an index, an attribute, a conversion or
    a format specification after it. *)
Definition is_letter (c : ascii) : bool :=
  (Nat.leb 65 (nat_of_ascii c) && Nat.leb (nat_of_ascii c) 90)
  || (Nat.leb 97 (nat_of_ascii c) && Nat.leb (nat_of_ascii c) 122)
  || Nat.eqb (nat_of_ascii c) 95.

Fixpoint all_name_characters (s : string) : bool :=
  match s with
  | EmptyString => true
  | String c s' => (is_letter c || is_digit c) && all_name_characters s'
  end.

Definition bare_field (name : string) : bool :=
  match name with
  | EmptyString => false
  | String c rest => is_letter c && all_name_characters rest
  end.

(** The pattern a manifest gives under [build.assets.binary]. *)
Definition binary_pattern_of (pd : Manifest.plugin_data) : option (list Manifest.piece) :=
  match Manifest.build pd with
  | Some build =>
      match Manifest.assets build with
      | Some assets => Manifest.binary assets
      | None => None
      end
  | None => None
  end.

(** The pattern [{plugin_name}-{os}-{arch}]. *)
Definition usual_pattern : list Manifest.piece :=
  [Manifest.Field "plugin_name"; Manifest.Text "-"; Manifest.Field "os";
   Manifest.Text "-"; Manifest.Field "arch"].

(** The five platforms of [simple-registry-generator.py], as operating
    system and architecture. *)
Definition usual_platforms : list (string * string) :=
  [("darwin", "amd64"); ("darwin", "arm64"); ("linux", "amd64"); ("linux", "arm64");
   ("windows", "amd64")].

(** The versions of a record are the entries of the releases directory that
    are kept, in descending order of their names as strings. *)
Definition versions_listed (kept : string -> bool) (fs : filesystem) (plugin_dir : path)
    (p : Plugin.t) : Prop :=
  Permutation (map Version.version (Plugin.versions p))
              (filter kept (release_names fs plugin_dir))
  /\ descending_as_strings (Plugin.versions p).

(** The entries of the working directory that [simple-registry-generator.py]
    puts in the plugin map: selected, with a manifest that loads, and with a
    release that is kept. *)
Definition simple_plugin_kept (fs : filesystem) (jl : list byte -> result Manifest.plugin_data)
    (item : string) : bool :=
  simple_selected fs item
  && match read_bytes fs ([] // item // "plugin.json") with
     | Ok content =>
         match jl content with
         | Ok pd =>
             existsb (simple_release_kept fs pd ([] // item // "releases"))
                     (release_names fs ([] // item))
         | Raise _ => false
         end
     | Raise _ => false
     end.

(** The directories a run has to make: those of [api] and [api/plugins]
    that the tree does not have. *)
Definition directories_made (fs : filesystem) : list effect :=
  ((if is_dir fs ["api"] then [] else [Mkdir ["api"]])
   ++ (if is_dir fs ["api"; "plugins"] then [] else [Mkdir ["api"; "plugins"]]))%list.



(** How many entries of the releases directory of [id] are kept, by each
    script; none when the manifest of [id] does not load. *)
Definition full_kept_count (fs : filesystem) (jl : list byte -> result Manifest.plugin_data)
    (id : string) : nat :=
  match read_bytes fs ([id] // "plugin.json") with
  | Ok content =>
      match jl content with
      | Ok pd =>
          List.length (filter (full_release_kept fs pd ([id] // "releases"))
                              (release_names fs [id]))
      | Raise _ => 0
      end
  | Raise _ => 0
  end.

Definition simple_kept_count (fs : filesystem) (jl : list byte -> result Manifest.plugin_data)
    (id : string) : nat :=
  match read_bytes fs ([] // id // "plugin.json") with
  | Ok content =>
      match jl content with
      | Ok pd =>
          List.length (filter (simple_release_kept fs pd ([] // id // "releases"))
                              (release_names fs ([] // id)))
      | Raise _ => 0
      end
  | Raise _ => 0
  end.

(** The line [simple-registry-generator.py] prints for a release directory:
    the number of platforms whose binary is there, or that there is none. *)
Definition simple_version_line (fs : filesystem) (plugin_id : string) (releases_dir : path)
    (name : string) : string :=
  let found :=
    filter (fun platform =>
              exists_ fs ((releases_dir ++ [name])%list
                          // SimpleRegistryGenerator.binary_name_for plugin_id platform))
           SimpleRegistryGenerator.platforms in
  match found with
  | [] => "  No binaries found for " ++ name
  | _ => "  Found version " ++ name ++ " with " ++ str_nat (List.length found)
         ++ " platform(s)"
  end.

(** More sample trees: a tree without plugins; a tree where [api] is a
    regular file; a tree whose manifest is not JSON; a release that holds a
    directory named like the Linux binary; and a plugin whose [releases] is a
    regular file. *)
Definition tree_no_plugin : filesystem := checkout (
  Dir 0 [ ("docs", Dir 0 [ ("README", File (bytes_of "x")) ]) ]).

Definition tree_api_file : filesystem := checkout (
  Dir 0 [ ("api", File (bytes_of "x"));
          ("sample-plugin",
           Dir 0 [ ("plugin.json", File (bytes_of sample_text));
                   ("releases", Dir 0 [ sample_release "1.0.0" ]) ]) ]).

Definition tree_broken_manifest : filesystem := checkout (
  Dir 0 [ ("broken", Dir 0 [ ("plugin.json", File (bytes_of "{")) ]) ]).


Definition tree_releases_file : filesystem := checkout (
  Dir 0 [ ("sample-plugin",
           Dir 0 [ ("plugin.json", File (bytes_of sample_text));
                   ("releases", File (bytes_of "x")) ]) ]).

(** The sample manifest with another frontend entry. *)
Definition manifest_with_entry (entry : string) : Manifest.plugin_data :=
  {| Manifest.info := Manifest.info sample_manifest;
     Manifest.compatibility := Manifest.compatibility sample_manifest;
     Manifest.build := Manifest.build sample_manifest;
     Manifest.frontend := Some {| Manifest.entry := Some entry |} |}.

(** The value of a computation that ended well; [default] otherwise. *)
Definition value_or {A} (default : A) (r : result A * world) : A :=
  match fst r with
  | Ok a => a
  | Raise _ => default
  end.

(* ------------------------------------------------------------------------- *)
(** ** Reasoning about computations *)

(** A plain name is relative, and joins a path as one more part. *)
Lemma plain_name_relative name : plain_name name -> startswith "/" name = false.
Proof.
  unfold plain_name, parts. destruct (startswith "/" name) eqn:E; [|reflexivity].
  intros H. injection H as Hname _. subst name. discriminate E.
Qed.

Lemma join_plain p name : plain_name name -> p // name = (p ++ [name])%list.
Proof.
  intros H. unfold join. rewrite (plain_name_relative H).
  unfold plain_name in H. rewrite H. reflexivity.
Qed.

(** The path of a detail file is no other output of a run. *)
Lemma detail_path_other id :
  ["api"; "plugins"] // id <> ["registry.yml"]
  /\ ["api"; "plugins"] // id <> ["api"; "plugins.json"].
Proof.
  unfold join, parts. destruct (startswith "/" id); split; discriminate.
Qed.

Lemma bind_Ok {A B} (m : M A) (k : A -> M B) w b w' :
  bind m k w = (Ok b, w') ->
  exists a w1, m w = (Ok a, w1) /\ k a w1 = (Ok b, w').
Proof.
  unfold bind. destruct (m w) as [[a|e] w1]; intros H.
  - exists a, w1. split; [reflexivity | exact H].
  - discriminate.
Qed.

Lemma lift_Ok {A} (r : result A) w a w' :
  lift r w = (Ok a, w') -> r = Ok a /\ w' = w.
Proof. unfold lift. intros H. inversion H. split; reflexivity. Qed.

Lemma ret_Ok {A} (x : A) w a w' :
  ret x w = (Ok a, w') -> a = x /\ w' = w.
Proof. unfold ret. intros H. inversion H. split; reflexivity. Qed.

Lemma bind_run {A B} (m : M A) (k : A -> M B) w a w1 :
  m w = (Ok a, w1) -> bind m k w = k a w1.
Proof. unfold bind. intros ->. reflexivity. Qed.



(** A loop none of whose turns changes anything or raises changes nothing. *)
Lemma for_each_skip {A S} (body : S -> A -> M S) :
  forall xs acc w,
    (forall x a w1, In x xs -> body a x w1 = (Ok a, w1)) ->
    for_each xs acc body w = (Ok acc, w).
Proof.
  induction xs as [|x xs IH]; intros acc w Hbody; simpl.
  - reflexivity.
  - erewrite bind_run by (apply Hbody; left; reflexivity).
    apply IH. intros. apply Hbody. right. assumption.
Qed.

(* ------------------------------------------------------------------------- *)
(** ** Dictionaries *)

Lemma dict_set_In {V} k (v : V) d k' v' :
  In (k', v') (dict_set k v d) -> (k', v') = (k, v) \/ In (k', v') d.
Proof.
  induction d as [|[k0 v0] d IH]; simpl.
  - intros [H|[]]. left. symmetry. exact H.
  - destruct (String.eqb k k0).
    + intros [H|H]; [left; symmetry; exact H | right; right; exact H].
    + intros [H|H]; [right; left; exact H | ].
      destruct (IH H) as [E|E]; [left; exact E | right; right; exact E].
Qed.

Lemma dict_set_nonempty {V} k (v : V) d : dict_set k v d <> [].
Proof. destruct d as [|[k0 v0] d]; simpl; [|destruct (String.eqb k k0)]; discriminate. Qed.


Lemma keys_dict_set_new {V} k (v : V) d :
  ~ In k (keys d) -> keys (dict_set k v d) = (keys d ++ [k])%list.
Proof.
  unfold keys. induction d as [|[k0 v0] d IH]; simpl; intros Hnot.
  - reflexivity.
  - destruct (String.eqb k k0) eqn:E.
    + apply String.eqb_eq in E. subst. exfalso. apply Hnot. left. reflexivity.
    + simpl. f_equal. apply IH. intros H. apply Hnot. right. exact H.
Qed.

Lemma keys_dict_set_In {V} k (v : V) d k' :
  In k' (keys (dict_set k v d)) <-> k' = k \/ In k' (keys d).
Proof.
  unfold keys. induction d as [|[k0 v0] d IH]; simpl.
  - split; [intros [H|[]]; left; symmetry; exact H | intros [H|[]]; left; symmetry; exact H].
  - destruct (String.eqb k k0) eqn:E; simpl.
    + apply String.eqb_eq in E. subst k0. intuition.
    + rewrite IH. intuition.
Qed.


Lemma In_dict_get {V} k (d : dict V) v :
  NoDup (keys d) -> In (k, v) d -> dict_get k d = Some v.
Proof.
  unfold keys. induction d as [|[k0 v0] d IH]; simpl; intros Hnd Hin; [contradiction|].
  inversion Hnd as [|? ? Hnot Hnd']; subst.
  destruct Hin as [H|H].
  - inversion H; subst. rewrite String.eqb_refl. reflexivity.
  - destruct (String.eqb k k0) eqn:E.
    + apply String.eqb_eq in E. subst. exfalso. apply Hnot.
      change k0 with (fst (k0, v)). apply in_map. exact H.
    + apply IH; assumption.
Qed.

Lemma dict_set_NoDup {V} k (v : V) d : NoDup (keys d) -> NoDup (keys (dict_set k v d)).
Proof.
  unfold keys. induction d as [|[k0 v0] d IH]; simpl; intros Hnd.
  - constructor; [intros [] | constructor].
  - inversion Hnd as [|? ? Hnot Hnd']; subst.
    destruct (String.eqb k k0) eqn:E; simpl.
    + apply String.eqb_eq in E. subst. constructor; assumption.
    + constructor; [|apply IH; exact Hnd'].
      intros Hin. apply (keys_dict_set_In k v d k0) in Hin.
      destruct Hin as [Heq|Hin]; [|contradiction].
      subst. rewrite String.eqb_refl in E. discriminate.
Qed.

(* ------------------------------------------------------------------------- *)
(** ** Checksums *)

(** Reading in chunks feeds the hash object the whole file. *)
Lemma read_chunks_all : forall fuel f h,
  List.length f < fuel -> read_chunks fuel f h = (h ++ f)%list.
Proof.
  induction fuel as [|fuel IH]; intros f h Hlen; [lia|].
  cbn [read_chunks]. unfold f_read. remember 4096 as n eqn:Hn.
  assert (Hpos : 0 < n) by (subst n; apply Nat.lt_0_succ).
  clear Hn.
  destruct (firstn n f) as [|b chunk] eqn:Hchunk.
  - assert (Hf : f = []).
    { destruct f as [|b f]; [reflexivity|].
      destruct n; [lia | simpl in Hchunk; discriminate]. }
    subst f. rewrite app_nil_r. reflexivity.
  - rewrite IH.
    + unfold update. rewrite <- app_assoc. rewrite <- Hchunk.
      rewrite firstn_skipn. reflexivity.
    + assert (Hs : List.length (firstn n f) + List.length (skipn n f) = List.length f).
      { rewrite <- length_app. rewrite firstn_skipn. reflexivity. }
      rewrite Hchunk in Hs. simpl in Hs. lia.
Qed.

(** [calculate_checksum] returns the hexadecimal SHA-256 digest of the bytes
    of the file, and raises what opening the path raises. *)
Lemma calculate_checksum_digest fs p :
  calculate_checksum fs p =
  match read_bytes fs p with
  | Ok content => Ok (SHA256.hexdigest content)
  | Raise e => Raise e
  end.
Proof.
  unfold calculate_checksum. destruct (read_bytes fs p) as [content|e]; [|reflexivity].
  rewrite read_chunks_all by lia. reflexivity.
Qed.

Lemma calculate_checksum_Ok fs p c :
  calculate_checksum fs p = Ok c ->
  exists content, read_bytes fs p = Ok content /\ c = SHA256.hexdigest content.
Proof.
  rewrite calculate_checksum_digest.
  destruct (read_bytes fs p) as [content|e]; intros H; inversion H.
  exists content. split; reflexivity.
Qed.

(** The implementation of SHA-256 on the test vectors of FIPS 180-4. *)
Example sha256_round_constants :
  firstn 2 SHA256.K = [0x428a2f98; 0x71374491]%Z /\ last SHA256.K 0%Z = 0xc67178f2%Z.
Proof. vm_compute. split; reflexivity. Qed.

Example sha256_of_empty :
  SHA256.hexdigest [] = "e3b0c44298fc1c149afbf4c8996fb92427ae41e4649b934ca495991b7852b855".
Proof. vm_compute. reflexivity. Qed.

Example sha256_of_abc :
  SHA256.hexdigest (bytes_of "abc")
  = "ba7816bf8f01cfea414140de5dae2223b00361a396177a9cb410ff61f20015ad".
Proof. vm_compute. reflexivity. Qed.

Example sha256_of_two_blocks :
  SHA256.hexdigest (bytes_of "abcdbcdecdefdefgefghfghighijhijkijkljklmklmnlmnomnopnopq")
  = "248d6a61d20638b8e5c026930c3e6039a33ce45964ff2167f6ecedd419db06c1".
Proof. vm_compute. reflexivity. Qed.

(** A digest is sixty-four characters long. *)
Lemma hexdigest_length msg : String.length (SHA256.hexdigest msg) = 64.
Proof. unfold SHA256.hexdigest, SHA256.hex, SHA256.hex32. reflexivity. Qed.

(* ------------------------------------------------------------------------- *)
(** ** The order of the versions *)

(** C1, on the code: with the releases 1.2.0, 1.10.0 and 1.9.0 both scripts
    emit the versions in the order 1.9.0, 1.2.0, 1.10.0, the descending order
    of the strings.  That order is not descending by semantic version; the
    order 1.10.0, 1.9.0, 1.2.0 the specification asks for is. *)
Theorem C1_versions_sorted_as_strings :
  (exists plugins w,
      GenerateRegistry.scan_plugins tree_versions sample_json_load start = (Ok plugins, w)
      /\ map (fun item => (fst item, map Version.version (Plugin.versions (snd item)))) plugins
         = [("sample-plugin", ["1.9.0"; "1.2.0"; "1.10.0"])])
  /\ (exists plugins w,
      SimpleRegistryGenerator.scan_plugins tree_versions sample_json_load start
        = (Ok plugins, w)
      /\ map (fun item => (fst item, map Version.version (Plugin.versions (snd item)))) plugins
         = [("sample-plugin", ["1.9.0"; "1.2.0"; "1.10.0"])])
  /\ spec_semver_descending ["1.9.0"; "1.2.0"; "1.10.0"] = false
  /\ spec_semver_descending ["1.10.0"; "1.9.0"; "1.2.0"] = true.
Proof.
  split; [|split; [|split]].
  - eexists. eexists. split; vm_compute; reflexivity.
  - eexists. eexists. split; vm_compute; reflexivity.
  - vm_compute. reflexivity.
  - vm_compute. reflexivity.
Qed.

(* ------------------------------------------------------------------------- *)
(** ** The registry document *)

Lemma sum_from (l : list nat) (a : nat) : fold_left Nat.add l a = a + list_sum l.
Proof.
  revert a. induction l as [|x l IH]; intros a; simpl.
  - lia.
  - rewrite IH. lia.
Qed.

Lemma sum_list_sum (l : list nat) : sum l = list_sum l.
Proof. unfold sum. rewrite sum_from. reflexivity. Qed.

(** The two scripts assemble the registry document in the same way. *)
Lemma simple_generate_registry clock plugins :
  SimpleRegistryGenerator.generate_registry clock plugins
  = GenerateRegistry.generate_registry clock plugins.
Proof. reflexivity. Qed.

(** C8: [generate_registry] always returns a document; in it [total_plugins]
    is the number of entries of the plugin map, [total_versions] the sum of
    the lengths of their version lists, and [most_popular] the list of the
    keys of the map.  This holds for both scripts. *)
Theorem C8_registry_stats :
  forall (clock : nat -> Z) (plugins : dict Plugin.t) (w : world),
    let agree (r : Registry.t) :=
      Registry.plugins r = plugins
      /\ Registry.total_plugins (Registry.stats_ r) = List.length (Registry.plugins r)
      /\ Registry.total_versions (Registry.stats_ r)
         = list_sum (map (fun item => List.length (Plugin.versions (snd item)))
                         (Registry.plugins r))
      /\ Registry.most_popular (Registry.stats_ r) = map fst (Registry.plugins r) in
    (exists r w', GenerateRegistry.generate_registry clock plugins w = (Ok r, w') /\ agree r)
    /\ (exists r w',
          SimpleRegistryGenerator.generate_registry clock plugins w = (Ok r, w') /\ agree r).
Proof.
  intros clock plugins w agree.
  assert (H : exists r w',
             GenerateRegistry.generate_registry clock plugins w = (Ok r, w') /\ agree r).
  { eexists. eexists. split; [reflexivity|].
    unfold agree. simpl. repeat split.
    rewrite sum_list_sum. unfold values. rewrite map_map. reflexivity. }
  split; [exact H | rewrite simple_generate_registry; exact H].
Qed.

(* ------------------------------------------------------------------------- *)
(** ** The files written *)

Lemma written_at_app es1 es2 p :
  written_at (es1 ++ es2) p =
  match written_at es2 p with
  | Some d => Some d
  | None => written_at es1 p
  end.
Proof.
  induction es1 as [|e es1 IH]; simpl.
  - destruct (written_at es2 p); reflexivity.
  - rewrite IH. destruct (written_at es2 p); reflexivity.
Qed.

Lemma written_at_no_write es p :
  (forall q d, ~ In (Write q d) es) -> written_at es p = None.
Proof.
  induction es as [|e es IH]; intros H; simpl; [reflexivity|].
  rewrite IH by (intros q d Hin; apply (H q d); right; exact Hin).
  destruct e as [q|q d]; [reflexivity|].
  exfalso. apply (H q d). left. reflexivity.
Qed.

Lemma written_at_In es p d : written_at es p = Some d -> In (Write p d) es.
Proof.
  induction es as [|e es IH]; simpl; [discriminate|].
  destruct (written_at es p) as [d'|] eqn:E.
  - intros H. inversion H; subst d'. right. apply IH. reflexivity.
  - destruct e as [q|q d']; [discriminate|].
    destruct (path_eqb p q) eqn:Hq; [|discriminate].
    intros H. inversion H; subst d'. left.
    revert Hq. clear. revert q.
    induction p as [|c p IHp]; intros [|c' q] Hq; simpl in Hq; try discriminate.
    + reflexivity.
    + apply andb_true_iff in Hq. destruct Hq as [Hc Hp].
      apply String.eqb_eq in Hc. subst c'. specialize (IHp q Hp).
      inversion IHp; subst. reflexivity.
Qed.

Lemma path_eqb_refl p : path_eqb p p = true.
Proof. induction p as [|c p IH]; simpl; [|rewrite String.eqb_refl, IH]; reflexivity. Qed.

Lemma path_eqb_eq p q : path_eqb p q = true <-> p = q.
Proof.
  revert q. induction p as [|c p IH]; intros [|c' q]; simpl; split; intros H;
    try reflexivity; try discriminate.
  - apply andb_true_iff in H. destruct H as [Hc Hp].
    apply String.eqb_eq in Hc. apply IH in Hp. subst. reflexivity.
  - inversion H; subst. rewrite String.eqb_refl. simpl. apply IH. reflexivity.
Qed.

Lemma mkdir_exist_ok_Ok fs p w u w' :
  mkdir_exist_ok fs p w = (Ok u, w') ->
  stdout w' = stdout w /\ clock_reads w' = clock_reads w
  /\ (effects w' = effects w \/ effects w' = (effects w ++ [Mkdir p])%list).
Proof.
  unfold mkdir_exist_ok, record_effect.
  destruct (dir_now fs w p); [intros H; inversion H; auto|].
  destruct (exists_ fs p); [discriminate|].
  destruct (dir_now fs w (removelast p)); [|discriminate].
  intros H. inversion H. simpl. auto.
Qed.

Lemma open_w_Ok fs p w u w' : open_w fs p w = (Ok u, w') -> w' = w.
Proof.
  unfold open_w.
  destruct (dir_now fs w p); [discriminate|].
  destruct (dir_now fs w (removelast p)); [intros H; inversion H; reflexivity|].
  destruct (exists_ fs (removelast p)); discriminate.
Qed.

Lemma write_details_Ok fs : forall plugins w u w',
  for_each plugins tt (fun (_ : unit) item =>
    open_w fs ([] // "api" // "plugins" // fst item) ;;;
    dump ([] // "api" // "plugins" // fst item) (PluginJson (snd item))) w = (Ok u, w') ->
  effects w' = (effects w ++ map detail plugins)%list
  /\ stdout w' = stdout w /\ clock_reads w' = clock_reads w.
Proof.
  induction plugins as [|item plugins IH]; intros w u w' H; simpl in H.
  - apply ret_Ok in H. destruct H; subst. rewrite app_nil_r. auto.
  - apply bind_Ok in H. destruct H as (a & w1 & H1 & H2).
    apply bind_Ok in H1. destruct H1 as (a1 & w2 & H3 & H4).
    apply open_w_Ok in H3. subst w2.
    unfold dump, record_effect in H4. inversion H4; subst. clear H4.
    apply IH in H2. simpl in H2. destruct H2 as (He & Hs & Hc).
    rewrite He, Hs, Hc. rewrite <- app_assoc. auto.
Qed.

(** What a successful [generate_api_files] leaves: the directories it had to
    make, then [api/plugins.json], then one detail file for each plugin, in
    the order of the map. *)
Lemma generate_api_files_Ok fs clock plugins w u w' :
  GenerateRegistry.generate_api_files fs clock plugins w = (Ok u, w') ->
  exists mk,
    (forall q d, ~ In (Write q d) mk)
    /\ effects w' =
       (effects w ++ mk
          ++ [Write ["api"; "plugins.json"]
                (discovery plugins (utcnow_at (clock (clock_reads w))))]
          ++ map detail plugins)%list
    /\ stdout w' = stdout w.
Proof.
  unfold GenerateRegistry.generate_api_files. intros H.
  apply bind_Ok in H. destruct H as (u1 & w1 & Hmk1 & H).
  apply bind_Ok in H. destruct H as (u2 & w2 & Hmk2 & H).
  apply bind_Ok in H. destruct H as (u3 & w3 & Hopen & H).
  apply bind_Ok in H. destruct H as (now & w4 & Hnow & H).
  apply bind_Ok in H. destruct H as (u5 & w5 & Hdump & H).
  apply bind_Ok in H. destruct H as (u6 & w6 & Hloop & H).
  apply ret_Ok in H. destruct H as [_ ->].
  apply mkdir_exist_ok_Ok in Hmk1. destruct Hmk1 as (Hs1 & Hc1 & He1).
  apply mkdir_exist_ok_Ok in Hmk2. destruct Hmk2 as (Hs2 & Hc2 & He2).
  apply open_w_Ok in Hopen. subst w3.
  unfold utcnow in Hnow. inversion Hnow; subst now w4. clear Hnow.
  unfold dump, record_effect in Hdump. inversion Hdump; subst w5. clear Hdump.
  apply write_details_Ok in Hloop. simpl in Hloop. destruct Hloop as (He & Hs & Hc).
  assert (Hmk : exists mk, (forall q d, ~ In (Write q d) mk)
                           /\ effects w2 = (effects w ++ mk)%list).
  { destruct He1 as [E1|E1], He2 as [E2|E2]; rewrite E2, E1.
    - exists []. split; [intros q d []|rewrite app_nil_r; reflexivity].
    - eexists [_]. split; [|reflexivity]. intros q d [X|[]]. discriminate.
    - eexists [_]. split; [|reflexivity]. intros q d [X|[]]. discriminate.
    - eexists [_; _]. split; [|rewrite <- app_assoc; reflexivity].
      intros q d [X|[X|[]]]; discriminate. }
  destruct Hmk as (mk & Hmk & Emk).
  exists mk. split; [exact Hmk|]. split.
  - rewrite He, Emk. rewrite Hc2, Hc1. unfold discovery.
    rewrite <- !app_assoc. reflexivity.
  - rewrite Hs, Hs2, Hs1. reflexivity.
Qed.

Lemma simple_generate_api_files fs clock plugins :
  SimpleRegistryGenerator.generate_api_files fs clock plugins
  = GenerateRegistry.generate_api_files fs clock plugins.
Proof. reflexivity. Qed.


Lemma written_at_details_other plugins p :
  (forall item, In item plugins -> ["api"; "plugins"] // fst item <> p) ->
  written_at (map detail plugins) p = None.
Proof.
  induction plugins as [|item plugins IH]; intros H; simpl; [reflexivity|].
  rewrite IH by (intros i Hi; apply H; right; exact Hi).
  destruct (path_eqb p (["api"; "plugins"] // fst item)) eqn:E; [|reflexivity].
  apply path_eqb_eq in E. exfalso. apply (H item); [left; reflexivity|]. symmetry. exact E.
Qed.

(** After a successful [generate_api_files], [api/plugins.json] holds the
    discovery document of the plugin map. *)
Lemma generate_api_files_discovery fs clock plugins w u w' :
  GenerateRegistry.generate_api_files fs clock plugins w = (Ok u, w') ->
  written_at (effects w') ["api"; "plugins.json"]
  = Some (discovery plugins (utcnow_at (clock (clock_reads w)))).
Proof.
  intros H. apply generate_api_files_Ok in H. destruct H as (mk & Hmk & He & _).
  rewrite He. rewrite !written_at_app.
  rewrite written_at_details_other by (intros item _; apply detail_path_other).
  simpl. reflexivity.
Qed.

(* ------------------------------------------------------------------------- *)
(** ** One release *)

(** One step [x <- lift r ;; ...] of a successful computation. *)
Ltac bind_lift H x Hx :=
  let w1 := fresh "w" in
  apply bind_Ok in H; destruct H as (x & w1 & Hx & H);
  apply lift_Ok in Hx; destruct Hx as [Hx ->].

Lemma hexdigest_not_empty msg : String.eqb (SHA256.hexdigest msg) "" = false.
Proof.
  destruct (String.eqb (SHA256.hexdigest msg) "") eqn:E; [|reflexivity].
  apply String.eqb_eq in E. pose proof (hexdigest_length msg) as L.
  rewrite E in L. discriminate.
Qed.

Lemma st_size_of_content fs p size content :
  st_size fs p = Ok size -> read_bytes fs p = Ok content ->
  size = Z.of_nat (List.length content).
Proof.
  unfold st_size, read_bytes. destruct (lookup fs p) as [[c|m es]|]; intros H1 H2;
    inversion H1; inversion H2; subst; reflexivity.
Qed.

Lemma read_bytes_exists fs p content : read_bytes fs p = Ok content -> exists_ fs p = true.
Proof.
  unfold read_bytes, exists_. destruct (lookup fs p) as [[c|m es]|]; intros H;
    try discriminate; reflexivity.
Qed.

(** One turn of the platform loop of [generate-registry.py] changes nothing
    in the world; it adds the asset of the platform when the expected binary
    is there, and leaves the assets as they are when it is not. *)
Lemma full_platform_asset_Ok fs vd pd assets platform w assets' w' :
  GenerateRegistry.platform_asset fs vd pd assets platform w = (Ok assets', w') ->
  w' = w
  /\ exists os_name arch binary_name,
       GenerateRegistry.binary_name_for pd platform = Ok (os_name, arch, binary_name)
       /\ ((exists_ fs (vd // binary_name) = false /\ assets' = assets)
           \/ (exists_ fs (vd // binary_name) = true
               /\ exists a, asset_of_file fs vd a
                            /\ assets' = dict_set (os_name ++ "-" ++ arch) a assets)).
Proof.
  unfold GenerateRegistry.platform_asset. intros H.
  apply bind_Ok in H. destruct H as ([[os_name arch] binary_name] & w1 & Hb & H).
  apply lift_Ok in Hb. destruct Hb as [Hb ->].
  destruct (exists_ fs (vd // binary_name)) eqn:Hex.
  - bind_lift H info Hinfo. bind_lift H pid Hid.
    bind_lift H checksum Hsum. bind_lift H size Hsize.
    apply ret_Ok in H. destruct H as [-> ->].
    apply calculate_checksum_Ok in Hsum. destruct Hsum as (content & Hread & ->).
    pose proof (st_size_of_content _ _ Hsize Hread) as Hlen.
    split; [reflexivity|]. exists os_name, arch, binary_name. split; [exact Hb|].
    right. split; [exact Hex|]. eexists. split; [|reflexivity].
    exists pid, binary_name, content. simpl. auto.
  - apply ret_Ok in H. destruct H as [-> ->].
    split; [reflexivity|]. exists os_name, arch, binary_name. split; [exact Hb|].
    left. split; [exact Hex | reflexivity].
Qed.

Lemma full_assets_loop fs vd pd : forall platforms assets w assets' w',
  for_each platforms assets (GenerateRegistry.platform_asset fs vd pd) w = (Ok assets', w') ->
  w' = w
  /\ (forall k a, In (k, a) assets' -> In (k, a) assets \/ asset_of_file fs vd a)
  /\ (assets' = [] <->
      assets = [] /\ forall platform, In platform platforms ->
                                      ~ full_has_binary fs pd vd platform).
Proof.
  induction platforms as [|platform platforms IH]; intros assets w assets' w' H; simpl in H.
  - apply ret_Ok in H. destruct H as [-> ->]. split; [reflexivity|]. split; [auto|].
    split; [intros ->; split; [reflexivity | intros ? []] | intros [-> _]; reflexivity].
  - apply bind_Ok in H. destruct H as (assets1 & w1 & H1 & H2).
    apply full_platform_asset_Ok in H1. destruct H1 as (-> & os_name & arch & name & Hb & Hcase).
    apply IH in H2. destruct H2 as (-> & Hin & Hempty).
    split; [reflexivity|]. split.
    + intros k a Hk. destruct (Hin k a Hk) as [Hk1|Hk1]; [|right; exact Hk1].
      destruct Hcase as [[_ ->]|(_ & a' & Ha' & ->)]; [left; exact Hk1|].
      apply dict_set_In in Hk1. destruct Hk1 as [E|E]; [|left; exact E].
      inversion E; subst. right. exact Ha'.
    + rewrite Hempty. destruct Hcase as [[Hex ->]|(Hex & a' & Ha' & ->)].
      * split.
        -- intros [-> Hno]. split; [reflexivity|]. intros p [<-|Hp]; [|apply Hno; exact Hp].
           intros (o & a & n & Hb' & Hex'). rewrite Hb in Hb'. inversion Hb'; subst.
           rewrite Hex in Hex'. discriminate.
        -- intros [-> Hno]. split; [reflexivity|]. intros p Hp. apply Hno. right. exact Hp.
      * split.
        -- intros [E _]. exfalso. exact (dict_set_nonempty _ _ _ E).
        -- intros [_ Hno]. exfalso. apply (Hno platform); [left; reflexivity|].
           exists os_name, arch, name. split; assumption.
Qed.

(** The frontend checksum of [generate-registry.py]: nothing without a
    declared entry, the digest of the entry file when it is there, and the
    word [missing] when it is not. *)
Lemma full_frontend_checksum_Ok fs vd entry r w w' :
  GenerateRegistry.frontend_checksum_of fs vd entry w = (Ok r, w') ->
  w' = w
  /\ ((GenerateRegistry.truthy entry = false /\ r = None)
      \/ (exists e, entry = Some e /\ GenerateRegistry.truthy entry = true
            /\ ((exists content, read_bytes fs (vd // e) = Ok content
                                 /\ r = Some (SHA256.hexdigest content))
                \/ (exists_ fs (vd // e) = false /\ r = Some "missing")))).
Proof.
  unfold GenerateRegistry.frontend_checksum_of. intros H.
  destruct (GenerateRegistry.truthy entry) eqn:Ht.
  - destruct entry as [e|]; [|discriminate]. simpl in H.
    destruct (exists_ fs (vd // e)) eqn:Hex.
    + bind_lift H c Hc. apply ret_Ok in H. destruct H as [-> ->].
      apply calculate_checksum_Ok in Hc. destruct Hc as (content & Hread & ->).
      split; [reflexivity|]. right. exists e. split; [reflexivity|]. split; [reflexivity|].
      left. exists content. split; [exact Hread | reflexivity].
    + apply ret_Ok in H. destruct H as [-> ->]. split; [reflexivity|]. right.
      exists e. split; [reflexivity|]. split; [reflexivity|]. right.
      split; [exact Hex | reflexivity].
  - apply ret_Ok in H. destruct H as [-> ->]. split; [reflexivity|]. left. split; reflexivity.
Qed.

(** What [process_release] returns, when it returns. *)
Lemma full_process_release_Ok fs vd pd w r w' :
  GenerateRegistry.process_release fs vd pd w = (Ok r, w') ->
  w' = w
  /\ exists platforms,
       (exists build, Manifest.build pd = Some build
                      /\ Manifest.platforms build = Some platforms)
       /\ (r = None <->
           forall platform, In platform platforms -> ~ full_has_binary fs pd vd platform)
       /\ forall v, r = Some v ->
            Version.version v = path_name vd
            /\ Version.assets v <> []
            /\ (forall k a, In (k, a) (Version.assets v) -> asset_of_file fs vd a)
            /\ metadata_of_file fs (Version.plugin_metadata v)
            /\ ((GenerateRegistry.truthy (GenerateRegistry.frontend_entry_of pd) = false
                 /\ Version.frontend v = Null)
                \/ (exists f, Version.frontend v = Present f
                      /\ Frontend.entry f = GenerateRegistry.frontend_entry_of pd
                      /\ GenerateRegistry.truthy (GenerateRegistry.frontend_entry_of pd) = true
                      /\ (frontend_of_file fs vd f \/ frontend_missing fs vd f))).
Proof.
  unfold GenerateRegistry.process_release. intros H.
  bind_lift H build Hbuild. bind_lift H platforms Hplat.
  apply bind_Ok in H. destruct H as (assets & w1 & Hloop & H).
  apply full_assets_loop in Hloop. destruct Hloop as (-> & Hin & Hempty).
  apply bind_Ok in H. destruct H as (fc & w1 & Hfc & H).
  apply full_frontend_checksum_Ok in Hfc. destruct Hfc as (-> & Hfc).
  assert (Hb : exists build0, Manifest.build pd = Some build0
                              /\ Manifest.platforms build0 = Some platforms).
  { exists build. unfold getitem in Hbuild, Hplat.
    destruct (Manifest.build pd); [|discriminate]. inversion Hbuild; subst.
    destruct (Manifest.platforms build); [|discriminate]. inversion Hplat; subst.
    split; reflexivity. }
  destruct assets as [|asset assets].
  - apply ret_Ok in H. destruct H as [-> ->]. split; [reflexivity|].
    exists platforms. split; [exact Hb|]. split.
    + split; [intros _; apply Hempty; reflexivity | reflexivity].
    + intros v Hv. discriminate.
  - bind_lift H mtime Hmtime. bind_lift H compatibility Hcompat.
    bind_lift H supported Hsupported. bind_lift H info Hinfo. bind_lift H pid Hid.
    bind_lift H checksum Hsum. apply ret_Ok in H. destruct H as [-> ->].
    split; [reflexivity|]. exists platforms. split; [exact Hb|]. split.
    + split; [discriminate|]. intros Hno.
      assert (E : asset :: assets = []) by (apply Hempty; split; [reflexivity | exact Hno]).
      discriminate.
    + intros v Hv. inversion Hv; subst v. clear Hv. simpl.
      apply calculate_checksum_Ok in Hsum. destruct Hsum as (content & Hread & ->).
      split; [reflexivity|]. split; [discriminate|]. split.
      * intros k a Hk. destruct (Hin k a Hk) as [[]|Ha]. exact Ha.
      * split; [exists pid, content; simpl; auto|].
        destruct Hfc as [[Ht ->]|(e & He & Ht & [(c & Hc & ->)|[Hex ->]])].
        -- left. split; [exact Ht | reflexivity].
        -- right. rewrite hexdigest_not_empty. cbn [negb].
           eexists. split; [reflexivity|]. simpl. split; [reflexivity|]. split; [exact Ht|].
           left. exists e, c. simpl. auto.
        -- right. simpl. eexists. split; [reflexivity|]. simpl.
           split; [reflexivity|]. split; [exact Ht|]. right. exists e. simpl. auto.
Qed.

(** Whether one of the platforms has its binary can be decided. *)
Lemma simple_has_binary_dec fs plugin_id vd : forall platforms,
  (exists platform, In platform platforms /\ simple_has_binary fs plugin_id vd platform)
  \/ (forall platform, In platform platforms -> ~ simple_has_binary fs plugin_id vd platform).
Proof.
  induction platforms as [|p platforms IH].
  - right. intros ? [].
  - unfold simple_has_binary in *.
    destruct (exists_ fs (vd // SimpleRegistryGenerator.binary_name_for plugin_id p)) eqn:E.
    + left. exists p. split; [left; reflexivity | exact E].
    + destruct IH as [(q & Hq & Hb)|Hno].
      * left. exists q. split; [right; exact Hq | exact Hb].
      * right. intros q [<-|Hq]; [rewrite E; discriminate | apply Hno; exact Hq].
Qed.

(** One turn of the platform loop of [simple-registry-generator.py]. *)
Lemma simple_platform_asset_Ok fs vd plugin_id assets platform w assets' w' :
  SimpleRegistryGenerator.platform_asset fs vd plugin_id assets platform w = (Ok assets', w') ->
  w' = w
  /\ ((~ simple_has_binary fs plugin_id vd platform /\ assets' = assets)
      \/ (simple_has_binary fs plugin_id vd platform
          /\ exists a, asset_of_file fs vd a /\ assets' = dict_set platform a assets)).
Proof.
  unfold SimpleRegistryGenerator.platform_asset, simple_has_binary. intros H.
  destruct (exists_ fs (vd // SimpleRegistryGenerator.binary_name_for plugin_id platform))
    eqn:Hex.
  - bind_lift H checksum Hsum. bind_lift H size Hsize.
    apply ret_Ok in H. destruct H as [-> ->].
    apply calculate_checksum_Ok in Hsum. destruct Hsum as (content & Hread & ->).
    pose proof (st_size_of_content _ _ Hsize Hread) as Hlen.
    split; [reflexivity|]. right. split; [reflexivity|].
    eexists. split; [|reflexivity].
    exists plugin_id, (SimpleRegistryGenerator.binary_name_for plugin_id platform), content.
    simpl. auto.
  - apply ret_Ok in H. destruct H as [-> ->]. split; [reflexivity|].
    left. split; [discriminate | reflexivity].
Qed.

Lemma simple_assets_loop fs vd plugin_id : forall platforms assets w assets' w',
  for_each platforms assets (SimpleRegistryGenerator.platform_asset fs vd plugin_id) w
    = (Ok assets', w') ->
  w' = w
  /\ (forall k a, In (k, a) assets' -> In (k, a) assets \/ asset_of_file fs vd a)
  /\ (assets' = [] <->
      assets = [] /\ forall platform, In platform platforms ->
                                      ~ simple_has_binary fs plugin_id vd platform).
Proof.
  induction platforms as [|platform platforms IH]; intros assets w assets' w' H; simpl in H.
  - apply ret_Ok in H. destruct H as [-> ->]. split; [reflexivity|]. split; [auto|].
    split; [intros ->; split; [reflexivity | intros ? []] | intros [-> _]; reflexivity].
  - apply bind_Ok in H. destruct H as (assets1 & w1 & H1 & H2).
    apply simple_platform_asset_Ok in H1. destruct H1 as (-> & Hcase).
    apply IH in H2. destruct H2 as (-> & Hin & Hempty).
    split; [reflexivity|]. split.
    + intros k a Hk. destruct (Hin k a Hk) as [Hk1|Hk1]; [|right; exact Hk1].
      destruct Hcase as [[_ ->]|(_ & a' & Ha' & ->)]; [left; exact Hk1|].
      apply dict_set_In in Hk1. destruct Hk1 as [E|E]; [|left; exact E].
      inversion E; subst. right. exact Ha'.
    + rewrite Hempty. destruct Hcase as [[Hex ->]|(Hex & a' & Ha' & ->)].
      * split.
        -- intros [-> Hno]. split; [reflexivity|]. intros p [<-|Hp]; [exact Hex|].
           apply Hno. exact Hp.
        -- intros [-> Hno]. split; [reflexivity|]. intros p Hp. apply Hno. right. exact Hp.
      * split.
        -- intros [E _]. exfalso. exact (dict_set_nonempty _ _ _ E).
        -- intros [_ Hno]. exfalso. apply (Hno platform); [left; reflexivity | exact Hex].
Qed.

(** What [process_version] returns and prints, when it returns. *)
Lemma simple_process_version_Ok fs vd pd w r w' :
  SimpleRegistryGenerator.process_version fs vd pd w = (Ok r, w') ->
  exists plugin_id,
    (exists info, Manifest.info pd = Some info /\ Manifest.id info = Some plugin_id)
    /\ ((r = None
         /\ w' = printed ("  No binaries found for " ++ path_name vd) w
         /\ forall platform, In platform SimpleRegistryGenerator.platforms ->
                             ~ simple_has_binary fs plugin_id vd platform)
        \/ (exists v,
              r = Some v
              /\ w' = printed ("  Found version " ++ path_name vd ++ " with "
                               ++ str_nat (List.length (Version.assets v))
                               ++ " platform(s)") w
              /\ (exists platform, In platform SimpleRegistryGenerator.platforms
                                   /\ simple_has_binary fs plugin_id vd platform)
              /\ Version.version v = path_name vd
              /\ Version.assets v <> []
              /\ (forall k a, In (k, a) (Version.assets v) -> asset_of_file fs vd a)
              /\ metadata_of_file fs (Version.plugin_metadata v)
              /\ ((exists_ fs (vd // "component.js") = false /\ Version.frontend v = Absent)
                  \/ (exists f, Version.frontend v = Present f
                        /\ Frontend.entry f = Some "component.js"
                        /\ frontend_of_file fs vd f)))).
Proof.
  unfold SimpleRegistryGenerator.process_version. intros H.
  bind_lift H info Hinfo. bind_lift H plugin_id Hid.
  apply bind_Ok in H. destruct H as (assets & w1 & Hloop & H).
  apply simple_assets_loop in Hloop. destruct Hloop as (-> & Hin & Hempty).
  exists plugin_id. split.
  { exists info. unfold getitem in Hinfo, Hid.
    destruct (Manifest.info pd); [|discriminate]. inversion Hinfo; subst.
    destruct (Manifest.id info); [|discriminate]. inversion Hid; subst.
    split; reflexivity. }
  destruct assets as [|asset assets].
  - apply bind_Ok in H. destruct H as (u & w1 & Hp & H).
    unfold print in Hp. inversion Hp; subst u w1. clear Hp.
    apply ret_Ok in H. destruct H as [-> ->].
    left. split; [reflexivity|]. split; [reflexivity|]. apply Hempty. reflexivity.
  - right. bind_lift H mtime Hmtime.
    apply bind_Ok in H. destruct H as (frontend & w1 & Hfe & H).
    bind_lift H checksum Hsum.
    apply bind_Ok in H. destruct H as (u & w2 & Hp & H).
    unfold print in Hp. inversion Hp; subst u w2. clear Hp.
    apply ret_Ok in H. destruct H as [-> ->].
    apply calculate_checksum_Ok in Hsum. destruct Hsum as (content & Hread & ->).
    assert (Hfront : w1 = w
                     /\ ((exists_ fs (vd // "component.js") = false /\ frontend = Absent)
                         \/ (exists f, frontend = Present f
                               /\ Frontend.entry f = Some "component.js"
                               /\ frontend_of_file fs vd f))).
    { destruct (exists_ fs (vd // "component.js")) eqn:Hex.
      - bind_lift Hfe c Hc. apply ret_Ok in Hfe. destruct Hfe as [-> ->].
        apply calculate_checksum_Ok in Hc. destruct Hc as (fc & Hfr & ->).
        split; [reflexivity|]. right. eexists. split; [reflexivity|].
        split; [reflexivity|]. exists "component.js", fc. simpl. auto.
      - apply ret_Ok in Hfe. destruct Hfe as [-> ->]. split; [reflexivity|].
        left. split; reflexivity. }
    destruct Hfront as (-> & Hfront).
    eexists. split; [reflexivity|]. simpl. split; [reflexivity|]. split.
    { destruct (simple_has_binary_dec fs plugin_id vd SimpleRegistryGenerator.platforms)
        as [Hyes|Hno]; [exact Hyes|].
      assert (E : asset :: assets = []) by (apply Hempty; split; [reflexivity | exact Hno]).
      discriminate. }
    split; [reflexivity|]. split; [discriminate|]. split.
    + intros k a Hk. destruct (Hin k a Hk) as [[]|Ha]. exact Ha.
    + split; [exists plugin_id, content; simpl; auto | exact Hfront].
Qed.

(* ------------------------------------------------------------------------- *)
(** ** Checksums, the frontend block and releases without binaries *)

(** The word [missing] is no digest. *)
Lemma missing_is_no_digest content : "sha256:missing" <> "sha256:" ++ SHA256.hexdigest content.
Proof.
  intros H. apply (f_equal String.length) in H.
  change (String.length ("sha256:" ++ SHA256.hexdigest content))
    with (7 + String.length (SHA256.hexdigest content)) in H.
  rewrite hexdigest_length in H. discriminate.
Qed.

(** C3, as stated, fails: for a release whose manifest declares the frontend
    entry [component.js] while the file is not there, [generate-registry.py]
    emits the frontend checksum [sha256:missing], which is the digest of no
    file. *)
Lemma C3_counterexample_missing_frontend :
  exists v w,
    GenerateRegistry.process_release tree_one_release
      ["sample-plugin"; "releases"; "1.0.0"] sample_manifest start = (Ok (Some v), w)
    /\ (exists f, Version.frontend v = Present f
                  /\ Frontend.checksum f = "sha256:missing"
                  /\ forall content,
                       Frontend.checksum f <> "sha256:" ++ SHA256.hexdigest content)
    /\ ~ checksums_are_digests tree_one_release ["sample-plugin"; "releases"; "1.0.0"] v.
Proof.
  eexists. eexists. split; [vm_compute; reflexivity|]. split.
  - eexists. split; [reflexivity|]. split; [reflexivity|].
    intros content. apply missing_is_no_digest.
  - intros (_ & Hf & _). destruct (Hf _ eq_refl) as (e & content & _ & _ & Hc).
    exact (missing_is_no_digest Hc).
Qed.

(** C3, amended: in every version record either script returns, the checksum
    of each asset is [sha256:] followed by the hexadecimal SHA-256 digest of
    the bytes of the binary, and the checksum of the manifest reference is
    that of the [plugin.json] its URL names.  The frontend checksum of
    [simple-registry-generator.py] is that of [component.js]; that of
    [generate-registry.py] is that of the declared entry file when the file
    exists and the text [sha256:missing] when it does not. *)
Theorem C3_checksums_are_digests_or_missing :
  (forall fs vd pd w v w',
      GenerateRegistry.process_release fs vd pd w = (Ok (Some v), w') ->
      (forall k a, In (k, a) (Version.assets v) -> asset_of_file fs vd a)
      /\ metadata_of_file fs (Version.plugin_metadata v)
      /\ (forall f, Version.frontend v = Present f ->
                    frontend_of_file fs vd f \/ frontend_missing fs vd f))
  /\ (forall fs vd pd w v w',
        SimpleRegistryGenerator.process_version fs vd pd w = (Ok (Some v), w') ->
        checksums_are_digests fs vd v).
Proof.
  split; intros fs vd pd w v w' H.
  - apply full_process_release_Ok in H. destruct H as (_ & platforms & _ & _ & Hv).
    destruct (Hv v eq_refl) as (_ & _ & Hassets & Hmeta & Hfront).
    split; [exact Hassets|]. split; [exact Hmeta|].
    intros f Hf. destruct Hfront as [[_ Hnull]|(f' & Hf' & _ & _ & Hcase)].
    + rewrite Hnull in Hf. discriminate.
    + rewrite Hf' in Hf. inversion Hf; subst. exact Hcase.
  - apply simple_process_version_Ok in H.
    destruct H as (plugin_id & _ & [(Hnone & _)|(v' & Hsome & _ & _ & _ & _ & Ha & Hm & Hf)]);
      [discriminate|].
    inversion Hsome; subst v'. split; [exact Ha|]. split; [|exact Hm].
    intros f Hpf. destruct Hf as [[_ Habs]|(f' & Hf' & _ & Hfile)].
    + rewrite Habs in Hpf. discriminate.
    + rewrite Hf' in Hpf. inversion Hpf; subst. exact Hfile.
Qed.

Lemma C3_checksums_witness :
  (exists v w',
      GenerateRegistry.process_release tree_frontend
        ["sample-plugin"; "releases"; "1.0.0"] sample_manifest start = (Ok (Some v), w')
      /\ (forall k a, In (k, a) (Version.assets v) ->
                      asset_of_file tree_frontend ["sample-plugin"; "releases"; "1.0.0"] a)
      /\ metadata_of_file tree_frontend (Version.plugin_metadata v)
      /\ (forall f, Version.frontend v = Present f ->
                    frontend_of_file tree_frontend ["sample-plugin"; "releases"; "1.0.0"] f
                    \/ frontend_missing tree_frontend
                         ["sample-plugin"; "releases"; "1.0.0"] f))
  /\ (exists v w',
        SimpleRegistryGenerator.process_version tree_frontend
          ["sample-plugin"; "releases"; "1.0.0"] sample_manifest start = (Ok (Some v), w')
        /\ checksums_are_digests tree_frontend ["sample-plugin"; "releases"; "1.0.0"] v).
Proof.
  split.
  - eexists. eexists. split; [vm_compute; reflexivity|].
    refine (proj1 C3_checksums_are_digests_or_missing tree_frontend
              ["sample-plugin"; "releases"; "1.0.0"] sample_manifest start _ _ _).
    vm_compute. reflexivity.
  - eexists. eexists. split; [vm_compute; reflexivity|].
    refine (proj2 C3_checksums_are_digests_or_missing tree_frontend
              ["sample-plugin"; "releases"; "1.0.0"] sample_manifest start _ _ _).
    vm_compute. reflexivity.
Defined.

(** C4, as stated, fails: the sample manifest declares the frontend entry
    [component.js], the release 1.0.0 has no such file, and the version
    record of [simple-registry-generator.py] has no frontend field. *)
Lemma C4_counterexample_simple_omits_frontend :
  Manifest.frontend sample_manifest = Some {| Manifest.entry := Some "component.js" |}
  /\ exists_ tree_one_release (["sample-plugin"; "releases"; "1.0.0"] // "component.js") = false
  /\ exists v w,
       SimpleRegistryGenerator.process_version tree_one_release
         ["sample-plugin"; "releases"; "1.0.0"] sample_manifest start = (Ok (Some v), w)
       /\ Version.frontend v = Absent.
Proof.
  split; [reflexivity|]. split; [reflexivity|].
  eexists. eexists. split; [vm_compute; reflexivity | reflexivity].
Qed.

(** C4, amended: when the manifest declares a non-empty frontend entry and
    that file is not in the version directory, every version record
    [generate-registry.py] returns has a frontend block with the declared
    entry and the checksum [sha256:missing].  [simple-registry-generator.py]
    does not read the declaration: its version record has a frontend block
    exactly when [component.js] is in the version directory. *)
Theorem C4_frontend_missing :
  (forall fs vd pd w v w' entry,
      Manifest.frontend pd = Some {| Manifest.entry := Some entry |} ->
      entry <> "" ->
      exists_ fs (vd // entry) = false ->
      GenerateRegistry.process_release fs vd pd w = (Ok (Some v), w') ->
      Version.frontend v = Present {| Frontend.entry := Some entry;
                                      Frontend.checksum := "sha256:missing" |})
  /\ (forall fs vd pd w v w',
        SimpleRegistryGenerator.process_version fs vd pd w = (Ok (Some v), w') ->
        (exists_ fs (vd // "component.js") = false -> Version.frontend v = Absent)
        /\ (exists_ fs (vd // "component.js") = true ->
            exists f, Version.frontend v = Present f)).
Proof.
  split.
  - intros fs vd pd w v w' entry Hdecl Hne Hex H.
    apply full_process_release_Ok in H. destruct H as (_ & platforms & _ & _ & Hv).
    destruct (Hv v eq_refl) as (_ & _ & _ & _ & Hfront).
    assert (Hentry : GenerateRegistry.frontend_entry_of pd = Some entry).
    { unfold GenerateRegistry.frontend_entry_of. rewrite Hdecl. reflexivity. }
    rewrite Hentry in Hfront.
    destruct Hfront as [[Ht _]|(f & Hf & He & _ & Hcase)].
    + simpl in Ht. apply negb_false_iff in Ht. apply String.eqb_eq in Ht. contradiction.
    + rewrite Hf. destruct f as [fe fc]. simpl in He. subst fe.
      destruct Hcase as [(e & content & He & Hread & _)|(e & He & _ & Hc)].
      * simpl in He. inversion He; subst e.
        apply read_bytes_exists in Hread. rewrite Hex in Hread. discriminate.
      * simpl in Hc. subst fc. reflexivity.
  - intros fs vd pd w v w' H. apply simple_process_version_Ok in H.
    destruct H as (plugin_id & _ & [(Hnone & _)|(v' & Hsome & _ & _ & _ & _ & _ & _ & Hf)]);
      [discriminate|].
    inversion Hsome; subst v'.
    destruct Hf as [[Hex Habs]|(f & Hf & Hname & (e & content & He & Hread & _))].
    + split; [intros _; exact Habs | intros Hyes; rewrite Hex in Hyes; discriminate].
    + split; [|intros _; exists f; exact Hf].
      intros Hno. rewrite Hname in He. inversion He; subst e.
      apply read_bytes_exists in Hread. rewrite Hno in Hread. discriminate.
Qed.

Lemma C4_frontend_missing_witness :
  (exists v w',
      GenerateRegistry.process_release tree_one_release
        ["sample-plugin"; "releases"; "1.0.0"] sample_manifest start = (Ok (Some v), w')
      /\ Version.frontend v = Present {| Frontend.entry := Some "component.js";
                                         Frontend.checksum := "sha256:missing" |})
  /\ (exists v w',
        SimpleRegistryGenerator.process_version tree_one_release
          ["sample-plugin"; "releases"; "1.0.0"] sample_manifest start = (Ok (Some v), w')
        /\ Version.frontend v = Absent)
  /\ (exists v w',
        SimpleRegistryGenerator.process_version tree_frontend
          ["sample-plugin"; "releases"; "1.0.0"] sample_manifest start = (Ok (Some v), w')
        /\ exists f, Version.frontend v = Present f).
Proof.
  split; [|split].
  - eexists. eexists. split; [vm_compute; reflexivity|].
    refine (proj1 C4_frontend_missing tree_one_release
              ["sample-plugin"; "releases"; "1.0.0"] sample_manifest start _ _
              "component.js" eq_refl _ eq_refl _).
    + discriminate.
    + vm_compute. reflexivity.
  - eexists. eexists. split; [vm_compute; reflexivity|].
    refine (proj1 (proj2 C4_frontend_missing tree_one_release
                     ["sample-plugin"; "releases"; "1.0.0"] sample_manifest start _ _ _)
              eq_refl).
    vm_compute. reflexivity.
  - eexists. eexists. split; [vm_compute; reflexivity|].
    refine (proj2 (proj2 C4_frontend_missing tree_frontend
                     ["sample-plugin"; "releases"; "1.0.0"] sample_manifest start _ _ _)
              eq_refl).
    vm_compute. reflexivity.
Defined.

(** A declared entry is resolved as the system resolves it: through [..],
    and from the root when it starts with a slash.  The entry file of the
    release 1.0.0 is found under such names, and the record holds its
    digest. *)
Lemma frontend_entry_elsewhere :
  forall entry,
    In entry ["../1.0.0/component.js"; "/work/sample-plugin/releases/1.0.0/component.js"] ->
    exists v w',
      GenerateRegistry.process_release tree_frontend ["sample-plugin"; "releases"; "1.0.0"]
        (manifest_with_entry entry) start = (Ok (Some v), w')
      /\ Version.frontend v
         = Present {| Frontend.entry := Some entry;
                      Frontend.checksum :=
                        "sha256:" ++ SHA256.hexdigest (bytes_of "export {}") |}.
Proof.
  intros entry [<-|[<-|[]]]; eexists; eexists; (split; [vm_compute; reflexivity|]);
    vm_compute; reflexivity.
Qed.






(* ------------------------------------------------------------------------- *)
(** ** The releases of a plugin *)

Lemma full_has_binary_dec fs pd vd : forall platforms,
  (exists platform, In platform platforms /\ full_has_binary fs pd vd platform)
  \/ (forall platform, In platform platforms -> ~ full_has_binary fs pd vd platform).
Proof.
  induction platforms as [|p platforms IH].
  - right. intros ? [].
  - assert (Hp : full_has_binary fs pd vd p \/ ~ full_has_binary fs pd vd p).
    { unfold full_has_binary.
      destruct (GenerateRegistry.binary_name_for pd p) as [[[o a] n]|e] eqn:Hb.
      - destruct (exists_ fs (vd // n)) eqn:Hex.
        + left. exists o, a, n. split; [reflexivity | exact Hex].
        + right. intros (o' & a' & n' & Hb' & Hex'). inversion Hb'; subst.
          rewrite Hex in Hex'. discriminate.
      - right. intros (o' & a' & n' & Hb' & _). discriminate. }
    destruct Hp as [Hyes|Hno].
    + left. exists p. split; [left; reflexivity | exact Hyes].
    + destruct IH as [(q & Hq & Hb)|Hnone].
      * left. exists q. split; [right; exact Hq | exact Hb].
      * right. intros q [<-|Hq]; [exact Hno | apply Hnone; exact Hq].
Qed.

(** [process_release] returns a record exactly for the valid releases. *)
Lemma full_process_release_valid fs vd pd w r w' :
  GenerateRegistry.process_release fs vd pd w = (Ok r, w') ->
  w' = w
  /\ (r = None -> ~ full_valid_release fs pd vd)
  /\ (forall v, r = Some v -> full_valid_release fs pd vd /\ Version.assets v <> []).
Proof.
  intros H. apply full_process_release_Ok in H.
  destruct H as (-> & platforms & (build & Hbuild & Hplat) & Hnone & Hsome).
  split; [reflexivity|]. split.
  - intros Hr (b & ps & p & Hb & Hp & Hin & Hbin).
    rewrite Hbuild in Hb. inversion Hb; subst b. rewrite Hplat in Hp. inversion Hp; subst ps.
    exact (proj1 Hnone Hr p Hin Hbin).
  - intros v Hv. split; [|apply (Hsome v Hv)].
    destruct (full_has_binary_dec fs pd vd platforms) as [(p & Hin & Hbin)|Hno].
    + exists build, platforms, p. auto.
    + rewrite (proj2 Hnone Hno) in Hv. discriminate.
Qed.

Lemma simple_process_version_valid fs vd pd w r w' :
  SimpleRegistryGenerator.process_version fs vd pd w = (Ok r, w') ->
  (exists line, w' = printed line w /\ startswith "  " line = true)
  /\ (r = None -> ~ simple_valid_release fs pd vd)
  /\ (forall v, r = Some v -> simple_valid_release fs pd vd /\ Version.assets v <> []).
Proof.
  intros H. apply simple_process_version_Ok in H.
  destruct H as (plugin_id & (info & Hinfo & Hid)
                 & [(-> & -> & Hno)|(v & -> & -> & (p & Hin & Hbin) & _ & Hne & _)]).
  - split; [eexists; split; reflexivity|]. split.
    + intros _ (i & pid & p & Hi & Hp & Hin & Hbin).
      rewrite Hinfo in Hi. inversion Hi; subst i. rewrite Hid in Hp. inversion Hp; subst pid.
      exact (Hno p Hin Hbin).
    + intros v Hv. discriminate.
  - split; [eexists; split; reflexivity|]. split; [discriminate|].
    intros v' Hv. inversion Hv; subst v'. split; [|exact Hne].
    exists info, plugin_id, p. auto.
Qed.

Lemma app_one_not_nil {A} (l : list A) (x : A) : (l ++ [x])%list <> [].
Proof. destruct l; discriminate. Qed.

(** The loop over the releases directory of [generate-registry.py] prints
    nothing and collects a record for each valid release. *)
Lemma full_releases_loop fs pd rd : forall names releases w releases' w',
  for_each names releases (GenerateRegistry.collect_release fs rd pd) w = (Ok releases', w') ->
  w' = w
  /\ (releases' = [] ->
      releases = []
      /\ forall name, In name names -> is_dir fs (rd ++ [name])%list = true ->
                      ~ full_valid_release fs pd (rd ++ [name])%list)
  /\ (releases' <> [] ->
      releases <> []
      \/ exists name, In name names /\ is_dir fs (rd ++ [name])%list = true
                      /\ full_valid_release fs pd (rd ++ [name])%list).
Proof.
  induction names as [|name names IH]; intros releases w releases' w' H; simpl in H.
  - apply ret_Ok in H. destruct H as [-> ->]. split; [reflexivity|]. split.
    + intros ->. split; [reflexivity | intros ? []].
    + intros Hne. left. exact Hne.
  - apply bind_Ok in H. destruct H as (releases1 & w1 & H1 & H2).
    apply IH in H2. destruct H2 as (-> & Hnil & Hcons).
    unfold GenerateRegistry.collect_release in H1.
    destruct (is_dir fs (rd ++ [name])%list) eqn:Hdir.
    + apply bind_Ok in H1. destruct H1 as (r & w2 & Hr & H1).
      apply full_process_release_valid in Hr. destruct Hr as (-> & Hnone & Hsome).
      destruct r as [v|]; apply ret_Ok in H1; destruct H1 as [-> ->].
      * destruct (Hsome v eq_refl) as [Hvalid _].
        split; [reflexivity|]. split.
        -- intros E. destruct (Hnil E) as [E' _]. exfalso. exact (app_one_not_nil _ _ E').
        -- intros _. right. exists name. split; [left; reflexivity|]. split; assumption.
      * split; [reflexivity|]. split.
        -- intros E. destruct (Hnil E) as [-> Hrest]. split; [reflexivity|].
           intros n [<-|Hn] Hd; [apply Hnone; reflexivity | apply Hrest; assumption].
        -- intros Hne. destruct (Hcons Hne) as [Hl|(n & Hn & Hd & Hv)]; [left; exact Hl|].
           right. exists n. split; [right; exact Hn | split; assumption].
    + apply ret_Ok in H1. destruct H1 as [-> ->]. split; [reflexivity|]. split.
      * intros E. destruct (Hnil E) as [-> Hrest]. split; [reflexivity|].
        intros n [<-|Hn] Hd; [rewrite Hdir in Hd; discriminate | apply Hrest; assumption].
      * intros Hne. destruct (Hcons Hne) as [Hl|(n & Hn & Hd & Hv)]; [left; exact Hl|].
        right. exists n. split; [right; exact Hn | split; assumption].
Qed.

Lemma listdir_exists fs p names : listdir fs p = Ok names -> exists_ fs p = true.
Proof.
  unfold listdir, exists_. destruct (lookup fs p) as [[c|m es]|]; intros H;
    try discriminate; reflexivity.
Qed.

(** The releases [generate-registry.py] collects for a plugin are empty
    exactly when the plugin has no valid release. *)
Lemma full_scan_releases_Ok fs plugin_dir pd w releases w' :
  GenerateRegistry.scan_releases fs plugin_dir pd w = (Ok releases, w') ->
  w' = w
  /\ (releases = [] -> ~ has_valid_release (full_valid_release fs pd) fs plugin_dir)
  /\ (releases <> [] -> has_valid_release (full_valid_release fs pd) fs plugin_dir).
Proof.
  unfold GenerateRegistry.scan_releases. intros H.
  destruct (exists_ fs (plugin_dir // "releases")) eqn:Hex.
  - bind_lift H names Hnames. apply full_releases_loop in H.
    destruct H as (-> & Hnil & Hcons). split; [reflexivity|]. split.
    + intros E (names' & name & Hl & Hin & Hd & Hv).
      rewrite Hnames in Hl. inversion Hl; subst names'.
      destruct (Hnil E) as [_ Hno]. exact (Hno name Hin Hd Hv).
    + intros Hne. destruct (Hcons Hne) as [Hl|(name & Hin & Hd & Hv)];
        [exfalso; apply Hl; reflexivity|].
      exists names, name. auto.
  - apply ret_Ok in H. destruct H as [-> ->]. split; [reflexivity|]. split.
    + intros _ (names' & name & Hl & _). apply listdir_exists in Hl.
      rewrite Hex in Hl. discriminate.
    + intros Hne. exfalso. apply Hne. reflexivity.
Qed.

(** Lines printed after one another. *)
Lemma with_lines_nil w : with_lines [] w = w.
Proof. destruct w. unfold with_lines. simpl. rewrite app_nil_r. reflexivity. Qed.

Lemma printed_with_lines line lines w :
  printed line (with_lines lines w) = with_lines (lines ++ [line]) w.
Proof. unfold printed, with_lines. simpl. rewrite app_assoc. reflexivity. Qed.

Lemma with_lines_with_lines l1 l2 w :
  with_lines l2 (with_lines l1 w) = with_lines (l1 ++ l2) w.
Proof. unfold with_lines. simpl. rewrite app_assoc. reflexivity. Qed.

(** The loop over the releases directory of [simple-registry-generator.py]
    prints one indented line for each release directory and collects a record
    for each valid release. *)
Lemma simple_versions_loop fs pd rd : forall names versions w versions' w',
  for_each names versions (SimpleRegistryGenerator.collect_version fs rd pd) w
    = (Ok versions', w') ->
  (exists lines, w' = with_lines lines w
                 /\ Forall (fun line => startswith "  " line = true) lines)
  /\ (versions' = [] ->
      versions = []
      /\ forall name, In name names -> is_dir fs (rd ++ [name])%list = true ->
                      ~ simple_valid_release fs pd (rd ++ [name])%list)
  /\ (versions' <> [] ->
      versions <> []
      \/ exists name, In name names /\ is_dir fs (rd ++ [name])%list = true
                      /\ simple_valid_release fs pd (rd ++ [name])%list).
Proof.
  induction names as [|name names IH]; intros versions w versions' w' H; simpl in H.
  - apply ret_Ok in H. destruct H as [-> ->]. split.
    + exists []. split; [symmetry; apply with_lines_nil | constructor].
    + split; [intros ->; split; [reflexivity | intros ? []] | intros Hne; left; exact Hne].
  - apply bind_Ok in H. destruct H as (versions1 & w1 & H1 & H2).
    apply IH in H2. destruct H2 as ((lines & -> & Hlines) & Hnil & Hcons).
    unfold SimpleRegistryGenerator.collect_version in H1.
    destruct (is_dir fs (rd ++ [name])%list) eqn:Hdir.
    + apply bind_Ok in H1. destruct H1 as (r & w2 & Hr & H1).
      apply simple_process_version_valid in Hr.
      destruct Hr as ((line & -> & Hline) & Hnone & Hsome).
      assert (Hw : exists lines0, with_lines lines (printed line w) = with_lines lines0 w
                                  /\ Forall (fun l => startswith "  " l = true) lines0).
      { exists (line :: lines). split; [|constructor; assumption].
        rewrite <- (with_lines_nil w) at 1. rewrite printed_with_lines.
        rewrite with_lines_with_lines. reflexivity. }
      destruct r as [v|]; apply ret_Ok in H1; destruct H1 as [-> ->].
      * destruct (Hsome v eq_refl) as [Hvalid _].
        split; [exact Hw|]. split.
        -- intros E. destruct (Hnil E) as [E' _]. exfalso. exact (app_one_not_nil _ _ E').
        -- intros _. right. exists name. split; [left; reflexivity|]. split; assumption.
      * split; [exact Hw|]. split.
        -- intros E. destruct (Hnil E) as [-> Hrest]. split; [reflexivity|].
           intros n [<-|Hn] Hd; [apply Hnone; reflexivity | apply Hrest; assumption].
        -- intros Hne. destruct (Hcons Hne) as [Hl|(n & Hn & Hd & Hv)]; [left; exact Hl|].
           right. exists n. split; [right; exact Hn | split; assumption].
    + apply ret_Ok in H1. destruct H1 as [-> ->]. split.
      * exists lines. split; [reflexivity | exact Hlines].
      * split.
        -- intros E. destruct (Hnil E) as [-> Hrest]. split; [reflexivity|].
           intros n [<-|Hn] Hd; [rewrite Hdir in Hd; discriminate | apply Hrest; assumption].
        -- intros Hne. destruct (Hcons Hne) as [Hl|(n & Hn & Hd & Hv)]; [left; exact Hl|].
           right. exists n. split; [right; exact Hn | split; assumption].
Qed.

Lemma simple_scan_versions_Ok fs plugin_dir pd w versions w' :
  SimpleRegistryGenerator.scan_versions fs plugin_dir pd w = (Ok versions, w') ->
  (exists lines, w' = with_lines lines w
                 /\ Forall (fun line => startswith "  " line = true) lines)
  /\ (versions = [] -> ~ has_valid_release (simple_valid_release fs pd) fs plugin_dir)
  /\ (versions <> [] -> has_valid_release (simple_valid_release fs pd) fs plugin_dir).
Proof.
  unfold SimpleRegistryGenerator.scan_versions. intros H.
  destruct (exists_ fs (plugin_dir // "releases")) eqn:Hex.
  - bind_lift H names Hnames. apply simple_versions_loop in H.
    destruct H as (Hlines & Hnil & Hcons). split; [exact Hlines|]. split.
    + intros E (names' & name & Hl & Hin & Hd & Hv).
      rewrite Hnames in Hl. inversion Hl; subst names'.
      destruct (Hnil E) as [_ Hno]. exact (Hno name Hin Hd Hv).
    + intros Hne. destruct (Hcons Hne) as [Hl|(name & Hin & Hd & Hv)];
        [exfalso; apply Hl; reflexivity|].
      exists names, name. auto.
  - apply ret_Ok in H. destruct H as [-> ->]. split.
    + exists []. split; [symmetry; apply with_lines_nil | constructor].
    + split.
      * intros _ (names' & name & Hl & _). apply listdir_exists in Hl.
        rewrite Hex in Hl. discriminate.
      * intros Hne. exfalso. apply Hne. reflexivity.
Qed.

(* ------------------------------------------------------------------------- *)
(** ** Sorting *)

Lemma insert_desc_not_nil {A} (key : A -> string) x l : insert_desc key x l <> [].
Proof. destruct l as [|y l]; simpl; [|destruct (str_lt (key x) (key y))]; discriminate. Qed.

Lemma sort_reverse_nil {A} (key : A -> string) l : sort_reverse key l = [] <-> l = [].
Proof.
  destruct l as [|x l]; simpl; split; intros H; try reflexivity; try discriminate.
  exfalso. exact (insert_desc_not_nil _ _ _ H).
Qed.

Lemma insert_desc_perm {A} (key : A -> string) x l : Permutation (x :: l) (insert_desc key x l).
Proof.
  induction l as [|y l IH]; simpl; [apply Permutation_refl|].
  destruct (str_lt (key x) (key y)); [|apply Permutation_refl].
  eapply perm_trans; [apply perm_swap | apply perm_skip; exact IH].
Qed.

(** The sorted list is in descending order of the keys as strings: no element
    has a key below that of the next. *)
Lemma insert_desc_sorted {A} (key : A -> string) x l :
  Sorted (fun a b => str_lt (key a) (key b) = false) l ->
  Sorted (fun a b => str_lt (key a) (key b) = false) (insert_desc key x l).
Proof.
  induction 1 as [|y l Hl IH Hhd]; cbn [insert_desc].
  - constructor; constructor.
  - destruct (str_lt (key x) (key y)) eqn:Hxy.
    + constructor; [exact IH|].
      assert (Hyx : str_lt (key y) (key x) = false).
      { unfold str_lt in *. rewrite String.compare_antisym.
        destruct (String.compare (key x) (key y)); try discriminate. reflexivity. }
      destruct l as [|z l]; cbn [insert_desc].
      * constructor. exact Hyx.
      * destruct (str_lt (key x) (key z)); constructor; [|exact Hyx].
        inversion Hhd; assumption.
    + constructor; [constructor; assumption|]. constructor. exact Hxy.
Qed.

Lemma sort_reverse_sorted {A} (key : A -> string) l :
  Sorted (fun a b => str_lt (key a) (key b) = false) (sort_reverse key l).
Proof.
  induction l as [|x l IH]; cbn [sort_reverse]; [constructor|].
  apply insert_desc_sorted. exact IH.
Qed.

(** Sorting keeps the elements. *)
Lemma sort_reverse_perm {A} (key : A -> string) l : Permutation l (sort_reverse key l).
Proof.
  induction l as [|x l IH]; simpl; [apply perm_nil|].
  eapply perm_trans; [apply perm_skip; exact IH | apply insert_desc_perm].
Qed.

(* ------------------------------------------------------------------------- *)
(** ** The scan of the working directory *)

Lemma full_process_plugin_Ok fs plugin_dir pd w p w' :
  GenerateRegistry.process_plugin fs plugin_dir pd w = (Ok p, w') ->
  w' = w
  /\ exists releases,
       GenerateRegistry.scan_releases fs plugin_dir pd w = (Ok releases, w)
       /\ Plugin.versions p = sort_reverse Version.version releases.
Proof.
  unfold GenerateRegistry.process_plugin. intros H.
  apply bind_Ok in H. destruct H as (releases & w1 & Hscan & H).
  pose proof (full_scan_releases_Ok _ _ _ _ Hscan) as (-> & _).
  bind_lift H info Hinfo. bind_lift H name Hname. bind_lift H description Hdesc.
  bind_lift H author Hauthor. bind_lift H license Hlicense.
  bind_lift H compatibility Hcompat. bind_lift H min_version Hmin.
  apply ret_Ok in H. destruct H as [-> ->].
  split; [reflexivity|]. exists releases. split; [exact Hscan | reflexivity].
Qed.

(** One turn of the scan of [generate-registry.py]: an entry that fails the
    test is passed over; for one that passes, the manifest is read and the
    record of the plugin is put in the map. *)
Lemma full_scan_entry_Ok fs jl plugins name w plugins' w' :
  GenerateRegistry.scan_entry fs jl plugins name w = (Ok plugins', w') ->
  w' = w
  /\ ((full_selected fs name = false /\ plugins' = plugins)
      \/ (full_selected fs name = true
          /\ exists content pd p,
               read_bytes fs ([name] // "plugin.json") = Ok content
               /\ jl content = Ok pd
               /\ GenerateRegistry.process_plugin fs [name] pd w = (Ok p, w)
               /\ plugins' = dict_set name p plugins)).
Proof.
  unfold GenerateRegistry.scan_entry, full_selected. intros H.
  destruct (GenerateRegistry.candidate fs name); simpl.
  - destruct (exists_ fs ([name] // "plugin.json")).
    + bind_lift H content Hread. bind_lift H pd Hload.
      apply bind_Ok in H. destruct H as (p & w1 & Hp & H).
      pose proof (full_process_plugin_Ok _ _ _ _ Hp) as (-> & _).
      apply ret_Ok in H. destruct H as [-> ->].
      split; [reflexivity|]. right. split; [reflexivity|].
      exists content, pd, p. auto.
    + apply ret_Ok in H. destruct H as [-> ->]. split; [reflexivity|]. left. auto.
  - apply ret_Ok in H. destruct H as [-> ->]. split; [reflexivity|]. left. auto.
Qed.

Lemma full_scan_loop fs jl : forall names plugins w plugins' w',
  for_each names plugins (GenerateRegistry.scan_entry fs jl) w = (Ok plugins', w') ->
  w' = w
  /\ (forall k, In k (keys plugins') <->
                In k (keys plugins) \/ (In k names /\ full_selected fs k = true))
  /\ (NoDup (keys plugins) -> NoDup (keys plugins'))
  /\ (forall k p, In (k, p) plugins' ->
                  In (k, p) plugins
                  \/ (In k names /\ full_selected fs k = true /\ full_record_of fs jl k p))
  /\ (NoDup names -> (forall k, In k names -> ~ In k (keys plugins)) ->
      keys plugins' = (keys plugins ++ filter (full_selected fs) names)%list).
Proof.
  induction names as [|name names IH]; intros plugins w plugins' w' H; simpl in H.
  - apply ret_Ok in H. destruct H as [-> ->]. split; [reflexivity|].
    split; [intros k; split; [auto | intros [Hk|[[] _]]; exact Hk]|].
    split; [auto|]. split; [auto|]. intros _ _. simpl. rewrite app_nil_r. reflexivity.
  - apply bind_Ok in H. destruct H as (plugins1 & w1 & H1 & H2).
    apply full_scan_entry_Ok in H1. destruct H1 as (-> & Hcase).
    apply IH in H2. destruct H2 as (-> & Hkeys & Hnd & Hin & Hord).
    split; [reflexivity|].
    destruct Hcase as [[Hsel ->]|(Hsel & content & pd & p & Hread & Hload & Hp & ->)].
    + split.
      { intros k. rewrite Hkeys. split.
        - intros [Hk|[Hk Hs]]; [left; exact Hk | right; split; [right; exact Hk | exact Hs]].
        - intros [Hk|[[<-|Hk] Hs]]; [left; exact Hk | | right; split; assumption].
          rewrite Hsel in Hs. discriminate. }
      split; [exact Hnd|]. split.
      { intros k p Hk. destruct (Hin k p Hk) as [Hl|(Hn & Hs & Hr)]; [left; exact Hl|].
        right. split; [right; exact Hn | split; assumption]. }
      intros Hnames Hfresh. inversion Hnames as [|? ? Hnot Hnames']; subst.
      simpl. rewrite Hsel. apply Hord; [exact Hnames'|].
      intros k Hk. apply Hfresh. right. exact Hk.
    + split.
      { intros k. rewrite Hkeys. rewrite keys_dict_set_In. split.
        - intros [[->|Hk]|[Hk Hs]].
          + right. split; [left; reflexivity | exact Hsel].
          + left. exact Hk.
          + right. split; [right; exact Hk | exact Hs].
        - intros [Hk|[[<-|Hk] Hs]].
          + left. right. exact Hk.
          + left. left. reflexivity.
          + right. split; assumption. }
      split; [intros Hn; apply Hnd; apply dict_set_NoDup; exact Hn|]. split.
      { intros k q Hk. destruct (Hin k q Hk) as [Hl|(Hn & Hs & Hr)].
        - apply dict_set_In in Hl. destruct Hl as [E|Hl]; [|left; exact Hl].
          inversion E; subst k q. right. split; [left; reflexivity|]. split; [exact Hsel|].
          apply full_process_plugin_Ok in Hp. destruct Hp as (_ & releases & Hscan & Hv).
          apply full_scan_releases_Ok in Hscan. destruct Hscan as (_ & Hnil & Hcons).
          exists content, pd. split; [exact Hread|]. split; [exact Hload|]. split.
          + intros E0. apply Hnil. rewrite Hv in E0. apply sort_reverse_nil in E0. exact E0.
          + intros Hne. apply Hcons. intros E0. apply Hne. rewrite Hv.
            apply sort_reverse_nil. exact E0.
        - right. split; [right; exact Hn | split; assumption]. }
      intros Hnames Hfresh. inversion Hnames as [|? ? Hnot Hnames']; subst.
      simpl. rewrite Hsel.
      rewrite Hord.
      * rewrite keys_dict_set_new by (apply Hfresh; left; reflexivity).
        rewrite <- app_assoc. reflexivity.
      * exact Hnames'.
      * intros k Hk Hin'. apply keys_dict_set_In in Hin'. destruct Hin' as [->|Hin'].
        -- contradiction.
        -- apply (Hfresh k); [right; exact Hk | exact Hin'].
Qed.

Lemma simple_plugin_record_Ok pd versions w p w' :
  SimpleRegistryGenerator.plugin_record pd versions w = (Ok p, w') ->
  w' = w /\ Plugin.versions p = sort_reverse Version.version versions.
Proof.
  unfold SimpleRegistryGenerator.plugin_record. intros H.
  bind_lift H info Hinfo. bind_lift H name Hname. bind_lift H description Hdesc.
  bind_lift H author Hauthor. bind_lift H license Hlicense.
  apply ret_Ok in H. destruct H as [-> ->]. split; reflexivity.
Qed.

(** One turn of the scan of [simple-registry-generator.py]: an entry that
    fails the test is passed over in silence; for one that passes, a line
    names it, the manifest is read, and the record of the plugin is put in
    the map when it has versions. *)
Lemma simple_scan_item_Ok fs jl plugins item w plugins' w' :
  SimpleRegistryGenerator.scan_item fs jl plugins item w = (Ok plugins', w') ->
  (simple_selected fs item = false /\ plugins' = plugins /\ w' = w)
  \/ (simple_selected fs item = true
      /\ exists content pd lines,
           read_bytes fs ([] // item // "plugin.json") = Ok content
           /\ jl content = Ok pd
           /\ w' = with_lines (processing_line item :: lines) w
           /\ Forall (fun line => startswith "  " line = true) lines
           /\ ((~ has_valid_release (simple_valid_release fs pd) fs ([] // item)
                /\ plugins' = plugins)
               \/ (has_valid_release (simple_valid_release fs pd) fs ([] // item)
                   /\ exists p, Plugin.versions p <> []
                                /\ plugins' = dict_set item p plugins))).
Proof.
  unfold SimpleRegistryGenerator.scan_item, simple_selected. intros H.
  destruct (SimpleRegistryGenerator.candidate fs item); simpl.
  - destruct (exists_ fs ([] // item // "plugin.json")).
    + right. split; [reflexivity|].
      apply bind_Ok in H. destruct H as (u & w1 & Hp & H).
      unfold print in Hp. inversion Hp; subst u w1. clear Hp.
      bind_lift H content Hread. bind_lift H pd Hload.
      apply bind_Ok in H. destruct H as (versions & w1 & Hscan & H).
      apply simple_scan_versions_Ok in Hscan.
      destruct Hscan as ((lines & -> & Hlines) & Hnil & Hcons).
      assert (Hw : with_lines lines (printed ("Processing plugin: " ++ item) w)
                   = with_lines (processing_line item :: lines) w).
      { rewrite <- (with_lines_nil w) at 1. rewrite printed_with_lines.
        rewrite with_lines_with_lines. reflexivity. }
      exists content, pd, lines. split; [exact Hread|]. split; [exact Hload|].
      destruct versions as [|v versions].
      * apply ret_Ok in H. destruct H as [-> ->].
        split; [exact Hw|]. split; [exact Hlines|]. left.
        split; [apply Hnil; reflexivity | reflexivity].
      * apply bind_Ok in H. destruct H as (p & w2 & Hrec & H).
        apply simple_plugin_record_Ok in Hrec. destruct Hrec as (-> & Hv).
        apply ret_Ok in H. destruct H as [-> ->].
        split; [exact Hw|]. split; [exact Hlines|]. right.
        split; [apply Hcons; discriminate|]. exists p. split; [|reflexivity].
        rewrite Hv. intros E. apply sort_reverse_nil in E. discriminate.
    + apply ret_Ok in H. destruct H as [-> ->]. left. auto.
  - apply ret_Ok in H. destruct H as [-> ->]. left. auto.
Qed.

Lemma startswith_append p s : startswith p (p ++ s) = true.
Proof.
  induction p as [|c p IH]; cbn [startswith append]; [reflexivity|].
  rewrite Ascii.eqb_refl. exact IH.
Qed.

Lemma indented_not_processing line :
  startswith "  " line = true -> startswith "Processing plugin: " line = false.
Proof.
  intros H. destruct line as [|c line]; [simpl in H; discriminate|].
  cbn [startswith] in H. apply andb_true_iff in H. destruct H as [E _].
  apply Ascii.eqb_eq in E. subst c. reflexivity.
Qed.

Lemma filter_indented lines :
  Forall (fun line => startswith "  " line = true) lines ->
  filter (startswith "Processing plugin: ") lines = [].
Proof.
  induction 1 as [|line lines Hline _ IH]; [reflexivity|].
  cbn [filter]. rewrite indented_not_processing by exact Hline. exact IH.
Qed.

Lemma simple_scan_loop fs jl : forall items plugins w plugins' w',
  for_each items plugins (SimpleRegistryGenerator.scan_item fs jl) w = (Ok plugins', w') ->
  (exists lines,
      w' = with_lines lines w
      /\ filter (startswith "Processing plugin: ") lines
         = map processing_line (filter (simple_selected fs) items))
  /\ (NoDup (keys plugins) -> NoDup (keys plugins'))
  /\ (forall k, In k (keys plugins) -> In k (keys plugins'))
  /\ (forall k p, In (k, p) plugins' ->
                  In (k, p) plugins
                  \/ (In k items /\ simple_selected fs k = true /\ simple_record_of fs jl k p))
  /\ (forall k content pd,
        In k items -> simple_selected fs k = true ->
        read_bytes fs ([] // k // "plugin.json") = Ok content ->
        jl content = Ok pd ->
        has_valid_release (simple_valid_release fs pd) fs ([] // k) ->
        In k (keys plugins')).
Proof.
  induction items as [|item items IH]; intros plugins w plugins' w' H; simpl in H.
  - apply ret_Ok in H. destruct H as [-> ->]. split.
    + exists []. split; [symmetry; apply with_lines_nil | reflexivity].
    + split; [auto|]. split; [auto|]. split; [auto|]. intros k content pd [].
  - apply bind_Ok in H. destruct H as (plugins1 & w1 & H1 & H2).
    apply simple_scan_item_Ok in H1.
    apply IH in H2. destruct H2 as ((lines2 & -> & Hfilter) & Hnd & Hmono & Hin & Hvalid).
    destruct H1 as [(Hsel & -> & ->)
                   |(Hsel & content & pd & lines1 & Hread & Hload & -> & Hlines1 & Hcase)].
    + split.
      { exists lines2. split; [reflexivity|]. cbn [filter]. rewrite Hsel. exact Hfilter. }
      split; [exact Hnd|]. split; [exact Hmono|]. split.
      { intros k p Hk. destruct (Hin k p Hk) as [Hl|(Hn & Hs & Hr)]; [left; exact Hl|].
        right. split; [right; exact Hn | split; assumption]. }
      intros k c d [<-|Hk] Hs; [rewrite Hsel in Hs; discriminate|].
      apply Hvalid; assumption.
    + split.
      { exists ((processing_line item :: lines1) ++ lines2)%list.
        split; [apply with_lines_with_lines|].
        rewrite filter_app. cbn [filter]. unfold processing_line at 1.
        rewrite startswith_append. rewrite filter_indented by exact Hlines1.
        cbn [filter app]. rewrite Hsel. cbn [map]. rewrite Hfilter. reflexivity. }
      destruct Hcase as [[Hno ->]|(Hyes & p & Hp & ->)].
      * split; [exact Hnd|]. split; [exact Hmono|]. split.
        { intros k q Hk. destruct (Hin k q Hk) as [Hl|(Hn & Hs & Hr)]; [left; exact Hl|].
          right. split; [right; exact Hn | split; assumption]. }
        intros k c d [<-|Hk] Hs Hr Hl Hv; [|eapply Hvalid; eassumption].
        rewrite Hread in Hr. inversion Hr; subst c.
        rewrite Hload in Hl. inversion Hl; subst d. contradiction.
      * split; [intros Hn; apply Hnd; apply dict_set_NoDup; exact Hn|].
        split; [intros k Hk; apply Hmono; apply keys_dict_set_In; right; exact Hk|].
        split.
        { intros k q Hk. destruct (Hin k q Hk) as [Hl|(Hn & Hs & Hr)].
          - apply dict_set_In in Hl. destruct Hl as [E|Hl]; [|left; exact Hl].
            inversion E; subst k q. right. split; [left; reflexivity|]. split; [exact Hsel|].
            exists content, pd. auto.
          - right. split; [right; exact Hn | split; assumption]. }
        intros k c d [<-|Hk] Hs Hr Hl Hv; [|eapply Hvalid; eassumption].
        apply Hmono. apply keys_dict_set_In. left. reflexivity.
Qed.

(** What a successful scan of [generate-registry.py] returns: nothing is
    printed; the keys of the map are the selected entries of the working
    directory, each only once, and the record of each is that of its
    directory. *)
Lemma full_scan_plugins_Ok fs jl w plugins w' :
  GenerateRegistry.scan_plugins fs jl w = (Ok plugins, w') ->
  exists names,
    listdir fs [] = Ok names
    /\ w' = w
    /\ NoDup (keys plugins)
    /\ (forall k, In k (keys plugins) <-> In k names /\ full_selected fs k = true)
    /\ (forall k p, In (k, p) plugins -> full_record_of fs jl k p)
    /\ (NoDup names -> keys plugins = filter (full_selected fs) names).
Proof.
  unfold GenerateRegistry.scan_plugins. intros H. bind_lift H names Hnames.
  apply full_scan_loop in H. destruct H as (-> & Hkeys & Hnd & Hin & Hord).
  exists names. split; [exact Hnames|]. split; [reflexivity|].
  split; [apply Hnd; constructor|]. split.
  - intros k. rewrite Hkeys. simpl. tauto.
  - split.
    + intros k p Hk. destruct (Hin k p Hk) as [[]|(_ & _ & Hr)]. exact Hr.
    + intros Hn. apply Hord; [exact Hn | intros k _ []].
Qed.

(** What a successful scan of [simple-registry-generator.py] returns and
    prints. *)
Lemma simple_scan_plugins_Ok fs jl w plugins w' :
  SimpleRegistryGenerator.scan_plugins fs jl w = (Ok plugins, w') ->
  exists items,
    listdir fs [] = Ok items
    /\ (exists lines,
          w' = with_lines lines w
          /\ filter (startswith "Processing plugin: ") lines
             = map processing_line (filter (simple_selected fs) items))
    /\ NoDup (keys plugins)
    /\ (forall k p, In (k, p) plugins ->
                    In k items /\ simple_selected fs k = true /\ simple_record_of fs jl k p)
    /\ (forall k content pd,
          In k items -> simple_selected fs k = true ->
          read_bytes fs ([] // k // "plugin.json") = Ok content ->
          jl content = Ok pd ->
          has_valid_release (simple_valid_release fs pd) fs ([] // k) ->
          In k (keys plugins)).
Proof.
  unfold SimpleRegistryGenerator.scan_plugins. intros H. bind_lift H items Hitems.
  apply simple_scan_loop in H. destruct H as (Hlines & Hnd & _ & Hin & Hvalid).
  exists items. split; [exact Hitems|]. split; [exact Hlines|].
  split; [apply Hnd; constructor|]. split; [|exact Hvalid].
  intros k p Hk. destruct (Hin k p Hk) as [[]|Hr]. exact Hr.
Qed.

Lemma full_scan_entry_skip fs jl plugins name w :
  full_selected fs name = false ->
  GenerateRegistry.scan_entry fs jl plugins name w = (Ok plugins, w).
Proof.
  unfold full_selected, GenerateRegistry.scan_entry. intros H.
  destruct (GenerateRegistry.candidate fs name); [|reflexivity].
  simpl in H. rewrite H. reflexivity.
Qed.

Lemma simple_scan_item_skip fs jl plugins item w :
  simple_selected fs item = false ->
  SimpleRegistryGenerator.scan_item fs jl plugins item w = (Ok plugins, w).
Proof.
  unfold simple_selected, SimpleRegistryGenerator.scan_item. intros H.
  destruct (SimpleRegistryGenerator.candidate fs item); [|reflexivity].
  simpl in H. rewrite H. reflexivity.
Qed.

(** C7, as stated, fails: [generate-registry.py] selects the hidden directory
    [.hidden], which holds a manifest. *)
Lemma C7_counterexample_hidden_selected :
  startswith "." ".hidden" = true
  /\ exists plugins w,
       GenerateRegistry.scan_plugins tree_hidden sample_json_load start = (Ok plugins, w)
       /\ keys plugins = [".hidden"].
Proof.
  split; [reflexivity|]. eexists. eexists. split; vm_compute; reflexivity.
Qed.

(** C7, amended: each script selects exactly the immediate subdirectories of
    the working directory that pass its own test and hold an entry
    [plugin.json].  The test of [generate-registry.py] leaves out the
    directory named [.github] only, so the keys of its plugin map are those
    directories in listing order; the test of [simple-registry-generator.py]
    leaves out every name that starts with a dot, and its lines
    [Processing plugin:] name those directories in listing order.  An entry
    that is not selected is passed over: nothing is raised, printed or
    recorded for it. *)
Theorem C7_scanner_selection :
  (forall fs name,
      full_selected fs name = true <->
      is_dir fs [name] = true /\ name <> ".github"
      /\ exists_ fs [name; "plugin.json"] = true)
  /\ (forall fs item,
        simple_selected fs item = true <->
        is_dir fs ([] // item) = true /\ startswith "." item = false
        /\ exists_ fs ([] // item // "plugin.json") = true)
  /\ (forall fs jl w plugins w' names,
        listdir fs [] = Ok names -> NoDup names ->
        GenerateRegistry.scan_plugins fs jl w = (Ok plugins, w') ->
        keys plugins = filter (full_selected fs) names /\ w' = w)
  /\ (forall fs jl w plugins w' items,
        listdir fs [] = Ok items ->
        SimpleRegistryGenerator.scan_plugins fs jl w = (Ok plugins, w') ->
        exists lines,
          w' = with_lines lines w
          /\ filter (startswith "Processing plugin: ") lines
             = map processing_line (filter (simple_selected fs) items))
  /\ (forall fs jl plugins name w,
        full_selected fs name = false ->
        GenerateRegistry.scan_entry fs jl plugins name w = (Ok plugins, w))
  /\ (forall fs jl plugins item w,
        simple_selected fs item = false ->
        SimpleRegistryGenerator.scan_item fs jl plugins item w = (Ok plugins, w)).
Proof.
  split; [|split; [|split; [|split; [|split]]]].
  - intros fs name. unfold full_selected, GenerateRegistry.candidate.
    change ([name] // "plugin.json") with [name; "plugin.json"].
    rewrite !andb_true_iff, negb_true_iff. split.
    + intros [[Hd Hn] He]. split; [exact Hd|]. split; [|exact He].
      intros ->. discriminate.
    + intros (Hd & Hn & He). split; [split; [exact Hd|] | exact He].
      destruct (String.eqb name ".github") eqn:E; [|reflexivity].
      apply String.eqb_eq in E. contradiction.
  - intros fs item. unfold simple_selected, SimpleRegistryGenerator.candidate.
    rewrite andb_true_iff, negb_true_iff, orb_false_iff, negb_false_iff. tauto.
  - intros fs jl w plugins w' names Hl Hnd H.
    apply full_scan_plugins_Ok in H. destruct H as (names' & Hl' & -> & _ & _ & _ & Hord).
    rewrite Hl in Hl'. inversion Hl'; subst names'. split; [apply Hord; exact Hnd | reflexivity].
  - intros fs jl w plugins w' items Hl H.
    apply simple_scan_plugins_Ok in H. destruct H as (items' & Hl' & Hlines & _).
    rewrite Hl in Hl'. inversion Hl'; subst items'. exact Hlines.
  - intros. apply full_scan_entry_skip. assumption.
  - intros. apply simple_scan_item_skip. assumption.
Qed.

Lemma C7_scanner_selection_witness :
  (exists plugins w',
      GenerateRegistry.scan_plugins tree_versions sample_json_load start = (Ok plugins, w')
      /\ keys plugins = filter (full_selected tree_versions) [".github"; "sample-plugin"]
      /\ w' = start)
  /\ (exists plugins w',
        SimpleRegistryGenerator.scan_plugins tree_versions sample_json_load start
          = (Ok plugins, w')
        /\ exists lines,
             w' = with_lines lines start
             /\ filter (startswith "Processing plugin: ") lines
                = map processing_line
                      (filter (simple_selected tree_versions) [".github"; "sample-plugin"]))
  /\ GenerateRegistry.scan_entry tree_versions sample_json_load [] ".github" start
     = (Ok [], start)
  /\ SimpleRegistryGenerator.scan_item tree_versions sample_json_load [] ".github" start
     = (Ok [], start).
Proof.
  pose proof C7_scanner_selection as (_ & _ & Hfull & Hsimple & Hskip & Hskip').
  split; [|split; [|split]].
  - eexists. eexists. split; [vm_compute; reflexivity|].
    refine (Hfull tree_versions sample_json_load start _ _ [".github"; "sample-plugin"]
              eq_refl _ _); [|vm_compute; reflexivity].
    repeat constructor; simpl; intuition discriminate.
  - eexists. eexists. split; [vm_compute; reflexivity|].
    refine (Hsimple tree_versions sample_json_load start _ _ [".github"; "sample-plugin"]
              eq_refl _).
    vm_compute. reflexivity.
  - apply (Hskip tree_versions sample_json_load [] ".github" start). reflexivity.
  - apply (Hskip' tree_versions sample_json_load [] ".github" start). reflexivity.
Defined.

(* ------------------------------------------------------------------------- *)
(** ** Writing the files *)

Lemma made_record_effect w e q u w' :
  record_effect e w = (Ok u, w') ->
  made w' q = (made w q || match e with Mkdir p => path_eqb q p | Write _ _ => false end)%bool
  /\ stdout w' = stdout w /\ clock_reads w' = clock_reads w.
Proof.
  unfold record_effect. intros H. inversion H; subst. unfold made. simpl.
  rewrite existsb_app. simpl. rewrite orb_false_r. auto.
Qed.

(** [mkdir(exist_ok=True)] succeeds when the path is not a file and its
    parent is a directory; the path is a directory afterwards. *)
Lemma mkdir_exist_ok_runs fs p w :
  (exists_ fs p = true -> is_dir fs p = true) ->
  dir_now fs w (removelast p) = true ->
  exists w',
    mkdir_exist_ok fs p w = (Ok tt, w')
    /\ dir_now fs w' p = true
    /\ (forall q, made w' q = true -> made w q = true \/ q = p)
    /\ (forall q, dir_now fs w q = true -> dir_now fs w' q = true).
Proof.
  intros Hfile Hparent. unfold mkdir_exist_ok.
  destruct (dir_now fs w p) eqn:Hnow.
  - exists w. auto.
  - destruct (exists_ fs p) eqn:Hex.
    + unfold dir_now in Hnow. rewrite (Hfile eq_refl) in Hnow. discriminate.
    + rewrite Hparent.
      destruct (record_effect (Mkdir p) w) as [r w'] eqn:Hrec.
      assert (Hr : r = Ok tt) by (unfold record_effect in Hrec; inversion Hrec; reflexivity).
      subst r. exists w'. split; [reflexivity|].
      assert (Hmade : forall q, made w' q = (made w q || path_eqb q p)%bool).
      { intros q. apply (made_record_effect q Hrec). }
      split; [|split].
      * unfold dir_now. rewrite Hmade, path_eqb_refl. rewrite !orb_true_r. reflexivity.
      * intros q Hq. rewrite Hmade in Hq. apply orb_true_iff in Hq.
        destruct Hq as [Hq|Hq]; [left; exact Hq | right; apply path_eqb_eq; exact Hq].
      * intros q. unfold dir_now. rewrite Hmade. rewrite !orb_true_iff. tauto.
Qed.

Lemma open_w_runs fs p w :
  dir_now fs w p = false -> dir_now fs w (removelast p) = true ->
  open_w fs p w = (Ok tt, w).
Proof. unfold open_w. intros -> ->. reflexivity. Qed.

Lemma dir_now_dump fs p d w q u w' :
  dump p d w = (Ok u, w') -> dir_now fs w' q = dir_now fs w q.
Proof.
  unfold dump. intros H. unfold dir_now.
  destruct (made_record_effect q H) as (-> & _). rewrite orb_false_r. reflexivity.
Qed.

Lemma dump_runs p d w : exists w', dump p d w = (Ok tt, w').
Proof. unfold dump, record_effect. eexists. reflexivity. Qed.

(** The detail files are written when none of them is a directory and
    [api/plugins] is one. *)
Lemma write_details_runs fs : forall plugins w,
  dir_now fs w ["api"; "plugins"] = true ->
  (forall item, In item plugins ->
     plain_name (fst item) /\ dir_now fs w ["api"; "plugins"; fst item] = false) ->
  exists w',
    for_each plugins tt (fun (_ : unit) item =>
      open_w fs ([] // "api" // "plugins" // fst item) ;;;
      dump ([] // "api" // "plugins" // fst item) (PluginJson (snd item))) w = (Ok tt, w').
Proof.
  induction plugins as [|item plugins IH]; intros w Hdir Hitems; simpl.
  - exists w. reflexivity.
  - destruct (Hitems item (or_introl eq_refl)) as [Hplain Hfree].
    change ([] // "api" // "plugins") with ["api"; "plugins"].
    rewrite (join_plain ["api"; "plugins"] Hplain). cbn [app].
    destruct (dump_runs ["api"; "plugins"; fst item] (PluginJson (snd item)) w)
      as (w1 & Hdump).
    destruct (IH w1) as (w' & Hloop).
    + rewrite (dir_now_dump fs _ Hdump). exact Hdir.
    + intros i Hi. destruct (Hitems i (or_intror Hi)) as [Hp Hf].
      split; [exact Hp|]. rewrite (dir_now_dump fs _ Hdump). exact Hf.
    + exists w'. unfold bind at 1. unfold bind at 1.
      rewrite (open_w_runs fs _ w Hfree Hdir). rewrite Hdump.
      revert Hloop. clear. intros Hloop.
      match goal with |- ?lhs = _ => replace lhs with
        (for_each plugins tt (fun (_ : unit) item =>
           open_w fs ([] // "api" // "plugins" // fst item) ;;;
           dump ([] // "api" // "plugins" // fst item) (PluginJson (snd item))) w1)
      end; [exact Hloop | reflexivity].
Qed.

Lemma listdir_is_dir fs p names : listdir fs p = Ok names -> is_dir fs p = true.
Proof.
  unfold listdir, is_dir. destruct (lookup fs p) as [[c|m es]|]; intros H;
    try discriminate; reflexivity.
Qed.

(** [generate_api_files] runs to its end when nothing stands in its way. *)
Lemma generate_api_files_runs fs clock plugins w :
  is_dir fs [] = true ->
  (forall q, made w q = false) ->
  unobstructed fs (keys plugins) ->
  (forall id, In id (keys plugins) -> plain_name id) ->
  exists w', GenerateRegistry.generate_api_files fs clock plugins w = (Ok tt, w').
Proof.
  intros Hroot Hmade (_ & Hapi & Hplugins & Hlist & Hdetails) Hplain.
  destruct (mkdir_exist_ok_runs fs ["api"] w Hapi) as (w1 & Hmk1 & D1 & M1 & _).
  { unfold dir_now. simpl. rewrite Hroot. reflexivity. }
  destruct (mkdir_exist_ok_runs fs ["api"; "plugins"] w1 Hplugins) as (w2 & Hmk2 & D2 & M2 & K2).
  { exact D1. }
  assert (Hmade2 : forall q, made w2 q = true -> q = ["api"] \/ q = ["api"; "plugins"]).
  { intros q Hq. destruct (M2 q Hq) as [Hq1|Hq1]; [|right; exact Hq1].
    destruct (M1 q Hq1) as [Hq0|Hq0]; [|left; exact Hq0].
    rewrite Hmade in Hq0. discriminate. }
  assert (Hfree : forall q, is_dir fs q = false -> q <> ["api"] -> q <> ["api"; "plugins"] ->
                            dir_now fs w2 q = false).
  { intros q Hq N1 N2. unfold dir_now. rewrite Hq. simpl.
    destruct (made w2 q) eqn:E; [|reflexivity].
    destruct (Hmade2 q E); contradiction. }
  pose (w3 := {| stdout := stdout w2; effects := effects w2;
                 clock_reads := S (clock_reads w2) |}).
  destruct (dump_runs ["api"; "plugins.json"]
              (discovery plugins (utcnow_at (clock (clock_reads w2)))) w3) as (w4 & Hdump).
  assert (Hsame : forall q, dir_now fs w4 q = dir_now fs w2 q).
  { intros q. rewrite (dir_now_dump fs _ Hdump). reflexivity. }
  destruct (write_details_runs fs plugins w4) as (w5 & Hloop).
  { rewrite Hsame. exact D2. }
  { intros item Hitem.
    assert (Hk : In (fst item) (keys plugins)) by (apply in_map; exact Hitem).
    split; [apply Hplain; exact Hk|].
    rewrite Hsame. apply Hfree; [apply Hdetails; exact Hk | discriminate | discriminate]. }
  exists w5. unfold GenerateRegistry.generate_api_files.
  change ([] // "api") with ["api"].
  change (["api"] // "plugins") with ["api"; "plugins"].
  change (["api"] // "plugins.json") with ["api"; "plugins.json"].
  unfold bind at 1. rewrite Hmk1.
  unfold bind at 1. rewrite Hmk2.
  unfold bind at 1.
  rewrite (open_w_runs fs ["api"; "plugins.json"] w2);
    [|apply Hfree; [exact Hlist | discriminate | discriminate] | apply K2; exact D1].
  unfold bind at 1. unfold utcnow. fold w3.
  unfold bind at 1. unfold discovery in Hdump. rewrite Hdump.
  unfold bind at 1.
  match goal with
  | |- context [for_each plugins tt ?b w4] =>
      change (for_each plugins tt b w4)
        with (for_each plugins tt (fun (_ : unit) item =>
                open_w fs ([] // "api" // "plugins" // fst item) ;;;
                dump ([] // "api" // "plugins" // fst item) (PluginJson (snd item))) w4)
  end.
  rewrite Hloop. reflexivity.
Qed.

(** The files a list of effects leaves, when it is what a run writes: the
    registry document, the directories made, the discovery document and the
    detail files. *)
Lemma written_at_details plugins : forall id p,
  NoDup (keys plugins) ->
  (forall k, In k (keys plugins) -> plain_name k) ->
  In (id, p) plugins ->
  written_at (map detail plugins) ["api"; "plugins"; id] = Some (PluginJson p).
Proof.
  induction plugins as [|[k q] plugins IH]; intros id p Hnd Hplain Hin; [contradiction|].
  unfold keys in Hnd. simpl in Hnd. inversion Hnd as [|? ? Hnot Hnd']; subst.
  assert (Hplain' : forall k0, In k0 (keys plugins) -> plain_name k0).
  { intros k0 Hk0. apply Hplain. right. exact Hk0. }
  cbn [map written_at]. destruct Hin as [E|Hin].
  - inversion E; subst k q.
    rewrite written_at_details_other.
    + unfold detail. cbn [fst snd].
      rewrite (join_plain ["api"; "plugins"] (Hplain id (or_introl eq_refl))). cbn [app].
      rewrite path_eqb_refl. reflexivity.
    + intros item Hitem Heq.
      assert (Hk : In (fst item) (keys plugins)) by (apply in_map; exact Hitem).
      rewrite (join_plain ["api"; "plugins"] (Hplain' _ Hk)) in Heq. inversion Heq as [Hfst].
      apply Hnot. rewrite <- Hfst. exact Hk.
  - rewrite (IH id p Hnd' Hplain' Hin). reflexivity.
Qed.

Lemma outputs_written before r mk now plugins :
  (forall q d, ~ In (Write q d) mk) ->
  NoDup (keys plugins) ->
  (forall k, In k (keys plugins) -> plain_name k) ->
  let es := (before ++ [Write ["registry.yml"] (RegistryYml r)] ++ mk
               ++ [Write ["api"; "plugins.json"] (discovery plugins now)]
               ++ map detail plugins)%list in
  written_at es ["registry.yml"] = Some (RegistryYml r)
  /\ written_at es ["api"; "plugins.json"] = Some (discovery plugins now)
  /\ forall id p, In (id, p) plugins ->
                  written_at es ["api"; "plugins"; id] = Some (PluginJson p).
Proof.
  intros Hmk Hnd Hplain es. unfold es. split; [|split].
  - rewrite !written_at_app.
    rewrite written_at_details_other by (intros item _; apply detail_path_other).
    cbn [written_at path_eqb String.eqb Ascii.eqb Bool.eqb andb].
    rewrite (written_at_no_write mk _ Hmk). reflexivity.
  - rewrite !written_at_app.
    rewrite written_at_details_other by (intros item _; apply detail_path_other).
    reflexivity.
  - intros id p Hin. rewrite !written_at_app.
    rewrite (written_at_details plugins id p Hnd Hplain Hin). reflexivity.
Qed.

Lemma print_loop {A} (f : A -> string) : forall (xs : list A) w,
  for_each xs tt (fun (_ : unit) x => print (f x)) w = (Ok tt, with_lines (map f xs) w).
Proof.
  induction xs as [|x xs IH]; intros w; simpl.
  - unfold ret. rewrite with_lines_nil. reflexivity.
  - unfold bind at 1. unfold print at 1. rewrite IH.
    rewrite <- (with_lines_nil w) at 1. rewrite printed_with_lines.
    rewrite with_lines_with_lines. reflexivity.
Qed.

(* ------------------------------------------------------------------------- *)
(** ** A whole run *)

Lemma print_Ok line w u w' : print line w = (Ok u, w') -> w' = printed line w.
Proof. unfold print. intros H. inversion H. reflexivity. Qed.

Lemma generate_registry_Ok clock plugins w r w' :
  GenerateRegistry.generate_registry clock plugins w = (Ok r, w') ->
  Registry.plugins r = plugins
  /\ stdout w' = stdout w /\ effects w' = effects w /\ clock_reads w' = S (clock_reads w).
Proof.
  unfold GenerateRegistry.generate_registry, bind, utcnow, ret. intros H.
  inversion H; subst. simpl. auto.
Qed.

(** What a successful run of [generate-registry.py] leaves: the registry
    document with the scanned plugin map, the discovery document and the
    detail files of that map. *)
Lemma full_main_Ok fs jl clock w u w' :
  GenerateRegistry.main fs jl clock w = (Ok u, w') ->
  exists plugins r mk now,
    GenerateRegistry.scan_plugins fs jl (printed "Scanning plugins directory..." w)
      = (Ok plugins, printed "Scanning plugins directory..." w)
    /\ Registry.plugins r = plugins
    /\ (forall q d, ~ In (Write q d) mk)
    /\ effects w' =
       (effects w ++ [Write ["registry.yml"] (RegistryYml r)] ++ mk
          ++ [Write ["api"; "plugins.json"] (discovery plugins now)]
          ++ map detail plugins)%list.
Proof.
  unfold GenerateRegistry.main. intros H.
  apply bind_Ok in H. destruct H as (u0 & w0 & Hp0 & H). apply print_Ok in Hp0. subst w0.
  apply bind_Ok in H. destruct H as (plugins & w1 & Hscan & H).
  pose proof (full_scan_plugins_Ok _ _ _ Hscan) as (names & _ & Hw1 & _). subst w1.
  apply bind_Ok in H. destruct H as (u2 & w2 & Hp2 & H). apply print_Ok in Hp2. subst w2.
  apply bind_Ok in H. destruct H as (u3 & w3 & Hp3 & H).
  rewrite print_loop in Hp3. inversion Hp3; subst u3 w3. clear Hp3.
  apply bind_Ok in H. destruct H as (u4 & w4 & Hp4 & H). apply print_Ok in Hp4. subst w4.
  apply bind_Ok in H. destruct H as (r & w5 & Hreg & H).
  apply generate_registry_Ok in Hreg. destruct Hreg as (Hr & _ & He5 & _).
  apply bind_Ok in H. destruct H as (u6 & w6 & Hopen & H). apply open_w_Ok in Hopen. subst w6.
  apply bind_Ok in H. destruct H as (u7 & w7 & Hdump & H).
  unfold dump, record_effect in Hdump. inversion Hdump; subst u7 w7. clear Hdump.
  apply bind_Ok in H. destruct H as (u8 & w8 & Hp8 & H). apply print_Ok in Hp8. subst w8.
  apply bind_Ok in H. destruct H as (u9 & w9 & Hapi & H).
  apply generate_api_files_Ok in Hapi. destruct Hapi as (mk & Hmk & He9 & _).
  apply print_Ok in H. subst w'.
  exists plugins, r, mk. eexists. split; [exact Hscan|]. split; [exact Hr|].
  split; [exact Hmk|]. simpl. rewrite He9. simpl. rewrite He5. simpl.
  rewrite <- !app_assoc. reflexivity.
Qed.

Lemma made_effects w1 w2 q : effects w1 = effects w2 -> made w1 q = made w2 q.
Proof. unfold made. intros ->. reflexivity. Qed.

Lemma made_after_write w1 w p d q :
  effects w1 = (effects w ++ [Write p d])%list -> made w1 q = made w q.
Proof.
  unfold made. intros ->. rewrite existsb_app. simpl. rewrite orb_false_r. reflexivity.
Qed.

(** The writing part of a run, from the registry document to the detail
    files, runs to its end when nothing stands in its way; what follows it
    goes on in the world it leaves. *)
Lemma emit_runs fs clock plugins line w :
  is_dir fs [] = true ->
  (forall q, made w q = false) ->
  unobstructed fs (keys plugins) ->
  (forall id, In id (keys plugins) -> plain_name id) ->
  exists w',
    forall (B : Type) (k : M B),
      (registry <- GenerateRegistry.generate_registry clock plugins ;;
       open_w fs ["registry.yml"] ;;;
       dump ["registry.yml"] (RegistryYml registry) ;;;
       print line ;;;
       GenerateRegistry.generate_api_files fs clock plugins ;;;
       k) w = k w'.
Proof.
  intros Hroot Hmade Hfree Hplain.
  destruct (GenerateRegistry.generate_registry clock plugins w) as [[r|e] w1] eqn:Hreg;
    [|unfold GenerateRegistry.generate_registry, bind, utcnow, ret in Hreg; discriminate].
  pose proof Hreg as Hreg'. apply generate_registry_Ok in Hreg'.
  destruct Hreg' as (_ & _ & He1 & _).
  assert (Hmade1 : forall q, made w1 q = false).
  { intros q. rewrite (@made_effects w1 w q He1). apply Hmade. }
  assert (Hopen : open_w fs ["registry.yml"] w1 = (Ok tt, w1)).
  { apply open_w_runs.
    - unfold dir_now. rewrite Hmade1. destruct Hfree as (Hr & _). rewrite Hr. reflexivity.
    - unfold dir_now. simpl. rewrite Hroot. reflexivity. }
  destruct (@dump_runs ["registry.yml"] (RegistryYml r) w1) as (w2 & Hdump).
  assert (He2 : effects w2 = (effects w1 ++ [Write ["registry.yml"] (RegistryYml r)])%list).
  { unfold dump, record_effect in Hdump. inversion Hdump. reflexivity. }
  destruct (@generate_api_files_runs fs clock plugins (printed line w2)) as (w3 & Hapi);
    [exact Hroot | | exact Hfree | exact Hplain |].
  { intros q. rewrite (@made_effects (printed line w2) w2 q eq_refl).
    rewrite (@made_after_write w2 w1 _ _ q He2). apply Hmade1. }
  exists w3. intros B k.
  erewrite bind_run by exact Hreg.
  erewrite bind_run by exact Hopen.
  erewrite bind_run by exact Hdump.
  erewrite bind_run by reflexivity.
  erewrite bind_run by exact Hapi.
  reflexivity.
Qed.

Lemma full_main_runs fs jl clock w plugins w1 :
  GenerateRegistry.scan_plugins fs jl (printed "Scanning plugins directory..." w)
    = (Ok plugins, w1) ->
  (forall q, made w q = false) ->
  unobstructed fs (keys plugins) ->
  (forall id, In id (keys plugins) -> plain_name id) ->
  exists w', GenerateRegistry.main fs jl clock w = (Ok tt, w').
Proof.
  intros Hscan Hmade Hfree Hplain.
  pose proof Hscan as Hscan'. apply full_scan_plugins_Ok in Hscan'.
  destruct Hscan' as (names & Hnames & Hw1 & _). subst w1.
  apply listdir_is_dir in Hnames.
  unfold GenerateRegistry.main.
  erewrite bind_run by reflexivity.
  erewrite bind_run by exact Hscan.
  erewrite bind_run by reflexivity.
  erewrite bind_run by apply print_loop.
  erewrite bind_run by reflexivity.
  match goal with
  | |- exists w', _ ?W = _ =>
      destruct (@emit_runs fs clock plugins "Generating API files..." W Hnames)
        as (w' & Hrun);
        [ | exact Hfree | exact Hplain | ]
  end.
  - intros q. erewrite made_effects; [apply Hmade | reflexivity].
  - rewrite Hrun. eexists. reflexivity.
Qed.

(** What a successful run of [simple-registry-generator.py] leaves: nothing
    when the plugin map is empty, and else the same files as the other
    script. *)
Lemma simple_main_Ok fs jl clock w u w' :
  SimpleRegistryGenerator.main fs jl clock w = (Ok u, w') ->
  exists plugins w1,
    SimpleRegistryGenerator.scan_plugins fs jl
      (printed (SimpleRegistryGenerator.mark_scanning ++ " Scanning for plugins...") w)
      = (Ok plugins, w1)
    /\ ((plugins = [] /\ effects w' = effects w)
        \/ (plugins <> []
            /\ exists r mk now,
                 Registry.plugins r = plugins
                 /\ (forall q d, ~ In (Write q d) mk)
                 /\ effects w' =
                    (effects w ++ [Write ["registry.yml"] (RegistryYml r)] ++ mk
                       ++ [Write ["api"; "plugins.json"] (discovery plugins now)]
                       ++ map detail plugins)%list)).
Proof.
  unfold SimpleRegistryGenerator.main. intros H.
  apply bind_Ok in H. destruct H as (u0 & w0 & Hp0 & H). apply print_Ok in Hp0. subst w0.
  apply bind_Ok in H. destruct H as (plugins & w1 & Hscan & H).
  exists plugins, w1. split; [exact Hscan|].
  apply simple_scan_plugins_Ok in Hscan.
  destruct Hscan as (items & _ & (lines & Hw1 & _) & _).
  assert (He1 : effects w1 = effects w) by (subst w1; reflexivity).
  destruct plugins as [|item plugins].
  - left. split; [reflexivity|]. apply print_Ok in H. subst w'. simpl. exact He1.
  - right. split; [discriminate|].
    apply bind_Ok in H. destruct H as (u2 & w2 & Hp2 & H). apply print_Ok in Hp2. subst w2.
    apply bind_Ok in H. destruct H as (u3 & w3 & Hp3 & H). apply print_Ok in Hp3. subst w3.
    apply bind_Ok in H. destruct H as (r & w4 & Hreg & H).
    rewrite simple_generate_registry in Hreg.
    apply generate_registry_Ok in Hreg. destruct Hreg as (Hr & _ & He4 & _).
    apply bind_Ok in H. destruct H as (u5 & w5 & Hopen & H). apply open_w_Ok in Hopen. subst w5.
    apply bind_Ok in H. destruct H as (u6 & w6 & Hdump & H).
    unfold dump, record_effect in Hdump. inversion Hdump; subst u6 w6. clear Hdump.
    apply bind_Ok in H. destruct H as (u7 & w7 & Hp7 & H). apply print_Ok in Hp7. subst w7.
    apply bind_Ok in H. destruct H as (u8 & w8 & Hapi & H).
    rewrite simple_generate_api_files in Hapi.
    apply generate_api_files_Ok in Hapi. destruct Hapi as (mk & Hmk & He8 & _).
    apply bind_Ok in H. destruct H as (u9 & w9 & Hp9 & H). apply print_Ok in Hp9. subst w9.
    apply bind_Ok in H. destruct H as (u10 & w10 & Hp10 & H). apply print_Ok in Hp10. subst w10.
    apply bind_Ok in H. destruct H as (u11 & w11 & Hp11 & H). apply print_Ok in Hp11. subst w11.
    apply print_Ok in H. subst w'.
    exists r, mk. eexists. split; [exact Hr|]. split; [exact Hmk|].
    simpl. rewrite He8. simpl. rewrite He4. simpl. rewrite He1.
    rewrite <- !app_assoc. reflexivity.
Qed.

Lemma simple_main_runs fs jl clock w plugins w1 :
  SimpleRegistryGenerator.scan_plugins fs jl
    (printed (SimpleRegistryGenerator.mark_scanning ++ " Scanning for plugins...") w)
    = (Ok plugins, w1) ->
  (forall q, made w q = false) ->
  unobstructed fs (keys plugins) ->
  (forall id, In id (keys plugins) -> plain_name id) ->
  exists w', SimpleRegistryGenerator.main fs jl clock w = (Ok tt, w').
Proof.
  intros Hscan Hmade Hfree Hplain.
  pose proof Hscan as Hscan'. apply simple_scan_plugins_Ok in Hscan'.
  destruct Hscan' as (items & Hitems & (lines & Hw1 & _) & _).
  apply listdir_is_dir in Hitems.
  unfold SimpleRegistryGenerator.main.
  erewrite bind_run by reflexivity.
  erewrite bind_run by exact Hscan.
  destruct plugins as [|item plugins]; [eexists; reflexivity|].
  erewrite bind_run by reflexivity.
  erewrite bind_run by reflexivity.
  change (SimpleRegistryGenerator.generate_registry clock (item :: plugins))
    with (GenerateRegistry.generate_registry clock (item :: plugins)).
  change (SimpleRegistryGenerator.generate_api_files fs clock (item :: plugins))
    with (GenerateRegistry.generate_api_files fs clock (item :: plugins)).
  match goal with
  | |- exists w', bind _ (fun registry => open_w _ _ ;;; dump _ _ ;;; print ?L ;;; _) ?W = _ =>
      destruct (@emit_runs fs clock (item :: plugins) L W Hitems) as (w' & Hrun);
        [ | exact Hfree | exact Hplain | ]
  end.
  - intros q. erewrite made_effects; [apply Hmade | subst w1; reflexivity].
  - rewrite Hrun. eexists. reflexivity.
Qed.

(* ------------------------------------------------------------------------- *)
(** ** Plugins and the three outputs *)

(** The three outputs of a run hold the plugin [id] with the record [p]:
    the plugin map of [registry.yml], the discovery list of
    [api/plugins.json] and the detail file [api/plugins/<id>]. *)
Lemma in_all_outputs_of_effects before r mk now plugins id p :
  Registry.plugins r = plugins ->
  (forall q d, ~ In (Write q d) mk) ->
  NoDup (keys plugins) ->
  (forall k, In k (keys plugins) -> plain_name k) ->
  In (id, p) plugins ->
  in_all_outputs
    (before ++ [Write ["registry.yml"] (RegistryYml r)] ++ mk
       ++ [Write ["api"; "plugins.json"] (discovery plugins now)]
       ++ map detail plugins)%list id p.
Proof.
  intros Hr Hmk Hnd Hplain Hin.
  destruct (@outputs_written before r mk now plugins Hmk Hnd Hplain) as (Hreg & Hdisc & Hdet).
  unfold in_all_outputs. split; [|split].
  - exists r. split; [exact Hreg|]. rewrite Hr. apply In_dict_get; assumption.
  - unfold discovery in Hdisc. eexists. exists (GenerateRegistry.list_entry (id, p)).
    split; [exact Hdisc|]. split; [|reflexivity].
    cbn [Discovery.plugins].
    apply (in_map GenerateRegistry.list_entry plugins (id, p)). exact Hin.
  - apply Hdet. exact Hin.
Qed.

(** C6: when the scan of a run succeeds and nothing in the tree stands in
    the way of the files to write, the run succeeds, and for every plugin
    directory with at least one valid release the plugin id is a key of the
    plugin map written to [registry.yml], an entry with that id is in the
    discovery list written to [api/plugins.json], and the detail file
    [api/plugins/<id>] holds the full record of the plugin, which has
    versions.  This holds for both scripts. *)
Theorem C6_valid_plugins_in_all_outputs :
  (forall fs jl clock plugins w1 names,
      listdir fs [] = Ok names ->
      (forall name, In name names -> plain_name name) ->
      GenerateRegistry.scan_plugins fs jl (printed "Scanning plugins directory..." start)
        = (Ok plugins, w1) ->
      unobstructed fs (keys plugins) ->
      exists w',
        GenerateRegistry.main fs jl clock start = (Ok tt, w')
        /\ forall id content pd,
             In id names ->
             full_selected fs id = true ->
             read_bytes fs ([id] // "plugin.json") = Ok content ->
             jl content = Ok pd ->
             has_valid_release (full_valid_release fs pd) fs [id] ->
             exists p, Plugin.versions p <> [] /\ in_all_outputs (effects w') id p)
  /\ (forall fs jl clock plugins w1 items,
        listdir fs [] = Ok items ->
        (forall item, In item items -> plain_name item) ->
        SimpleRegistryGenerator.scan_plugins fs jl
          (printed (SimpleRegistryGenerator.mark_scanning ++ " Scanning for plugins...") start)
          = (Ok plugins, w1) ->
        unobstructed fs (keys plugins) ->
        exists w',
          SimpleRegistryGenerator.main fs jl clock start = (Ok tt, w')
          /\ forall id content pd,
               In id items ->
               simple_selected fs id = true ->
               read_bytes fs ([] // id // "plugin.json") = Ok content ->
               jl content = Ok pd ->
               has_valid_release (simple_valid_release fs pd) fs ([] // id) ->
               exists p, Plugin.versions p <> [] /\ in_all_outputs (effects w') id p).
Proof.
  split.
  - intros fs jl clock plugins w1 names Hnames Hplain Hscan Hfree.
    pose proof Hscan as Hs. apply full_scan_plugins_Ok in Hs.
    destruct Hs as (names' & Hnames' & _ & Hnd & Hkeys & Hrec & _).
    rewrite Hnames in Hnames'. inversion Hnames'; subst names'. clear Hnames'.
    assert (Hplain' : forall k, In k (keys plugins) -> plain_name k).
    { intros k Hk. apply Hplain. apply Hkeys in Hk. apply Hk. }
    destruct (@full_main_runs fs jl clock start plugins w1 Hscan) as (w' & Hmain);
      [intros q; reflexivity | exact Hfree | exact Hplain' |].
    exists w'. split; [exact Hmain|].
    apply full_main_Ok in Hmain.
    destruct Hmain as (plugins' & r & mk & now & Hscan' & Hr & Hmk & He).
    rewrite Hscan in Hscan'.
    assert (Heq : plugins' = plugins) by (inversion Hscan'; reflexivity).
    rewrite Heq in Hr, He. clear Hscan' Heq.
    intros id content pd Hin Hsel Hread Hload Hvalid.
    assert (Hk : In id (keys plugins)) by (apply Hkeys; split; assumption).
    unfold keys in Hk. apply in_map_iff in Hk. destruct Hk as ([id' p] & Hfst & Hp).
    simpl in Hfst. subst id'. exists p. split.
    + destruct (Hrec id p Hp) as (content' & pd' & Hread' & Hload' & Hnil & _).
      rewrite Hread in Hread'. inversion Hread'; subst content'.
      rewrite Hload in Hload'. inversion Hload'; subst pd'.
      intros E. exact (Hnil E Hvalid).
    + rewrite He. apply in_all_outputs_of_effects; assumption.
  - intros fs jl clock plugins w1 items Hitems Hplain Hscan Hfree.
    pose proof Hscan as Hs. apply simple_scan_plugins_Ok in Hs.
    destruct Hs as (items' & Hitems' & _ & Hnd & Hrec & Hvalid).
    rewrite Hitems in Hitems'. inversion Hitems'; subst items'. clear Hitems'.
    assert (Hplain' : forall k, In k (keys plugins) -> plain_name k).
    { intros k Hk. unfold keys in Hk. apply in_map_iff in Hk.
      destruct Hk as ([k' p] & Hfst & Hp). simpl in Hfst. subst k'.
      apply Hplain. apply (Hrec k p Hp). }
    destruct (@simple_main_runs fs jl clock start plugins w1 Hscan) as (w' & Hmain);
      [intros q; reflexivity | exact Hfree | exact Hplain' |].
    exists w'. split; [exact Hmain|].
    apply simple_main_Ok in Hmain.
    destruct Hmain as (plugins' & w1' & Hscan' & Hcase).
    rewrite Hscan in Hscan'.
    assert (Heq : plugins' = plugins) by (inversion Hscan'; reflexivity).
    rewrite Heq in Hcase. clear Hscan' Heq.
    intros id content pd Hin Hsel Hread Hload Hv.
    assert (Hk : In id (keys plugins)) by (eapply Hvalid; eassumption).
    unfold keys in Hk. apply in_map_iff in Hk. destruct Hk as ([id' p] & Hfst & Hp).
    simpl in Hfst. subst id'. exists p. split.
    + destruct (Hrec id p Hp) as (_ & _ & (c & d & _ & _ & _ & Hne)). exact Hne.
    + destruct Hcase as [[-> _]|(_ & r & mk & now & Hr & Hmk & He)]; [contradiction|].
      rewrite He. apply in_all_outputs_of_effects; assumption.
Qed.

Lemma C6_valid_plugins_witness :
  (exists w',
      GenerateRegistry.main tree_one_release sample_json_load sample_clock start = (Ok tt, w')
      /\ exists p, Plugin.versions p <> [] /\ in_all_outputs (effects w') "sample-plugin" p)
  /\ (exists w',
        SimpleRegistryGenerator.main tree_one_release sample_json_load sample_clock start
          = (Ok tt, w')
        /\ exists p, Plugin.versions p <> [] /\ in_all_outputs (effects w') "sample-plugin" p).
Proof.
  assert (Hvalid_full :
            has_valid_release (full_valid_release tree_one_release sample_manifest)
              tree_one_release ["sample-plugin"]).
  { exists ["1.0.0"], "1.0.0". split; [reflexivity|]. split; [left; reflexivity|].
    split; [reflexivity|]. eexists. exists ["linux/amd64"], "linux/amd64".
    split; [reflexivity|]. split; [reflexivity|]. split; [left; reflexivity|].
    exists "linux", "amd64", "sample-plugin-linux-amd64". split; reflexivity. }
  assert (Hvalid_simple :
            has_valid_release (simple_valid_release tree_one_release sample_manifest)
              tree_one_release ([] // "sample-plugin")).
  { exists ["1.0.0"], "1.0.0". split; [reflexivity|]. split; [left; reflexivity|].
    split; [reflexivity|]. eexists. exists "sample-plugin", "linux-amd64".
    split; [reflexivity|]. split; [reflexivity|].
    split; [right; right; left; reflexivity | reflexivity]. }
  assert (Hfree : forall ids, unobstructed tree_one_release ids).
  { intros ids. unfold unobstructed. repeat split; try reflexivity; discriminate. }
  assert (Hplain : forall name, In name ["sample-plugin"] -> plain_name name).
  { intros name [<-|[]]. reflexivity. }
  split.
  - destruct (proj1 C6_valid_plugins_in_all_outputs tree_one_release sample_json_load
                sample_clock
                (fst_ok (GenerateRegistry.scan_plugins tree_one_release sample_json_load
                           (printed "Scanning plugins directory..." start)))
                (printed "Scanning plugins directory..." start)
                ["sample-plugin"] eq_refl Hplain) as (w' & Hmain & Hout).
    + vm_compute. reflexivity.
    + apply Hfree.
    + exists w'. split; [exact Hmain|].
      apply (Hout "sample-plugin" (bytes_of sample_text) sample_manifest);
        [left; reflexivity | reflexivity | reflexivity | vm_compute; reflexivity
        | exact Hvalid_full].
  - destruct (proj2 C6_valid_plugins_in_all_outputs tree_one_release sample_json_load
                sample_clock
                (fst_ok (SimpleRegistryGenerator.scan_plugins tree_one_release sample_json_load
                           (printed (SimpleRegistryGenerator.mark_scanning
                                     ++ " Scanning for plugins...") start)))
                (snd (SimpleRegistryGenerator.scan_plugins tree_one_release sample_json_load
                        (printed (SimpleRegistryGenerator.mark_scanning
                                  ++ " Scanning for plugins...") start)))
                ["sample-plugin"] eq_refl Hplain) as (w' & Hmain & Hout).
    + vm_compute. reflexivity.
    + apply Hfree.
    + exists w'. split; [exact Hmain|].
      apply (Hout "sample-plugin" (bytes_of sample_text) sample_manifest);
        [left; reflexivity | reflexivity | reflexivity | vm_compute; reflexivity
        | exact Hvalid_simple].
Defined.

(** C2, as stated, fails: the plugin directory [sample-plugin] has a
    manifest and no release, and [generate-registry.py] still writes it to
    the plugin map, the discovery list and a detail file, with an empty
    version list. *)
Lemma C2_counterexample_empty_plugin_kept :
  ~ has_valid_release (full_valid_release tree_no_release sample_manifest)
      tree_no_release ["sample-plugin"]
  /\ exists w' p,
       GenerateRegistry.main tree_no_release sample_json_load sample_clock start = (Ok tt, w')
       /\ in_all_outputs (effects w') "sample-plugin" p
       /\ Plugin.versions p = [].
Proof.
  split.
  - intros (names & name & Hl & _). vm_compute in Hl. discriminate.
  - eexists. eexists. split; [vm_compute; reflexivity|]. split.
    + split; [|split].
      * eexists. split; vm_compute; reflexivity.
      * eexists. eexists. split; [vm_compute; reflexivity|].
        split; [left; reflexivity | reflexivity].
      * vm_compute. reflexivity.
    + reflexivity.
Qed.

Lemma list_entry_latest id p :
  Entry.latest_version (GenerateRegistry.list_entry (id, p)) = latest_version_of p.
Proof. unfold latest_version_of. simpl. destruct (Plugin.versions p); reflexivity. Qed.

(** C2, amended: in [simple-registry-generator.py] a plugin whose scan yields
    no valid version record is left out of the plugin map, and every document
    a run writes (the registry, the discovery list, the detail files) holds
    only plugins with a non-empty version list.  [generate-registry.py] puts
    every selected directory in the plugin map, with an empty version list
    when the directory has no valid release; and when its scan succeeds and
    nothing stands in the way of the files to write, the run succeeds and
    writes such a plugin, with its empty version list, to the plugin map of
    [registry.yml], to the discovery list of [api/plugins.json] and to the
    detail file [api/plugins/<id>]. *)
Theorem C2_plugins_without_versions :
  (forall fs jl clock w' path d,
      SimpleRegistryGenerator.main fs jl clock start = (Ok tt, w') ->
      In (Write path d) (effects w') ->
      no_empty_plugin d)
  /\ (forall fs jl w plugins w',
        SimpleRegistryGenerator.scan_plugins fs jl w = (Ok plugins, w') ->
        (forall id p, In (id, p) plugins -> Plugin.versions p <> [])
        /\ (forall id content pd,
              read_bytes fs ([] // id // "plugin.json") = Ok content ->
              jl content = Ok pd ->
              ~ has_valid_release (simple_valid_release fs pd) fs ([] // id) ->
              ~ In id (keys plugins)))
  /\ (forall fs jl w plugins w' names id,
        GenerateRegistry.scan_plugins fs jl w = (Ok plugins, w') ->
        listdir fs [] = Ok names ->
        In id names ->
        full_selected fs id = true ->
        exists p,
          dict_get id plugins = Some p
          /\ forall content pd,
               read_bytes fs ([id] // "plugin.json") = Ok content ->
               jl content = Ok pd ->
               ~ has_valid_release (full_valid_release fs pd) fs [id] ->
               Plugin.versions p = [])
  /\ (forall fs jl clock plugins w1 names,
        listdir fs [] = Ok names ->
        (forall name, In name names -> plain_name name) ->
        GenerateRegistry.scan_plugins fs jl (printed "Scanning plugins directory..." start)
          = (Ok plugins, w1) ->
        unobstructed fs (keys plugins) ->
        exists w',
          GenerateRegistry.main fs jl clock start = (Ok tt, w')
          /\ forall id content pd,
               In id names ->
               full_selected fs id = true ->
               read_bytes fs ([id] // "plugin.json") = Ok content ->
               jl content = Ok pd ->
               ~ has_valid_release (full_valid_release fs pd) fs [id] ->
               exists p, Plugin.versions p = [] /\ in_all_outputs (effects w') id p).
Proof.
  assert (Hsimple : forall fs jl w plugins w',
             SimpleRegistryGenerator.scan_plugins fs jl w = (Ok plugins, w') ->
             (forall id p, In (id, p) plugins -> Plugin.versions p <> [])
             /\ (forall id content pd,
                   read_bytes fs ([] // id // "plugin.json") = Ok content ->
                   jl content = Ok pd ->
                   ~ has_valid_release (simple_valid_release fs pd) fs ([] // id) ->
                   ~ In id (keys plugins))).
  { intros fs jl w plugins w' H. apply simple_scan_plugins_Ok in H.
    destruct H as (items & _ & _ & _ & Hrec & _). split.
    - intros id p Hin. destruct (Hrec id p Hin) as (_ & _ & (c & d & _ & _ & _ & Hne)).
      exact Hne.
    - intros id content pd Hread Hload Hno Hk.
      unfold keys in Hk. apply in_map_iff in Hk. destruct Hk as ([id' p] & Hfst & Hp).
      simpl in Hfst. subst id'.
      destruct (Hrec id p Hp) as (_ & _ & (c & d & Hread' & Hload' & Hvalid & _)).
      rewrite Hread in Hread'. inversion Hread'; subst c.
      rewrite Hload in Hload'. inversion Hload'; subst d. exact (Hno Hvalid). }
  split; [|split; [exact Hsimple|split]].
  - intros fs jl clock w' path d Hmain Hin.
    apply simple_main_Ok in Hmain. destruct Hmain as (plugins & w1 & Hscan & Hcase).
    apply Hsimple in Hscan. destruct Hscan as (Hne & _).
    destruct Hcase as [[_ He]|(_ & r & mk & now & Hr & Hmk & He)].
    + rewrite He in Hin. contradiction.
    + rewrite He in Hin. simpl in Hin. destruct Hin as [E|Hin].
      * inversion E; subst path d. simpl. rewrite Hr. exact Hne.
      * apply in_app_or in Hin. destruct Hin as [Hin|Hin]; [exfalso; exact (Hmk _ _ Hin)|].
        simpl in Hin. destruct Hin as [E|Hin].
        -- inversion E; subst path d. unfold discovery.
           cbn [no_empty_plugin Discovery.plugins].
           intros e He'. apply in_map_iff in He'. destruct He' as ([id p] & <- & Hp).
           rewrite list_entry_latest. unfold latest_version_of.
           pose proof (Hne id p Hp) as Hv. destruct (Plugin.versions p); [contradiction|].
           discriminate.
        -- apply in_map_iff in Hin. destruct Hin as ([id p] & E & Hp).
           unfold detail in E. inversion E; subst path d. simpl. exact (Hne id p Hp).
  - intros fs jl w plugins w' names id H Hnames Hin Hsel.
    apply full_scan_plugins_Ok in H.
    destruct H as (names' & Hnames' & _ & Hnd & Hkeys & Hrec & _).
    rewrite Hnames in Hnames'. inversion Hnames'; subst names'.
    assert (Hk : In id (keys plugins)) by (apply Hkeys; split; assumption).
    unfold keys in Hk. apply in_map_iff in Hk. destruct Hk as ([id' p] & Hfst & Hp).
    simpl in Hfst. subst id'. exists p. split; [apply In_dict_get; assumption|].
    intros content pd Hread Hload Hno.
    destruct (Hrec id p Hp) as (c & d & Hread' & Hload' & _ & Hcons).
    rewrite Hread in Hread'. inversion Hread'; subst c.
    rewrite Hload in Hload'. inversion Hload'; subst d.
    destruct (Plugin.versions p) as [|v vs]; [reflexivity|].
    exfalso. apply Hno. apply Hcons. discriminate.
  - intros fs jl clock plugins w1 names Hnames Hplain Hscan Hfree.
    pose proof Hscan as Hs. apply full_scan_plugins_Ok in Hs.
    destruct Hs as (names' & Hnames' & _ & Hnd & Hkeys & Hrec & _).
    rewrite Hnames in Hnames'. inversion Hnames'; subst names'. clear Hnames'.
    assert (Hplain' : forall k, In k (keys plugins) -> plain_name k).
    { intros k Hk. apply Hplain. apply Hkeys in Hk. apply Hk. }
    destruct (@full_main_runs fs jl clock start plugins w1 Hscan) as (w' & Hmain);
      [intros q; reflexivity | exact Hfree | exact Hplain' |].
    exists w'. split; [exact Hmain|].
    apply full_main_Ok in Hmain.
    destruct Hmain as (plugins' & r & mk & now & Hscan' & Hr & Hmk & He).
    rewrite Hscan in Hscan'.
    assert (Heq : plugins' = plugins) by (inversion Hscan'; reflexivity).
    rewrite Heq in Hr, He. clear Hscan' Heq.
    intros id content pd Hin Hsel Hread Hload Hno.
    assert (Hk : In id (keys plugins)) by (apply Hkeys; split; assumption).
    unfold keys in Hk. apply in_map_iff in Hk. destruct Hk as ([id' p] & Hfst & Hp).
    simpl in Hfst. subst id'. exists p. split.
    + destruct (Hrec id p Hp) as (c & d & Hread' & Hload' & _ & Hcons).
      rewrite Hread in Hread'. inversion Hread'; subst c.
      rewrite Hload in Hload'. inversion Hload'; subst d.
      destruct (Plugin.versions p) as [|v vs]; [reflexivity|].
      exfalso. apply Hno. apply Hcons. discriminate.
    + rewrite He. apply in_all_outputs_of_effects; assumption.
Qed.

Lemma C2_plugins_without_versions_witness :
  (exists d,
      written_at
        (effects (snd (SimpleRegistryGenerator.main tree_one_release sample_json_load
                         sample_clock start)))
        ["api"; "plugins"; "sample-plugin"] = Some d
      /\ no_empty_plugin d)
  /\ ~ In "sample-plugin"
       (keys (fst_ok (SimpleRegistryGenerator.scan_plugins tree_no_release
                        sample_json_load start)))
  /\ (exists p,
       dict_get "sample-plugin"
         (fst_ok (GenerateRegistry.scan_plugins tree_no_release sample_json_load start))
       = Some p
       /\ Plugin.versions p = [])
  /\ exists w' p,
       GenerateRegistry.main tree_no_release sample_json_load sample_clock start = (Ok tt, w')
       /\ Plugin.versions p = []
       /\ in_all_outputs (effects w') "sample-plugin" p.
Proof.
  pose proof C2_plugins_without_versions as (Hmain & Hscan & Hfull & Hwrite).
  split; [|split; [|split]].
  - eexists. split; [vm_compute; reflexivity|].
    refine (Hmain tree_one_release sample_json_load sample_clock
              (snd (SimpleRegistryGenerator.main tree_one_release sample_json_load
                      sample_clock start))
              ["api"; "plugins"; "sample-plugin"] _ _ _).
    + vm_compute. reflexivity.
    + apply written_at_In. vm_compute. reflexivity.
  - refine (proj2 (Hscan tree_no_release sample_json_load start _
                     (snd (SimpleRegistryGenerator.scan_plugins tree_no_release
                             sample_json_load start)) _)
              "sample-plugin" (bytes_of sample_text) sample_manifest _ _ _).
    + vm_compute. reflexivity.
    + reflexivity.
    + vm_compute. reflexivity.
    + intros (names & name & Hl & _). vm_compute in Hl. discriminate.
  - destruct (Hfull tree_no_release sample_json_load start
                (fst_ok (GenerateRegistry.scan_plugins tree_no_release sample_json_load start))
                start ["sample-plugin"] "sample-plugin") as (p & Hget & Hnil).
    + vm_compute. reflexivity.
    + reflexivity.
    + left. reflexivity.
    + reflexivity.
    + exists p. split; [exact Hget|].
      apply (Hnil (bytes_of sample_text) sample_manifest);
        [reflexivity | vm_compute; reflexivity |].
      intros (names & name & Hl & _). vm_compute in Hl. discriminate.
  - destruct (Hwrite tree_no_release sample_json_load sample_clock
                (fst_ok (GenerateRegistry.scan_plugins tree_no_release sample_json_load
                           (printed "Scanning plugins directory..." start)))
                (printed "Scanning plugins directory..." start)
                ["sample-plugin"] eq_refl) as (w' & Hrun & Hout).
    + intros name [<-|[]]. reflexivity.
    + vm_compute. reflexivity.
    + unfold unobstructed. repeat split; try reflexivity; discriminate.
    + destruct (Hout "sample-plugin" (bytes_of sample_text) sample_manifest)
        as (p & Hnil & Hall);
        [left; reflexivity | reflexivity | reflexivity | vm_compute; reflexivity | |].
      * intros (names & name & Hl & _). vm_compute in Hl. discriminate.
      * exists w', p. split; [exact Hrun|]. split; [exact Hnil | exact Hall].
Defined.

(* ------------------------------------------------------------------------- *)
(** ** The discovery list *)

Lemma list_entries_latest : forall plugins,
  Forall2 (fun item e => Entry.id e = fst item
                         /\ Entry.latest_version e = latest_version_of (snd item))
          plugins (map GenerateRegistry.list_entry plugins).
Proof.
  induction plugins as [|[id p] plugins IH]; cbn [map]; constructor.
  - split; [reflexivity | apply list_entry_latest].
  - exact IH.
Qed.

(** C10: in the discovery list either script writes to [api/plugins.json],
    there is one entry for each plugin of the map, in order; its
    [latest_version] is the version string of the first element of the
    versions of the plugin when there is one, and null when the plugin has no
    version. *)
Theorem C10_latest_version_or_null :
  forall fs clock plugins w w',
    GenerateRegistry.generate_api_files fs clock plugins w = (Ok tt, w')
    \/ SimpleRegistryGenerator.generate_api_files fs clock plugins w = (Ok tt, w') ->
    exists d,
      written_at (effects w') ["api"; "plugins.json"] = Some (PluginsJson d)
      /\ Forall2 (fun item e =>
                    Entry.id e = fst item
                    /\ Entry.latest_version e
                       = match Plugin.versions (snd item) with
                         | v :: _ => Some (Version.version v)
                         | [] => None
                         end)
                 plugins (Discovery.plugins d).
Proof.
  intros fs clock plugins w w' H.
  assert (H' : GenerateRegistry.generate_api_files fs clock plugins w = (Ok tt, w')).
  { destruct H as [H|H]; [exact H|]. rewrite simple_generate_api_files in H. exact H. }
  apply generate_api_files_discovery in H'. unfold discovery in H'.
  eexists. split; [exact H'|]. cbn [Discovery.plugins]. apply list_entries_latest.
Qed.

Lemma C10_latest_version_witness :
  exists d,
    written_at
      (effects (snd (GenerateRegistry.generate_api_files tree_no_release sample_clock
                       (fst_ok (GenerateRegistry.scan_plugins tree_no_release
                                  sample_json_load start)) start)))
      ["api"; "plugins.json"] = Some (PluginsJson d)
    /\ Forall2 (fun item e =>
                  Entry.id e = fst item
                  /\ Entry.latest_version e
                     = match Plugin.versions (snd item) with
                       | v :: _ => Some (Version.version v)
                       | [] => None
                       end)
               (fst_ok (GenerateRegistry.scan_plugins tree_no_release sample_json_load start))
               (Discovery.plugins d).
Proof.
  apply (C10_latest_version_or_null tree_no_release sample_clock
           (fst_ok (GenerateRegistry.scan_plugins tree_no_release sample_json_load start))
           start).
  left. vm_compute. reflexivity.
Defined.

(* ------------------------------------------------------------------------- *)
(** ** Two runs over the same tree *)

Lemma same_outcome_bind {A B} (R : A -> A -> Prop) (Q : B -> B -> Prop)
    (m1 m2 : M A) (k1 k2 : A -> M B) w1 w2 :
  same_outcome R (m1 w1) (m2 w2) ->
  (forall a b v1 v2, R a b -> same_but_time v1 v2 -> same_outcome Q (k1 a v1) (k2 b v2)) ->
  same_outcome Q (bind m1 k1 w1) (bind m2 k2 w2).
Proof.
  unfold bind, same_outcome at 1. intros [Hr Hw] Hk.
  destruct (m1 w1) as [[a|e1] v1], (m2 w2) as [[b|e2] v2]; simpl in Hr, Hw;
    try contradiction.
  - apply Hk; assumption.
  - split; assumption.
Qed.

Lemma made_erase w q :
  made w q = existsb (fun e => match e with Mkdir p => path_eqb q p | Write _ _ => false end)
                     (map erase_effect_time (effects w)).
Proof.
  unfold made. induction (effects w) as [|e es IH]; simpl; [reflexivity|].
  rewrite IH. destruct e; reflexivity.
Qed.

Lemma same_made w1 w2 q : same_but_time w1 w2 -> made w1 q = made w2 q.
Proof. intros (_ & _ & He). rewrite !made_erase, He. reflexivity. Qed.

Lemma same_dir_now fs w1 w2 q : same_but_time w1 w2 -> dir_now fs w1 q = dir_now fs w2 q.
Proof. intros H. unfold dir_now. rewrite (@same_made w1 w2 q H). reflexivity. Qed.

Lemma same_record_effect e1 e2 w1 w2 :
  erase_effect_time e1 = erase_effect_time e2 ->
  same_but_time w1 w2 ->
  same_outcome (fun _ _ : unit => True) (record_effect e1 w1) (record_effect e2 w2).
Proof.
  intros He (Hs & Hc & Hes). unfold record_effect, same_outcome, same_but_time. simpl.
  split; [exact I|]. split; [exact Hs|]. split; [exact Hc|].
  rewrite !map_app. simpl. rewrite He, Hes. reflexivity.
Qed.

Lemma same_print line w1 w2 :
  same_but_time w1 w2 ->
  same_outcome (fun _ _ : unit => True) (print line w1) (print line w2).
Proof.
  intros (Hs & Hc & Hes). unfold print, printed, same_outcome, same_but_time. simpl.
  split; [exact I|]. rewrite Hs. auto.
Qed.

Lemma same_mkdir fs p w1 w2 :
  same_but_time w1 w2 ->
  same_outcome (fun _ _ : unit => True) (mkdir_exist_ok fs p w1) (mkdir_exist_ok fs p w2).
Proof.
  intros H. unfold mkdir_exist_ok.
  rewrite (@same_dir_now fs w1 w2 p H), (@same_dir_now fs w1 w2 (removelast p) H).
  destruct (dir_now fs w2 p); [split; [exact I | exact H]|].
  destruct (exists_ fs p); [split; [reflexivity | exact H]|].
  destruct (dir_now fs w2 (removelast p)); [|split; [reflexivity | exact H]].
  apply same_record_effect; [reflexivity | exact H].
Qed.

Lemma same_open_w fs p w1 w2 :
  same_but_time w1 w2 ->
  same_outcome (fun _ _ : unit => True) (open_w fs p w1) (open_w fs p w2).
Proof.
  intros H. unfold open_w.
  rewrite (@same_dir_now fs w1 w2 p H), (@same_dir_now fs w1 w2 (removelast p) H).
  destruct (dir_now fs w2 p); [split; [reflexivity | exact H]|].
  destruct (dir_now fs w2 (removelast p)); [split; [exact I | exact H]|].
  destruct (exists_ fs (removelast p)); split; try reflexivity; exact H.
Qed.

Lemma same_dump p d1 d2 w1 w2 :
  erase_time d1 = erase_time d2 ->
  same_but_time w1 w2 ->
  same_outcome (fun _ _ : unit => True) (dump p d1 w1) (dump p d2 w2).
Proof.
  intros Hd H. unfold dump. apply same_record_effect; [|exact H].
  simpl. rewrite Hd. reflexivity.
Qed.

Lemma same_utcnow clock1 clock2 w1 w2 :
  same_but_time w1 w2 ->
  same_outcome (fun _ _ : timestamp => True) (utcnow clock1 w1) (utcnow clock2 w2).
Proof.
  intros (Hs & Hc & Hes). unfold utcnow, same_outcome, same_but_time. simpl.
  split; [exact I|]. rewrite Hc. auto.
Qed.

Lemma same_ret {A} (R : A -> A -> Prop) a b w1 w2 :
  R a b -> same_but_time w1 w2 -> same_outcome R (ret a w1) (ret b w2).
Proof. intros Hr H. split; assumption. Qed.

Lemma same_for_each {A} (body : unit -> A -> M unit) :
  (forall x w1 w2, same_but_time w1 w2 ->
                   same_outcome (fun _ _ : unit => True) (body tt x w1) (body tt x w2)) ->
  forall xs w1 w2,
    same_but_time w1 w2 ->
    same_outcome (fun _ _ : unit => True) (for_each xs tt body w1) (for_each xs tt body w2).
Proof.
  intros Hbody. induction xs as [|x xs IH]; intros w1 w2 H; simpl.
  - apply same_ret; [exact I | exact H].
  - eapply same_outcome_bind; [apply Hbody; exact H|].
    intros [] [] v1 v2 _ Hv. apply IH. exact Hv.
Qed.

Lemma same_generate_registry clock1 clock2 plugins w1 w2 :
  same_but_time w1 w2 ->
  same_outcome (fun r1 r2 => erase_time (RegistryYml r1) = erase_time (RegistryYml r2))
    (GenerateRegistry.generate_registry clock1 plugins w1)
    (GenerateRegistry.generate_registry clock2 plugins w2).
Proof.
  intros H. unfold GenerateRegistry.generate_registry.
  eapply same_outcome_bind; [apply same_utcnow; exact H|].
  intros a b v1 v2 _ Hv. apply same_ret; [reflexivity | exact Hv].
Qed.

Lemma same_generate_api_files fs clock1 clock2 plugins w1 w2 :
  same_but_time w1 w2 ->
  same_outcome (fun _ _ : unit => True)
    (GenerateRegistry.generate_api_files fs clock1 plugins w1)
    (GenerateRegistry.generate_api_files fs clock2 plugins w2).
Proof.
  intros H. unfold GenerateRegistry.generate_api_files.
  eapply same_outcome_bind; [apply same_mkdir; exact H|]. intros _ _ v1 v2 _ H1.
  eapply same_outcome_bind; [apply same_mkdir; exact H1|]. intros _ _ v3 v4 _ H2.
  eapply same_outcome_bind; [apply same_open_w; exact H2|]. intros _ _ v5 v6 _ H3.
  eapply same_outcome_bind; [apply same_utcnow; exact H3|]. intros t1 t2 v7 v8 _ H4.
  eapply same_outcome_bind; [apply same_dump; [reflexivity | exact H4]|].
  intros _ _ v9 v10 _ H5.
  eapply same_outcome_bind.
  - apply same_for_each; [|exact H5]. intros item u1 u2 Hu.
    eapply same_outcome_bind; [apply same_open_w; exact Hu|]. intros _ _ u3 u4 _ Hu'.
    apply same_dump; [reflexivity | exact Hu'].
  - intros _ _ v11 v12 _ H6. apply same_ret; [exact I | exact H6].
Qed.

Lemma same_but_time_refl w : same_but_time w w.
Proof. repeat split. Qed.


Lemma same_outcome_bind_eq {A B} (Q : B -> B -> Prop) (m : M A) (k1 k2 : A -> M B) w :
  (forall a v, m w = (Ok a, v) -> same_outcome Q (k1 a v) (k2 a v)) ->
  same_outcome Q (bind m k1 w) (bind m k2 w).
Proof.
  intros Hk. unfold bind. destruct (m w) as [[a|e] v].
  - apply Hk. reflexivity.
  - split; [reflexivity | apply same_but_time_refl].
Qed.

(** Two runs of [generate-registry.py] over the same tree, at any two times,
    end in the same way and leave the same output up to the generation
    times. *)
Lemma full_main_same fs jl clock1 clock2 w :
  same_outcome (fun _ _ : unit => True)
    (GenerateRegistry.main fs jl clock1 w) (GenerateRegistry.main fs jl clock2 w).
Proof.
  unfold GenerateRegistry.main.
  apply same_outcome_bind_eq. intros _ v0 _.
  apply same_outcome_bind_eq. intros plugins v _.
  eapply same_outcome_bind; [apply same_print; apply same_but_time_refl|].
  intros _ _ v1 v2 _ H1.
  eapply same_outcome_bind.
  { apply same_for_each; [|exact H1]. intros item u1 u2 Hu. apply same_print. exact Hu. }
  intros _ _ v3 v4 _ H2.
  eapply same_outcome_bind; [apply same_print; exact H2|]. intros _ _ v5 v6 _ H3.
  eapply same_outcome_bind; [apply same_generate_registry; exact H3|].
  intros r1 r2 v7 v8 Hr H4.
  eapply same_outcome_bind; [apply same_open_w; exact H4|]. intros _ _ v9 v10 _ H5.
  eapply same_outcome_bind; [apply same_dump; [exact Hr | exact H5]|].
  intros _ _ v11 v12 _ H6.
  eapply same_outcome_bind; [apply same_print; exact H6|]. intros _ _ v13 v14 _ H7.
  eapply same_outcome_bind; [apply same_generate_api_files; exact H7|].
  intros _ _ v15 v16 _ H8. apply same_print. exact H8.
Qed.

Lemma simple_main_same fs jl clock1 clock2 w :
  same_outcome (fun _ _ : unit => True)
    (SimpleRegistryGenerator.main fs jl clock1 w)
    (SimpleRegistryGenerator.main fs jl clock2 w).
Proof.
  unfold SimpleRegistryGenerator.main.
  apply same_outcome_bind_eq. intros _ v0 _.
  apply same_outcome_bind_eq. intros plugins v _.
  destruct plugins as [|item plugins].
  - apply same_print. apply same_but_time_refl.
  - eapply same_outcome_bind; [apply same_print; apply same_but_time_refl|].
    intros _ _ v1 v2 _ H1.
    eapply same_outcome_bind; [apply same_print; exact H1|]. intros _ _ v3 v4 _ H2.
    eapply same_outcome_bind; [apply same_generate_registry; exact H2|].
    intros r1 r2 v5 v6 Hr H3.
    eapply same_outcome_bind; [apply same_open_w; exact H3|]. intros _ _ v7 v8 _ H4.
    eapply same_outcome_bind; [apply same_dump; [exact Hr | exact H4]|].
    intros _ _ v9 v10 _ H5.
    eapply same_outcome_bind; [apply same_print; exact H5|]. intros _ _ v11 v12 _ H6.
    eapply same_outcome_bind; [apply same_generate_api_files; exact H6|].
    intros _ _ v13 v14 _ H7.
    eapply same_outcome_bind; [apply same_print; exact H7|]. intros _ _ v15 v16 _ H8.
    eapply same_outcome_bind; [apply same_print; exact H8|]. intros _ _ v17 v18 _ H9.
    eapply same_outcome_bind; [apply same_print; exact H9|]. intros _ _ v19 v20 _ H10.
    apply same_print. exact H10.
Qed.

Lemma written_at_erase es p :
  written_at (map erase_effect_time es) p = option_map erase_time (written_at es p).
Proof.
  induction es as [|e es IH]; simpl; [reflexivity|].
  rewrite IH. destruct (written_at es p); simpl; [reflexivity|].
  destruct e as [q|q d]; simpl; [reflexivity|].
  destruct (path_eqb p q); reflexivity.
Qed.

Lemma same_outcome_unit (x y : result unit * world) :
  same_outcome (fun _ _ : unit => True) x y ->
  fst x = fst y
  /\ stdout (snd x) = stdout (snd y)
  /\ forall p, option_map erase_time (written_at (effects (snd x)) p)
               = option_map erase_time (written_at (effects (snd y)) p).
Proof.
  unfold same_outcome. intros (Hr & Hs & _ & He). split; [|split; [exact Hs|]].
  - destruct (fst x) as [[]|e1], (fst y) as [[]|e2]; try contradiction;
      [reflexivity | rewrite Hr; reflexivity].
  - intros p. rewrite <- !written_at_erase. rewrite He. reflexivity.
Qed.

(** C9: the checksum of a file depends on its bytes only: two files with the
    same bytes, wherever they are, have the same checksum, the hexadecimal
    SHA-256 digest of the bytes.  Two runs of a script over the same tree, at
    whatever times, end in the same way, print the same lines and write the
    same documents up to the generation times [last_updated]; so every asset
    and manifest checksum they hold is the same. *)
Theorem C9_checksums_deterministic :
  (forall fs1 fs2 p1 p2 content,
      read_bytes fs1 p1 = Ok content ->
      read_bytes fs2 p2 = Ok content ->
      calculate_checksum fs1 p1 = Ok (SHA256.hexdigest content)
      /\ calculate_checksum fs2 p2 = calculate_checksum fs1 p1)
  /\ (forall fs jl clock1 clock2,
        let run1 := GenerateRegistry.main fs jl clock1 start in
        let run2 := GenerateRegistry.main fs jl clock2 start in
        fst run1 = fst run2
        /\ stdout (snd run1) = stdout (snd run2)
        /\ forall p, option_map erase_time (written_at (effects (snd run1)) p)
                     = option_map erase_time (written_at (effects (snd run2)) p))
  /\ (forall fs jl clock1 clock2,
        let run1 := SimpleRegistryGenerator.main fs jl clock1 start in
        let run2 := SimpleRegistryGenerator.main fs jl clock2 start in
        fst run1 = fst run2
        /\ stdout (snd run1) = stdout (snd run2)
        /\ forall p, option_map erase_time (written_at (effects (snd run1)) p)
                     = option_map erase_time (written_at (effects (snd run2)) p)).
Proof.
  split; [|split].
  - intros fs1 fs2 p1 p2 content H1 H2.
    rewrite !calculate_checksum_digest, H1, H2. split; reflexivity.
  - intros fs jl clock1 clock2 run1 run2. apply same_outcome_unit. apply full_main_same.
  - intros fs jl clock1 clock2 run1 run2. apply same_outcome_unit. apply simple_main_same.
Qed.

Lemma C9_checksums_witness :
  calculate_checksum tree_one_release ["sample-plugin"; "releases"; "1.0.0";
                                       "sample-plugin-linux-amd64"]
  = Ok (SHA256.hexdigest (bytes_of "binary"))
  /\ calculate_checksum tree_versions ["sample-plugin"; "releases"; "1.9.0";
                                       "sample-plugin-linux-amd64"]
     = calculate_checksum tree_one_release ["sample-plugin"; "releases"; "1.0.0";
                                            "sample-plugin-linux-amd64"].
Proof.
  apply (proj1 C9_checksums_deterministic tree_one_release tree_versions
           ["sample-plugin"; "releases"; "1.0.0"; "sample-plugin-linux-amd64"]
           ["sample-plugin"; "releases"; "1.9.0"; "sample-plugin-linux-amd64"]
           (bytes_of "binary")); reflexivity.
Defined.

(* ------------------------------------------------------------------------- *)
(** ** The order of strings *)

Lemma ascii_compare_refl c : Ascii.compare c c = Eq.
Proof. unfold Ascii.compare. apply N.compare_refl. Qed.

(** [b <= a] and [c <= b] give [c <= a]. *)
Lemma str_lt_false_trans : forall a b c,
  str_lt a b = false -> str_lt b c = false -> str_lt a c = false.
Proof.
  unfold str_lt.
  induction a as [|x a IH]; intros [|y b] [|z c]; simpl; try discriminate; try reflexivity.
  unfold Ascii.compare.
  destruct (N.compare_spec (N_of_ascii x) (N_of_ascii y)) as [Exy|Lxy|Gxy];
    destruct (N.compare_spec (N_of_ascii y) (N_of_ascii z)) as [Eyz|Lyz|Gyz];
    destruct (N.compare_spec (N_of_ascii x) (N_of_ascii z)) as [Exz|Lxz|Gxz];
    try discriminate; try reflexivity; try lia; intros H1 H2.
  - exact (IH b c H1 H2).
Qed.

Lemma sort_reverse_strongly_sorted {A} (key : A -> string) l :
  StronglySorted (fun a b => str_lt (key a) (key b) = false) (sort_reverse key l).
Proof.
  apply Sorted_StronglySorted.
  - intros a b c Hab Hbc. exact (str_lt_false_trans _ _ _ Hab Hbc).
  - apply sort_reverse_sorted.
Qed.

(** X1: In the record [process_plugin] returns, and in the record
    [simple-registry-generator.py] makes of a plugin with versions, the
    version list is a rearrangement of the records collected from the
    releases directory, in descending order of the version strings: no
    version is, as a string, less than one that comes after it. *)
Theorem X1_versions_descending_as_strings :
  (forall fs plugin_dir pd w p w',
      GenerateRegistry.process_plugin fs plugin_dir pd w = (Ok p, w') ->
      exists releases,
        GenerateRegistry.scan_releases fs plugin_dir pd w = (Ok releases, w)
        /\ Permutation releases (Plugin.versions p)
        /\ descending_as_strings (Plugin.versions p))
  /\ (forall pd versions w p w',
        SimpleRegistryGenerator.plugin_record pd versions w = (Ok p, w') ->
        Permutation versions (Plugin.versions p)
        /\ descending_as_strings (Plugin.versions p)).
Proof.
  split.
  - intros fs plugin_dir pd w p w' H.
    apply full_process_plugin_Ok in H. destruct H as (_ & releases & Hscan & ->).
    exists releases. split; [exact Hscan|]. split.
    + apply sort_reverse_perm.
    + apply sort_reverse_strongly_sorted.
  - intros pd versions w p w' H.
    apply simple_plugin_record_Ok in H. destruct H as (_ & ->). split.
    + apply sort_reverse_perm.
    + apply sort_reverse_strongly_sorted.
Qed.

Lemma X1_versions_descending_witness :
  (exists p w',
      GenerateRegistry.process_plugin tree_versions ["sample-plugin"] sample_manifest start
        = (Ok p, w')
      /\ exists releases,
           GenerateRegistry.scan_releases tree_versions ["sample-plugin"] sample_manifest start
             = (Ok releases, start)
           /\ Permutation releases (Plugin.versions p)
           /\ descending_as_strings (Plugin.versions p))
  /\ (exists versions w1 p w',
        SimpleRegistryGenerator.scan_versions tree_versions ["sample-plugin"]
          sample_manifest start = (Ok versions, w1)
        /\ SimpleRegistryGenerator.plugin_record sample_manifest versions w1 = (Ok p, w')
        /\ Permutation versions (Plugin.versions p)
        /\ descending_as_strings (Plugin.versions p)).
Proof.
  split.
  - assert (Hrun : exists p w',
               GenerateRegistry.process_plugin tree_versions ["sample-plugin"]
                 sample_manifest start = (Ok p, w'))
      by (eexists; eexists; vm_compute; reflexivity).
    destruct Hrun as (p & w' & Hrun). exists p, w'. split; [exact Hrun|].
    exact (proj1 X1_versions_descending_as_strings tree_versions ["sample-plugin"]
             sample_manifest start p w' Hrun).
  - assert (Hrun : exists versions w1,
               SimpleRegistryGenerator.scan_versions tree_versions ["sample-plugin"]
                 sample_manifest start = (Ok versions, w1))
      by (eexists; eexists; vm_compute; reflexivity).
    destruct Hrun as (versions & w1 & Hrun).
    exists versions, w1. eexists. eexists. split; [exact Hrun|]. split; [reflexivity|].
    refine (proj2 X1_versions_descending_as_strings sample_manifest versions w1 _ _ _).
    reflexivity.
Defined.

(* ------------------------------------------------------------------------- *)
(** ** The version records of a plugin, one by one *)

Lemma path_name_last (p : path) (name : string) : path_name (p ++ [name])%list = name.
Proof. unfold path_name. apply last_last. Qed.

Lemma full_has_some_binary_valid fs pd vd :
  full_has_some_binary fs pd vd = true <-> full_valid_release fs pd vd.
Proof.
  unfold full_has_some_binary, full_valid_release. split.
  - destruct (Manifest.build pd) as [build|]; [|discriminate].
    destruct (Manifest.platforms build) as [platforms|] eqn:Hplat; [|discriminate].
    intros H. apply existsb_exists in H. destruct H as (platform & Hin & H).
    exists build, platforms, platform.
    split; [reflexivity|]. split; [exact Hplat|]. split; [exact Hin|].
    unfold full_has_binary.
    destruct (GenerateRegistry.binary_name_for pd platform) as [[[o a] n]|e];
      [|discriminate].
    exists o, a, n. split; [reflexivity | exact H].
  - intros (build & platforms & platform & -> & -> & Hin & (o & a & n & Hb & Hex)).
    apply existsb_exists. exists platform. split; [exact Hin|]. rewrite Hb. exact Hex.
Qed.

Lemma simple_has_some_binary_valid fs pd vd :
  simple_has_some_binary fs pd vd = true <-> simple_valid_release fs pd vd.
Proof.
  unfold simple_has_some_binary, simple_valid_release, simple_has_binary. split.
  - destruct (Manifest.info pd) as [info|]; [|discriminate].
    destruct (Manifest.id info) as [plugin_id|] eqn:Hid; [|discriminate].
    intros H. apply existsb_exists in H. destruct H as (platform & Hin & H).
    exists info, plugin_id, platform. auto.
  - intros (info & plugin_id & platform & -> & -> & Hin & Hex).
    apply existsb_exists. exists platform. auto.
Qed.

(** The loop over the releases directory of [generate-registry.py] adds one
    record for each entry that is kept, in listing order, under the name of
    the entry. *)
Lemma full_releases_loop_names fs pd rd : forall names releases w releases' w',
  for_each names releases (GenerateRegistry.collect_release fs rd pd) w = (Ok releases', w') ->
  map Version.version releases'
  = (map Version.version releases ++ filter (full_release_kept fs pd rd) names)%list.
Proof.
  induction names as [|name names IH]; intros releases w releases' w' H; simpl in H.
  - apply ret_Ok in H. destruct H as [-> ->]. simpl. rewrite app_nil_r. reflexivity.
  - apply bind_Ok in H. destruct H as (releases1 & w1 & H1 & H2).
    apply IH in H2. rewrite H2. clear H2 IH.
    unfold GenerateRegistry.collect_release in H1. cbn [filter].
    assert (Hkept : full_release_kept fs pd rd name
                    = (is_dir fs (rd ++ [name])%list
                       && full_has_some_binary fs pd (rd ++ [name])%list)%bool)
      by reflexivity.
    rewrite Hkept. clear Hkept.
    destruct (is_dir fs (rd ++ [name])%list) eqn:Hdir; cbn [andb].
    + apply bind_Ok in H1. destruct H1 as (r & w2 & Hr & H1).
      pose proof (full_process_release_Ok _ _ _ _ Hr) as (_ & _ & _ & _ & Hsome).
      apply full_process_release_valid in Hr. destruct Hr as (-> & Hnone & Hvalid).
      destruct r as [v|]; apply ret_Ok in H1; destruct H1 as [-> ->].
      * destruct (Hvalid v eq_refl) as [Hv _]. destruct (Hsome v eq_refl) as [Hname _].
        rewrite (proj2 (full_has_some_binary_valid fs pd _) Hv).
        rewrite map_app. cbn [map]. rewrite Hname, path_name_last, <- app_assoc.
        reflexivity.
      * destruct (full_has_some_binary fs pd (rd ++ [name])%list) eqn:Hb; [|reflexivity].
        exfalso. apply (Hnone eq_refl). apply full_has_some_binary_valid. exact Hb.
    + apply ret_Ok in H1. destruct H1 as [-> ->]. reflexivity.
Qed.

Lemma simple_versions_loop_names fs pd rd : forall names versions w versions' w',
  for_each names versions (SimpleRegistryGenerator.collect_version fs rd pd) w
    = (Ok versions', w') ->
  map Version.version versions'
  = (map Version.version versions ++ filter (simple_release_kept fs pd rd) names)%list.
Proof.
  induction names as [|name names IH]; intros versions w versions' w' H; simpl in H.
  - apply ret_Ok in H. destruct H as [-> ->]. simpl. rewrite app_nil_r. reflexivity.
  - apply bind_Ok in H. destruct H as (versions1 & w1 & H1 & H2).
    apply IH in H2. rewrite H2. clear H2 IH.
    unfold SimpleRegistryGenerator.collect_version in H1. cbn [filter].
    assert (Hkept : simple_release_kept fs pd rd name
                    = (is_dir fs (rd ++ [name])%list
                       && simple_has_some_binary fs pd (rd ++ [name])%list)%bool)
      by reflexivity.
    rewrite Hkept. clear Hkept.
    destruct (is_dir fs (rd ++ [name])%list) eqn:Hdir; cbn [andb].
    + apply bind_Ok in H1. destruct H1 as (r & w2 & Hr & H1).
      pose proof (simple_process_version_Ok _ _ _ _ Hr) as Hcases.
      apply simple_process_version_valid in Hr. destruct Hr as (_ & Hnone & Hvalid).
      destruct r as [v|]; apply ret_Ok in H1; destruct H1 as [-> ->].
      * destruct (Hvalid v eq_refl) as [Hv _].
        destruct Hcases as (pid & _ & [(E & _)|(v' & E & _ & _ & Hname & _)]);
          [discriminate|].
        inversion E; subst v'.
        rewrite (proj2 (simple_has_some_binary_valid fs pd _) Hv).
        rewrite map_app. cbn [map]. rewrite Hname, path_name_last, <- app_assoc.
        reflexivity.
      * destruct (simple_has_some_binary fs pd (rd ++ [name])%list) eqn:Hb; [|reflexivity].
        exfalso. apply (Hnone eq_refl). apply simple_has_some_binary_valid. exact Hb.
    + apply ret_Ok in H1. destruct H1 as [-> ->]. reflexivity.
Qed.

Lemma full_scan_releases_names fs plugin_dir pd w releases w' :
  GenerateRegistry.scan_releases fs plugin_dir pd w = (Ok releases, w') ->
  map Version.version releases
  = filter (full_release_kept fs pd (plugin_dir // "releases")) (release_names fs plugin_dir).
Proof.
  unfold GenerateRegistry.scan_releases, release_names. intros H.
  destruct (exists_ fs (plugin_dir // "releases")) eqn:Hex.
  - bind_lift H names Hnames. rewrite Hnames.
    apply full_releases_loop_names in H. exact H.
  - apply ret_Ok in H. destruct H as [-> _].
    destruct (listdir fs (plugin_dir // "releases")) as [names|e] eqn:Hl; [|reflexivity].
    apply listdir_exists in Hl. rewrite Hex in Hl. discriminate.
Qed.

Lemma simple_scan_versions_names fs plugin_dir pd w versions w' :
  SimpleRegistryGenerator.scan_versions fs plugin_dir pd w = (Ok versions, w') ->
  map Version.version versions
  = filter (simple_release_kept fs pd (plugin_dir // "releases"))
           (release_names fs plugin_dir).
Proof.
  unfold SimpleRegistryGenerator.scan_versions, release_names. intros H.
  destruct (exists_ fs (plugin_dir // "releases")) eqn:Hex.
  - bind_lift H names Hnames. rewrite Hnames.
    apply simple_versions_loop_names in H. exact H.
  - apply ret_Ok in H. destruct H as [-> _].
    destruct (listdir fs (plugin_dir // "releases")) as [names|e] eqn:Hl; [|reflexivity].
    apply listdir_exists in Hl. rewrite Hex in Hl. discriminate.
Qed.

(** X2: The versions a scan of a releases directory collects are, in
    listing order, the names of the entries that are directories and hold at
    least one binary the script expects; a plugin without releases directory
    has none. *)
Theorem X2_versions_are_the_kept_releases :
  (forall fs plugin_dir pd w releases w',
      GenerateRegistry.scan_releases fs plugin_dir pd w = (Ok releases, w') ->
      map Version.version releases
      = filter (full_release_kept fs pd (plugin_dir // "releases"))
               (release_names fs plugin_dir))
  /\ (forall fs plugin_dir pd w versions w',
        SimpleRegistryGenerator.scan_versions fs plugin_dir pd w = (Ok versions, w') ->
        map Version.version versions
        = filter (simple_release_kept fs pd (plugin_dir // "releases"))
                 (release_names fs plugin_dir)).
Proof.
  split.
  - intros fs plugin_dir pd w releases w' H. exact (full_scan_releases_names _ _ _ _ H).
  - intros fs plugin_dir pd w versions w' H. exact (simple_scan_versions_names _ _ _ _ H).
Qed.

Lemma X2_versions_are_the_kept_releases_witness :
  (exists releases w',
      GenerateRegistry.scan_releases tree_versions ["sample-plugin"] sample_manifest start
        = (Ok releases, w')
      /\ map Version.version releases
         = filter (full_release_kept tree_versions sample_manifest
                     (["sample-plugin"] // "releases"))
                  (release_names tree_versions ["sample-plugin"]))
  /\ (exists versions w',
        SimpleRegistryGenerator.scan_versions tree_no_binary ["sample-plugin"]
          sample_manifest start = (Ok versions, w')
        /\ map Version.version versions
           = filter (simple_release_kept tree_no_binary sample_manifest
                       (["sample-plugin"] // "releases"))
                    (release_names tree_no_binary ["sample-plugin"])).
Proof.
  split.
  - assert (Hrun : exists releases w',
               GenerateRegistry.scan_releases tree_versions ["sample-plugin"]
                 sample_manifest start = (Ok releases, w'))
      by (eexists; eexists; vm_compute; reflexivity).
    destruct Hrun as (releases & w' & Hrun). exists releases, w'. split; [exact Hrun|].
    exact (proj1 X2_versions_are_the_kept_releases tree_versions ["sample-plugin"]
             sample_manifest start releases w' Hrun).
  - assert (Hrun : exists versions w',
               SimpleRegistryGenerator.scan_versions tree_no_binary ["sample-plugin"]
                 sample_manifest start = (Ok versions, w'))
      by (eexists; eexists; vm_compute; reflexivity).
    destruct Hrun as (versions & w' & Hrun). exists versions, w'. split; [exact Hrun|].
    exact (proj2 X2_versions_are_the_kept_releases tree_no_binary ["sample-plugin"]
             sample_manifest start versions w' Hrun).
Defined.

(* ------------------------------------------------------------------------- *)
(** ** The assets of a version *)

Lemma getitem_Ok {A} key (field : option A) a : getitem key field = Ok a -> field = Some a.
Proof. destruct field; simpl; intros H; inversion H; reflexivity. Qed.

Lemma simple_platform_asset_exact fs vd plugin_id assets platform w assets' w' :
  SimpleRegistryGenerator.platform_asset fs vd plugin_id assets platform w = (Ok assets', w') ->
  (exists_ fs (vd // SimpleRegistryGenerator.binary_name_for plugin_id platform) = false
   /\ assets' = assets)
  \/ (exists_ fs (vd // SimpleRegistryGenerator.binary_name_for plugin_id platform) = true
      /\ exists content,
           read_bytes fs (vd // SimpleRegistryGenerator.binary_name_for plugin_id platform)
           = Ok content
           /\ assets' = dict_set platform
                          (asset_for vd plugin_id
                             (SimpleRegistryGenerator.binary_name_for plugin_id platform)
                             content) assets).
Proof.
  unfold SimpleRegistryGenerator.platform_asset. intros H.
  destruct (exists_ fs (vd // SimpleRegistryGenerator.binary_name_for plugin_id platform))
    eqn:Hex.
  - bind_lift H checksum Hsum. bind_lift H size Hsize.
    apply ret_Ok in H. destruct H as [-> _].
    apply calculate_checksum_Ok in Hsum. destruct Hsum as (content & Hread & ->).
    rewrite (st_size_of_content _ _ Hsize Hread).
    right. split; [reflexivity|]. exists content. split; [exact Hread | reflexivity].
  - apply ret_Ok in H. destruct H as [-> _]. left. split; reflexivity.
Qed.

Lemma simple_assets_loop_exact fs vd plugin_id : forall platforms assets w assets' w',
  for_each platforms assets (SimpleRegistryGenerator.platform_asset fs vd plugin_id) w
    = (Ok assets', w') ->
  NoDup platforms ->
  (forall platform, In platform platforms -> ~ In platform (keys assets)) ->
  keys assets'
  = (keys assets
     ++ filter (fun platform =>
                  exists_ fs (vd // SimpleRegistryGenerator.binary_name_for plugin_id platform))
               platforms)%list
  /\ forall k a, In (k, a) assets' ->
       In (k, a) assets
       \/ (In k platforms
           /\ exists content,
                read_bytes fs (vd // SimpleRegistryGenerator.binary_name_for plugin_id k)
                = Ok content
                /\ a = asset_for vd plugin_id
                         (SimpleRegistryGenerator.binary_name_for plugin_id k) content).
Proof.
  induction platforms as [|platform platforms IH];
    intros assets w assets' w' H Hnd Hnew; simpl in H.
  - apply ret_Ok in H. destruct H as [-> _]. simpl. rewrite app_nil_r. split; auto.
  - apply bind_Ok in H. destruct H as (assets1 & w1 & H1 & H2).
    inversion Hnd as [|? ? Hnotin Hnd']; subst.
    apply simple_platform_asset_exact in H1. cbn [filter].
    destruct H1 as [[Hex ->]|(Hex & content & Hread & ->)]; rewrite Hex.
    + apply IH in H2; [|exact Hnd' | intros p Hp; apply Hnew; right; exact Hp].
      destruct H2 as [Hkeys Hin]. split; [exact Hkeys|].
      intros k a Hk. destruct (Hin k a Hk) as [Hl|(Hp & Hr)]; [left; exact Hl|].
      right. split; [right; exact Hp | exact Hr].
    + apply IH in H2; [|exact Hnd'|].
      * destruct H2 as [Hkeys Hin]. split.
        -- rewrite Hkeys, keys_dict_set_new by (apply Hnew; left; reflexivity).
           rewrite <- app_assoc. reflexivity.
        -- intros k a Hk. destruct (Hin k a Hk) as [Hl|(Hp & Hr)].
           ++ apply dict_set_In in Hl. destruct Hl as [E|Hl]; [|left; exact Hl].
              inversion E; subst. right. split; [left; reflexivity|].
              exists content. split; [exact Hread | reflexivity].
           ++ right. split; [right; exact Hp | exact Hr].
      * intros p Hp Hk. apply keys_dict_set_In in Hk. destruct Hk as [->|Hk].
        -- exact (Hnotin Hp).
        -- exact (Hnew p (or_intror Hp) Hk).
Qed.

Lemma simple_platforms_NoDup : NoDup SimpleRegistryGenerator.platforms.
Proof.
  unfold SimpleRegistryGenerator.platforms.
  repeat (constructor; [simpl; intuition discriminate|]). constructor.
Qed.

(** What [process_version] puts in a record. *)
Lemma simple_process_version_fields fs vd pd w v w' :
  SimpleRegistryGenerator.process_version fs vd pd w = (Ok (Some v), w') ->
  exists info plugin_id mtime content w1,
    Manifest.info pd = Some info
    /\ Manifest.id info = Some plugin_id
    /\ for_each SimpleRegistryGenerator.platforms []
         (SimpleRegistryGenerator.platform_asset fs vd plugin_id) w
       = (Ok (Version.assets v), w1)
    /\ st_mtime fs vd = Ok mtime
    /\ read_bytes fs ([] // plugin_id // "plugin.json") = Ok content
    /\ Version.version v = path_name vd
    /\ Version.released v = fromtimestamp mtime
    /\ Version.compatibility v
       = match Manifest.compatibility pd with
         | Some c => CompatSection c
         | None => CompatList ["v0.1.0"; "v0.2.0"]
         end
    /\ Version.plugin_metadata v = metadata_for plugin_id content.
Proof.
  unfold SimpleRegistryGenerator.process_version. intros H.
  bind_lift H info Hinfo. bind_lift H plugin_id Hid.
  apply getitem_Ok in Hinfo. apply getitem_Ok in Hid.
  apply bind_Ok in H. destruct H as (assets & w1 & Hloop & H).
  destruct assets as [|asset assets].
  - apply bind_Ok in H. destruct H as (u & w2 & _ & H).
    apply ret_Ok in H. destruct H as [H _]. discriminate.
  - bind_lift H mtime Hmtime.
    apply bind_Ok in H. destruct H as (frontend & w2 & Hfe & H).
    bind_lift H checksum Hsum.
    apply bind_Ok in H. destruct H as (u & w3 & _ & H).
    apply ret_Ok in H. destruct H as [H _]. inversion H; subst v. clear H. simpl.
    apply calculate_checksum_Ok in Hsum. destruct Hsum as (content & Hread & ->).
    exists info, plugin_id, mtime, content, w1. repeat split; assumption.
Qed.

(** X6: The assets of a version record of [simple-registry-generator.py]:
    its keys are those of the five platforms whose binary is in the version
    directory, in the order of the platform list; and the asset under a
    platform describes that binary: its URL under the plugin id of the
    manifest, the digest of its bytes and their number. *)
Theorem X6_simple_assets :
  forall fs vd pd w v w',
    SimpleRegistryGenerator.process_version fs vd pd w = (Ok (Some v), w') ->
    exists plugin_id,
      manifest_id pd = Some plugin_id
      /\ keys (Version.assets v)
         = filter (fun platform =>
                     exists_ fs (vd // SimpleRegistryGenerator.binary_name_for
                                          plugin_id platform))
                  SimpleRegistryGenerator.platforms
      /\ forall platform a,
           In (platform, a) (Version.assets v) ->
           exists content,
             read_bytes fs (vd // SimpleRegistryGenerator.binary_name_for plugin_id platform)
             = Ok content
             /\ a = asset_for vd plugin_id
                      (SimpleRegistryGenerator.binary_name_for plugin_id platform) content.
Proof.
  intros fs vd pd w v w' H. apply simple_process_version_fields in H.
  destruct H as (info & plugin_id & mtime & content & w1 & Hinfo & Hid & Hloop & _).
  exists plugin_id. split; [unfold manifest_id; rewrite Hinfo; exact Hid|].
  apply simple_assets_loop_exact in Hloop;
    [|exact simple_platforms_NoDup | intros p _ []].
  destruct Hloop as [Hkeys Hin]. split; [exact Hkeys|].
  intros platform a Ha. destruct (Hin platform a Ha) as [[]|(_ & Hr)]. exact Hr.
Qed.

Lemma X6_simple_assets_witness :
  exists v w',
    SimpleRegistryGenerator.process_version tree_frontend
      ["sample-plugin"; "releases"; "1.0.0"] sample_manifest start = (Ok (Some v), w')
    /\ exists plugin_id,
         manifest_id sample_manifest = Some plugin_id
         /\ keys (Version.assets v)
            = filter (fun platform =>
                        exists_ tree_frontend
                          (["sample-plugin"; "releases"; "1.0.0"]
                           // SimpleRegistryGenerator.binary_name_for plugin_id platform))
                     SimpleRegistryGenerator.platforms
         /\ forall platform a,
              In (platform, a) (Version.assets v) ->
              exists content,
                read_bytes tree_frontend
                  (["sample-plugin"; "releases"; "1.0.0"]
                   // SimpleRegistryGenerator.binary_name_for plugin_id platform)
                = Ok content
                /\ a = asset_for ["sample-plugin"; "releases"; "1.0.0"] plugin_id
                         (SimpleRegistryGenerator.binary_name_for plugin_id platform) content.
Proof.
  assert (Hrun : exists v w',
             SimpleRegistryGenerator.process_version tree_frontend
               ["sample-plugin"; "releases"; "1.0.0"] sample_manifest start
             = (Ok (Some v), w'))
    by (eexists; eexists; vm_compute; reflexivity).
  destruct Hrun as (v & w' & Hrun). exists v, w'. split; [exact Hrun|].
  exact (X6_simple_assets tree_frontend ["sample-plugin"; "releases"; "1.0.0"]
           sample_manifest start Hrun).
Defined.

Lemma full_platform_asset_exact fs vd pd assets platform w assets' w' :
  GenerateRegistry.platform_asset fs vd pd assets platform w = (Ok assets', w') ->
  exists os_name arch binary_name,
    GenerateRegistry.binary_name_for pd platform = Ok (os_name, arch, binary_name)
    /\ ((exists_ fs (vd // binary_name) = false /\ assets' = assets)
        \/ (exists plugin_id content,
              manifest_id pd = Some plugin_id
              /\ read_bytes fs (vd // binary_name) = Ok content
              /\ assets' = dict_set (os_name ++ "-" ++ arch)
                             (asset_for vd plugin_id binary_name content) assets)).
Proof.
  unfold GenerateRegistry.platform_asset. intros H.
  apply bind_Ok in H. destruct H as ([[os_name arch] binary_name] & w1 & Hb & H).
  apply lift_Ok in Hb. destruct Hb as [Hb ->].
  exists os_name, arch, binary_name. split; [exact Hb|].
  destruct (exists_ fs (vd // binary_name)) eqn:Hex.
  - bind_lift H info Hinfo. bind_lift H pid Hid.
    bind_lift H checksum Hsum. bind_lift H size Hsize.
    apply ret_Ok in H. destruct H as [-> _].
    apply getitem_Ok in Hinfo. apply getitem_Ok in Hid.
    apply calculate_checksum_Ok in Hsum. destruct Hsum as (content & Hread & ->).
    rewrite (st_size_of_content _ _ Hsize Hread).
    right. exists pid, content. split; [unfold manifest_id; rewrite Hinfo; exact Hid|].
    split; [exact Hread | reflexivity].
  - apply ret_Ok in H. destruct H as [-> _]. left. split; reflexivity.
Qed.

Lemma full_assets_loop_exact fs vd pd : forall platforms assets w assets' w',
  for_each platforms assets (GenerateRegistry.platform_asset fs vd pd) w = (Ok assets', w') ->
  (NoDup (keys assets) -> NoDup (keys assets'))
  /\ (forall k, In k (keys assets) -> In k (keys assets'))
  /\ (forall platform, In platform platforms ->
        exists os_name arch binary_name,
          GenerateRegistry.binary_name_for pd platform = Ok (os_name, arch, binary_name)
          /\ (exists_ fs (vd // binary_name) = true ->
              In (os_name ++ "-" ++ arch) (keys assets')))
  /\ (forall k a, In (k, a) assets' ->
        In (k, a) assets
        \/ exists platform os_name arch binary_name plugin_id content,
             In platform platforms
             /\ GenerateRegistry.binary_name_for pd platform = Ok (os_name, arch, binary_name)
             /\ k = os_name ++ "-" ++ arch
             /\ manifest_id pd = Some plugin_id
             /\ read_bytes fs (vd // binary_name) = Ok content
             /\ a = asset_for vd plugin_id binary_name content).
Proof.
  induction platforms as [|platform platforms IH]; intros assets w assets' w' H; simpl in H.
  - apply ret_Ok in H. destruct H as [-> _].
    split; [auto|]. split; [auto|]. split; [intros ? []|]. intros k a Hk. left. exact Hk.
  - apply bind_Ok in H. destruct H as (assets1 & w1 & H1 & H2).
    apply full_platform_asset_exact in H1.
    destruct H1 as (os_name & arch & binary_name & Hb & Hcase).
    apply IH in H2. destruct H2 as (Hnd & Hkeep & Hall & Hin).
    assert (Hkeys1 : forall k, In k (keys assets) -> In k (keys assets1)).
    { destruct Hcase as [[_ ->]|(pid & content & _ & _ & ->)]; [auto|].
      intros k Hk. apply keys_dict_set_In. right. exact Hk. }
    split; [|split; [|split]].
    + intros Hn. apply Hnd.
      destruct Hcase as [[_ ->]|(pid & content & _ & _ & ->)]; [exact Hn|].
      apply dict_set_NoDup. exact Hn.
    + intros k Hk. apply Hkeep. apply Hkeys1. exact Hk.
    + intros p [<-|Hp]; [|apply Hall; exact Hp].
      exists os_name, arch, binary_name. split; [exact Hb|]. intros Hex.
      apply Hkeep. destruct Hcase as [[Hno _]|(pid & content & _ & _ & ->)].
      * rewrite Hex in Hno. discriminate.
      * apply keys_dict_set_In. left. reflexivity.
    + intros k a Hk. destruct (Hin k a Hk) as [Hl|(p & o & ar & n & pid & c & Hp & Hr)].
      * destruct Hcase as [[_ ->]|(pid & content & Hid & Hread & ->)]; [left; exact Hl|].
        apply dict_set_In in Hl. destruct Hl as [E|Hl]; [|left; exact Hl].
        inversion E; subst. right.
        exists platform, os_name, arch, binary_name, pid, content.
        split; [left; reflexivity|]. auto.
      * right. exists p, o, ar, n, pid, c. split; [right; exact Hp | exact Hr].
Qed.

(** What [process_release] puts in a record. *)
Lemma full_process_release_fields fs vd pd w v w' :
  GenerateRegistry.process_release fs vd pd w = (Ok (Some v), w') ->
  exists build platforms compat supported plugin_id mtime content w1,
    Manifest.build pd = Some build
    /\ Manifest.platforms build = Some platforms
    /\ Manifest.compatibility pd = Some compat
    /\ Manifest.supported_versions compat = Some supported
    /\ manifest_id pd = Some plugin_id
    /\ for_each platforms [] (GenerateRegistry.platform_asset fs vd pd) w
       = (Ok (Version.assets v), w1)
    /\ st_mtime fs vd = Ok mtime
    /\ read_bytes fs ([] // plugin_id // "plugin.json") = Ok content
    /\ Version.version v = path_name vd
    /\ Version.released v = fromtimestamp mtime
    /\ Version.compatibility v = CompatList supported
    /\ Version.plugin_metadata v = metadata_for plugin_id content.
Proof.
  unfold GenerateRegistry.process_release. intros H.
  bind_lift H build Hbuild. bind_lift H platforms Hplat.
  apply getitem_Ok in Hbuild. apply getitem_Ok in Hplat.
  apply bind_Ok in H. destruct H as (assets & w1 & Hloop & H).
  apply bind_Ok in H. destruct H as (fc & w2 & Hfc & H).
  destruct assets as [|asset assets].
  - apply ret_Ok in H. destruct H as [H _]. discriminate.
  - bind_lift H mtime Hmtime. bind_lift H compat Hcompat.
    bind_lift H supported Hsupported. bind_lift H info Hinfo. bind_lift H pid Hid.
    bind_lift H checksum Hsum. apply ret_Ok in H. destruct H as [H _].
    inversion H; subst v. clear H. simpl.
    apply getitem_Ok in Hcompat. apply getitem_Ok in Hsupported.
    apply getitem_Ok in Hinfo. apply getitem_Ok in Hid.
    apply calculate_checksum_Ok in Hsum. destruct Hsum as (content & Hread & ->).
    exists build, platforms, compat, supported, pid, mtime, content, w1.
    repeat split; try assumption.
    unfold manifest_id. rewrite Hinfo. exact Hid.
Qed.

(** X7: The assets of a version record of [generate-registry.py]: no key
    occurs twice; every platform of the manifest yields a binary name, and its
    key is among the assets when the binary is in the version directory; and
    every asset belongs to a platform of the manifest and describes the binary
    of that platform. *)
Theorem X7_full_assets :
  forall fs vd pd w v w',
    GenerateRegistry.process_release fs vd pd w = (Ok (Some v), w') ->
    exists build platforms plugin_id,
      Manifest.build pd = Some build
      /\ Manifest.platforms build = Some platforms
      /\ manifest_id pd = Some plugin_id
      /\ NoDup (keys (Version.assets v))
      /\ (forall platform, In platform platforms ->
            exists os_name arch binary_name,
              GenerateRegistry.binary_name_for pd platform = Ok (os_name, arch, binary_name)
              /\ (exists_ fs (vd // binary_name) = true ->
                  In (os_name ++ "-" ++ arch) (keys (Version.assets v))))
      /\ (forall k a, In (k, a) (Version.assets v) ->
            exists platform os_name arch binary_name content,
              In platform platforms
              /\ GenerateRegistry.binary_name_for pd platform
                 = Ok (os_name, arch, binary_name)
              /\ k = os_name ++ "-" ++ arch
              /\ read_bytes fs (vd // binary_name) = Ok content
              /\ a = asset_for vd plugin_id binary_name content).
Proof.
  intros fs vd pd w v w' H. apply full_process_release_fields in H.
  destruct H as (build & platforms & compat & supported & plugin_id & mtime & content & w1
                 & Hbuild & Hplat & _ & _ & Hid & Hloop & _).
  exists build, platforms, plugin_id.
  split; [exact Hbuild|]. split; [exact Hplat|]. split; [exact Hid|].
  apply full_assets_loop_exact in Hloop. destruct Hloop as (Hnd & _ & Hall & Hin).
  split; [apply Hnd; constructor|]. split; [exact Hall|].
  intros k a Hk. destruct (Hin k a Hk) as [[]|(p & o & ar & n & pid & c & Hp & Hb & Hkey & Hpid & Hr & Ha)].
  rewrite Hid in Hpid. inversion Hpid; subst pid.
  exists p, o, ar, n, c. auto.
Qed.

Lemma X7_full_assets_witness :
  exists v w',
    GenerateRegistry.process_release tree_frontend
      ["sample-plugin"; "releases"; "1.0.0"] sample_manifest start = (Ok (Some v), w')
    /\ exists build platforms plugin_id,
         Manifest.build sample_manifest = Some build
         /\ Manifest.platforms build = Some platforms
         /\ manifest_id sample_manifest = Some plugin_id
         /\ NoDup (keys (Version.assets v))
         /\ (forall platform, In platform platforms ->
               exists os_name arch binary_name,
                 GenerateRegistry.binary_name_for sample_manifest platform
                 = Ok (os_name, arch, binary_name)
                 /\ (exists_ tree_frontend
                       (["sample-plugin"; "releases"; "1.0.0"] // binary_name) = true ->
                     In (os_name ++ "-" ++ arch) (keys (Version.assets v))))
         /\ (forall k a, In (k, a) (Version.assets v) ->
               exists platform os_name arch binary_name content,
                 In platform platforms
                 /\ GenerateRegistry.binary_name_for sample_manifest platform
                    = Ok (os_name, arch, binary_name)
                 /\ k = os_name ++ "-" ++ arch
                 /\ read_bytes tree_frontend
                      (["sample-plugin"; "releases"; "1.0.0"] // binary_name) = Ok content
                 /\ a = asset_for ["sample-plugin"; "releases"; "1.0.0"] plugin_id
                          binary_name content).
Proof.
  assert (Hrun : exists v w',
             GenerateRegistry.process_release tree_frontend
               ["sample-plugin"; "releases"; "1.0.0"] sample_manifest start
             = (Ok (Some v), w'))
    by (eexists; eexists; vm_compute; reflexivity).
  destruct Hrun as (v & w' & Hrun). exists v, w'. split; [exact Hrun|].
  exact (X7_full_assets tree_frontend ["sample-plugin"; "releases"; "1.0.0"]
           sample_manifest start Hrun).
Defined.

(** X8: The manifest reference of a version record names the
    [plugin.json] of the directory the manifest's [info.id] names, which need
    not be the directory scanned, and holds the digest of that file.  So all
    the versions of a plugin have the same manifest reference and the same
    compatibility value. *)
Theorem X8_manifest_reference_of_the_manifest_id :
  (forall fs pd vd w v w',
      GenerateRegistry.process_release fs vd pd w = (Ok (Some v), w') ->
      exists plugin_id content,
        manifest_id pd = Some plugin_id
        /\ read_bytes fs ([] // plugin_id // "plugin.json") = Ok content
        /\ Version.plugin_metadata v = metadata_for plugin_id content)
  /\ (forall fs pd vd w v w',
        SimpleRegistryGenerator.process_version fs vd pd w = (Ok (Some v), w') ->
        exists plugin_id content,
          manifest_id pd = Some plugin_id
          /\ read_bytes fs ([] // plugin_id // "plugin.json") = Ok content
          /\ Version.plugin_metadata v = metadata_for plugin_id content)
  /\ (forall fs pd vd1 vd2 w1 w2 v1 v2 w1' w2',
        GenerateRegistry.process_release fs vd1 pd w1 = (Ok (Some v1), w1') ->
        GenerateRegistry.process_release fs vd2 pd w2 = (Ok (Some v2), w2') ->
        Version.plugin_metadata v1 = Version.plugin_metadata v2
        /\ Version.compatibility v1 = Version.compatibility v2)
  /\ (forall fs pd vd1 vd2 w1 w2 v1 v2 w1' w2',
        SimpleRegistryGenerator.process_version fs vd1 pd w1 = (Ok (Some v1), w1') ->
        SimpleRegistryGenerator.process_version fs vd2 pd w2 = (Ok (Some v2), w2') ->
        Version.plugin_metadata v1 = Version.plugin_metadata v2
        /\ Version.compatibility v1 = Version.compatibility v2).
Proof.
  split; [|split; [|split]].
  - intros fs pd vd w v w' H. apply full_process_release_fields in H.
    destruct H as (_ & _ & _ & _ & pid & _ & content & _
                   & _ & _ & _ & _ & Hid & _ & _ & Hread & _ & _ & _ & Hm).
    exists pid, content. auto.
  - intros fs pd vd w v w' H. apply simple_process_version_fields in H.
    destruct H as (info & pid & _ & content & _ & Hinfo & Hid & _ & _ & Hread & _ & _ & _ & Hm).
    exists pid, content. split; [unfold manifest_id; rewrite Hinfo; exact Hid|]. auto.
  - intros fs pd vd1 vd2 w1 w2 v1 v2 w1' w2' H1 H2.
    apply full_process_release_fields in H1. apply full_process_release_fields in H2.
    destruct H1 as (_ & _ & c1 & s1 & pid1 & _ & content1 & _
                    & _ & _ & Hc1 & Hs1 & Hid1 & _ & _ & Hr1 & _ & _ & Hcomp1 & Hm1).
    destruct H2 as (_ & _ & c2 & s2 & pid2 & _ & content2 & _
                    & _ & _ & Hc2 & Hs2 & Hid2 & _ & _ & Hr2 & _ & _ & Hcomp2 & Hm2).
    rewrite Hc1 in Hc2. inversion Hc2; subst c2.
    rewrite Hs1 in Hs2. inversion Hs2; subst s2.
    rewrite Hid1 in Hid2. inversion Hid2; subst pid2.
    rewrite Hr1 in Hr2. inversion Hr2; subst content2.
    rewrite Hm1, Hm2, Hcomp1, Hcomp2. split; reflexivity.
  - intros fs pd vd1 vd2 w1 w2 v1 v2 w1' w2' H1 H2.
    apply simple_process_version_fields in H1. apply simple_process_version_fields in H2.
    destruct H1 as (i1 & pid1 & _ & content1 & _ & Hi1 & Hid1 & _ & _ & Hr1 & _ & _ & Hcomp1 & Hm1).
    destruct H2 as (i2 & pid2 & _ & content2 & _ & Hi2 & Hid2 & _ & _ & Hr2 & _ & _ & Hcomp2 & Hm2).
    rewrite Hi1 in Hi2. inversion Hi2; subst i2.
    rewrite Hid1 in Hid2. inversion Hid2; subst pid2.
    rewrite Hr1 in Hr2. inversion Hr2; subst content2.
    rewrite Hm1, Hm2, Hcomp1, Hcomp2. split; reflexivity.
Qed.

Lemma X8_manifest_reference_witness :
  (exists v1 v2 w1' w2',
      GenerateRegistry.process_release tree_versions
        ["sample-plugin"; "releases"; "1.2.0"] sample_manifest start = (Ok (Some v1), w1')
      /\ GenerateRegistry.process_release tree_versions
           ["sample-plugin"; "releases"; "1.9.0"] sample_manifest start = (Ok (Some v2), w2')
      /\ (exists plugin_id content,
            manifest_id sample_manifest = Some plugin_id
            /\ read_bytes tree_versions ([] // plugin_id // "plugin.json") = Ok content
            /\ Version.plugin_metadata v1 = metadata_for plugin_id content)
      /\ Version.plugin_metadata v1 = Version.plugin_metadata v2
      /\ Version.compatibility v1 = Version.compatibility v2)
  /\ (exists v1 v2 w1' w2',
        SimpleRegistryGenerator.process_version tree_versions
          ["sample-plugin"; "releases"; "1.2.0"] sample_manifest start = (Ok (Some v1), w1')
        /\ SimpleRegistryGenerator.process_version tree_versions
             ["sample-plugin"; "releases"; "1.9.0"] sample_manifest start
           = (Ok (Some v2), w2')
        /\ (exists plugin_id content,
              manifest_id sample_manifest = Some plugin_id
              /\ read_bytes tree_versions ([] // plugin_id // "plugin.json") = Ok content
              /\ Version.plugin_metadata v1 = metadata_for plugin_id content)
        /\ Version.plugin_metadata v1 = Version.plugin_metadata v2
        /\ Version.compatibility v1 = Version.compatibility v2).
Proof.
  pose proof X8_manifest_reference_of_the_manifest_id as (Hfull & Hsimple & Hfull2 & Hsimple2).
  split.
  - assert (H1 : exists v w',
               GenerateRegistry.process_release tree_versions
                 ["sample-plugin"; "releases"; "1.2.0"] sample_manifest start
               = (Ok (Some v), w'))
      by (eexists; eexists; vm_compute; reflexivity).
    assert (H2 : exists v w',
               GenerateRegistry.process_release tree_versions
                 ["sample-plugin"; "releases"; "1.9.0"] sample_manifest start
               = (Ok (Some v), w'))
      by (eexists; eexists; vm_compute; reflexivity).
    destruct H1 as (v1 & w1' & H1). destruct H2 as (v2 & w2' & H2).
    exists v1, v2, w1', w2'. split; [exact H1|]. split; [exact H2|]. split.
    + exact (Hfull tree_versions sample_manifest ["sample-plugin"; "releases"; "1.2.0"]
               start v1 w1' H1).
    + exact (Hfull2 tree_versions sample_manifest ["sample-plugin"; "releases"; "1.2.0"]
               ["sample-plugin"; "releases"; "1.9.0"] start start v1 v2 w1' w2' H1 H2).
  - assert (H1 : exists v w',
               SimpleRegistryGenerator.process_version tree_versions
                 ["sample-plugin"; "releases"; "1.2.0"] sample_manifest start
               = (Ok (Some v), w'))
      by (eexists; eexists; vm_compute; reflexivity).
    assert (H2 : exists v w',
               SimpleRegistryGenerator.process_version tree_versions
                 ["sample-plugin"; "releases"; "1.9.0"] sample_manifest start
               = (Ok (Some v), w'))
      by (eexists; eexists; vm_compute; reflexivity).
    destruct H1 as (v1 & w1' & H1). destruct H2 as (v2 & w2' & H2).
    exists v1, v2, w1', w2'. split; [exact H1|]. split; [exact H2|]. split.
    + exact (Hsimple tree_versions sample_manifest ["sample-plugin"; "releases"; "1.2.0"]
               start v1 w1' H1).
    + exact (Hsimple2 tree_versions sample_manifest ["sample-plugin"; "releases"; "1.2.0"]
               ["sample-plugin"; "releases"; "1.9.0"] start start v1 v2 w1' w2' H1 H2).
Defined.

(* ------------------------------------------------------------------------- *)
(** ** What a computation leaves behind, however it ends *)

Lemma silent_ret {A} (a : A) : silent (ret a).
Proof. intros w. reflexivity. Qed.

Lemma silent_lift {A} (r : result A) : silent (lift r).
Proof. intros w. reflexivity. Qed.

Lemma silent_bind {A B} (m : M A) (k : A -> M B) :
  silent m -> (forall a, silent (k a)) -> silent (bind m k).
Proof.
  intros Hm Hk w. unfold bind. specialize (Hm w).
  destruct (m w) as [[a|e] w1]; simpl in Hm; subst w1; [apply Hk | reflexivity].
Qed.

Lemma silent_for_each {A S} (body : S -> A -> M S) :
  (forall acc x, silent (body acc x)) -> forall xs acc, silent (for_each xs acc body).
Proof.
  intros Hbody. induction xs as [|x xs IH]; intros acc; simpl.
  - apply silent_ret.
  - apply silent_bind; [apply Hbody | intros a; apply IH].
Qed.

Lemma silent_quiet {A} (m : M A) : silent m -> quiet m.
Proof.
  intros H w. rewrite H. split; [reflexivity|]. split; [reflexivity|].
  exists []. rewrite H, app_nil_r. reflexivity.
Qed.

Lemma quiet_print line : quiet (print line).
Proof.
  intros w. simpl. split; [reflexivity|]. split; [reflexivity|]. exists [line]. reflexivity.
Qed.

Lemma quiet_bind {A B} (m : M A) (k : A -> M B) :
  quiet m -> (forall a, quiet (k a)) -> quiet (bind m k).
Proof.
  intros Hm Hk w. unfold bind. specialize (Hm w).
  destruct (m w) as [[a|e] w1]; simpl in Hm; destruct Hm as (He & Hc & lines & Hl).
  - destruct (Hk a w1) as (He' & Hc' & lines' & Hl').
    rewrite He', Hc', Hl', He, Hc, Hl. split; [reflexivity|]. split; [reflexivity|].
    exists (lines ++ lines')%list. rewrite app_assoc. reflexivity.
  - simpl. split; [exact He|]. split; [exact Hc|]. exists lines. exact Hl.
Qed.

Lemma quiet_for_each {A S} (body : S -> A -> M S) :
  (forall acc x, quiet (body acc x)) -> forall xs acc, quiet (for_each xs acc body).
Proof.
  intros Hbody. induction xs as [|x xs IH]; intros acc; simpl.
  - apply silent_quiet, silent_ret.
  - apply quiet_bind; [apply Hbody | intros a; apply IH].
Qed.

(** One step of a proof that a computation is silent or quiet. *)
Ltac silent_step :=
  first [ apply silent_ret | apply silent_lift
        | apply silent_bind; [|intros ?]
        | apply silent_for_each; intros ? ?
        | match goal with
          | |- silent (if ?b then _ else _) => destruct b
          | |- silent (match ?x with _ => _ end) => destruct x
          end ].

Ltac quiet_step :=
  first [ apply quiet_print
        | apply silent_quiet; solve [repeat silent_step]
        | apply quiet_bind; [|intros ?]
        | apply quiet_for_each; intros ? ?
        | match goal with
          | |- quiet (if ?b then _ else _) => destruct b
          | |- quiet (match ?x with _ => _ end) => destruct x
          end ].

Lemma full_platform_asset_silent fs vd pd assets platform :
  silent (GenerateRegistry.platform_asset fs vd pd assets platform).
Proof. unfold GenerateRegistry.platform_asset. repeat silent_step. Qed.

Lemma full_process_release_silent fs vd pd :
  silent (GenerateRegistry.process_release fs vd pd).
Proof.
  unfold GenerateRegistry.process_release, GenerateRegistry.frontend_checksum_of.
  repeat first [ apply full_platform_asset_silent | silent_step ].
Qed.

Lemma full_scan_releases_silent fs plugin_dir pd :
  silent (GenerateRegistry.scan_releases fs plugin_dir pd).
Proof.
  unfold GenerateRegistry.scan_releases, GenerateRegistry.collect_release.
  repeat first [ apply full_process_release_silent | silent_step ].
Qed.

Lemma full_process_plugin_silent fs plugin_dir pd :
  silent (GenerateRegistry.process_plugin fs plugin_dir pd).
Proof.
  unfold GenerateRegistry.process_plugin.
  repeat first [ apply full_scan_releases_silent | silent_step ].
Qed.

Lemma full_scan_plugins_silent fs jl : silent (GenerateRegistry.scan_plugins fs jl).
Proof.
  unfold GenerateRegistry.scan_plugins, GenerateRegistry.scan_entry.
  repeat first [ apply full_process_plugin_silent | silent_step ].
Qed.

Lemma simple_platform_asset_silent fs vd plugin_id assets platform :
  silent (SimpleRegistryGenerator.platform_asset fs vd plugin_id assets platform).
Proof. unfold SimpleRegistryGenerator.platform_asset. repeat silent_step. Qed.

Lemma simple_process_version_quiet fs vd pd :
  quiet (SimpleRegistryGenerator.process_version fs vd pd).
Proof.
  unfold SimpleRegistryGenerator.process_version.
  repeat first [ apply silent_quiet, silent_for_each; intros; apply simple_platform_asset_silent
               | quiet_step ].
Qed.

Lemma simple_scan_versions_quiet fs plugin_dir pd :
  quiet (SimpleRegistryGenerator.scan_versions fs plugin_dir pd).
Proof.
  unfold SimpleRegistryGenerator.scan_versions, SimpleRegistryGenerator.collect_version.
  repeat first [ apply simple_process_version_quiet | quiet_step ].
Qed.

Lemma simple_plugin_record_silent pd versions :
  silent (SimpleRegistryGenerator.plugin_record pd versions).
Proof. unfold SimpleRegistryGenerator.plugin_record. repeat silent_step. Qed.

Lemma simple_scan_plugins_quiet fs jl : quiet (SimpleRegistryGenerator.scan_plugins fs jl).
Proof.
  unfold SimpleRegistryGenerator.scan_plugins, SimpleRegistryGenerator.scan_item.
  repeat first [ apply simple_scan_versions_quiet
               | apply silent_quiet, simple_plugin_record_silent
               | quiet_step ].
Qed.












(* ------------------------------------------------------------------------- *)
(** ** The manifests behind the records *)

Lemma full_process_plugin_fields fs plugin_dir pd w p w' :
  GenerateRegistry.process_plugin fs plugin_dir pd w = (Ok p, w') ->
  full_record_fields pd p.
Proof.
  unfold GenerateRegistry.process_plugin. intros H.
  apply bind_Ok in H. destruct H as (releases & w1 & _ & H).
  bind_lift H info Hinfo. bind_lift H name Hname. bind_lift H description Hdesc.
  bind_lift H author Hauthor. bind_lift H license Hlicense.
  bind_lift H compat Hcompat. bind_lift H min_version Hmin.
  apply ret_Ok in H. destruct H as [-> _].
  apply getitem_Ok in Hinfo, Hname, Hdesc, Hauthor, Hlicense, Hcompat, Hmin.
  exists info, compat. simpl. repeat split; assumption.
Qed.

Lemma simple_plugin_record_fields pd versions w p w' :
  SimpleRegistryGenerator.plugin_record pd versions w = (Ok p, w') ->
  simple_record_fields pd p.
Proof.
  unfold SimpleRegistryGenerator.plugin_record. intros H.
  bind_lift H info Hinfo. bind_lift H name Hname. bind_lift H description Hdesc.
  bind_lift H author Hauthor. bind_lift H license Hlicense.
  apply ret_Ok in H. destruct H as [-> _].
  apply getitem_Ok in Hinfo, Hname, Hdesc, Hauthor, Hlicense.
  exists info. simpl. repeat split; assumption.
Qed.

(** A scan of [generate-registry.py] that succeeds has read and recorded the
    manifest of every selected entry. *)
Lemma full_scan_loop_manifests fs jl : forall names plugins w plugins' w',
  for_each names plugins (GenerateRegistry.scan_entry fs jl) w = (Ok plugins', w') ->
  (forall name, In name names -> full_selected fs name = true ->
     exists content pd p,
       read_bytes fs ([name] // "plugin.json") = Ok content
       /\ jl content = Ok pd
       /\ full_record_fields pd p)
  /\ (forall k p, In (k, p) plugins' ->
        In (k, p) plugins
        \/ exists content pd,
             read_bytes fs ([k] // "plugin.json") = Ok content
             /\ jl content = Ok pd
             /\ full_record_fields pd p).
Proof.
  induction names as [|name names IH]; intros plugins w plugins' w' H; simpl in H.
  - apply ret_Ok in H. destruct H as [-> _]. split; [intros ? []|]. auto.
  - apply bind_Ok in H. destruct H as (plugins1 & w1 & H1 & H2).
    apply full_scan_entry_Ok in H1. destruct H1 as (-> & Hcase).
    apply IH in H2. destruct H2 as (Hall & Hin). split.
    + intros n [<-|Hn] Hsel; [|apply Hall; assumption].
      destruct Hcase as [[Hno _]|(_ & content & pd & p & Hread & Hload & Hp & _)].
      * rewrite Hsel in Hno. discriminate.
      * exists content, pd, p. split; [exact Hread|]. split; [exact Hload|].
        exact (full_process_plugin_fields _ _ _ _ Hp).
    + intros k p Hk. destruct (Hin k p Hk) as [Hl|Hr]; [|right; exact Hr].
      destruct Hcase as [[_ ->]|(_ & content & pd & p0 & Hread & Hload & Hp & ->)];
        [left; exact Hl|].
      apply dict_set_In in Hl. destruct Hl as [E|Hl]; [|left; exact Hl].
      inversion E; subst. right. exists content, pd. split; [exact Hread|].
      split; [exact Hload|]. exact (full_process_plugin_fields _ _ _ _ Hp).
Qed.

(** One turn of the scan of [simple-registry-generator.py], with the record
    it makes. *)
Lemma simple_scan_item_record fs jl plugins item w plugins' w' :
  SimpleRegistryGenerator.scan_item fs jl plugins item w = (Ok plugins', w') ->
  (simple_selected fs item = false /\ plugins' = plugins)
  \/ (simple_selected fs item = true
      /\ exists content pd,
           read_bytes fs ([] // item // "plugin.json") = Ok content
           /\ jl content = Ok pd
           /\ (plugins' = plugins
               \/ exists p, simple_record_fields pd p /\ plugins' = dict_set item p plugins)).
Proof.
  unfold SimpleRegistryGenerator.scan_item, simple_selected. intros H.
  destruct (SimpleRegistryGenerator.candidate fs item); simpl.
  - destruct (exists_ fs ([] // item // "plugin.json")).
    + apply bind_Ok in H. destruct H as (u & w1 & _ & H).
      bind_lift H content Hread. bind_lift H pd Hload.
      apply bind_Ok in H. destruct H as (versions & w2 & _ & H).
      right. split; [reflexivity|]. exists content, pd.
      split; [exact Hread|]. split; [exact Hload|].
      destruct versions as [|v versions].
      * apply ret_Ok in H. destruct H as [-> _]. left. reflexivity.
      * apply bind_Ok in H. destruct H as (p & w3 & Hp & H).
        apply ret_Ok in H. destruct H as [-> _]. right. exists p.
        split; [exact (simple_plugin_record_fields _ _ _ Hp) | reflexivity].
    + apply ret_Ok in H. destruct H as [-> _]. left. auto.
  - apply ret_Ok in H. destruct H as [-> _]. left. auto.
Qed.

Lemma simple_scan_loop_manifests fs jl : forall items plugins w plugins' w',
  for_each items plugins (SimpleRegistryGenerator.scan_item fs jl) w = (Ok plugins', w') ->
  (forall item, In item items -> simple_selected fs item = true ->
     exists content pd,
       read_bytes fs ([] // item // "plugin.json") = Ok content /\ jl content = Ok pd)
  /\ (forall k p, In (k, p) plugins' ->
        In (k, p) plugins
        \/ exists content pd,
             read_bytes fs ([] // k // "plugin.json") = Ok content
             /\ jl content = Ok pd
             /\ simple_record_fields pd p).
Proof.
  induction items as [|item items IH]; intros plugins w plugins' w' H; simpl in H.
  - apply ret_Ok in H. destruct H as [-> _]. split; [intros ? []|]. auto.
  - apply bind_Ok in H. destruct H as (plugins1 & w1 & H1 & H2).
    apply simple_scan_item_record in H1.
    apply IH in H2. destruct H2 as (Hall & Hin). split.
    + intros n [<-|Hn] Hsel; [|apply Hall; assumption].
      destruct H1 as [[Hno _]|(_ & content & pd & Hread & Hload & _)].
      * rewrite Hsel in Hno. discriminate.
      * exists content, pd. auto.
    + intros k p Hk. destruct (Hin k p Hk) as [Hl|Hr]; [|right; exact Hr].
      destruct H1 as [[_ ->]|(_ & content & pd & Hread & Hload & [->|(p0 & Hp & ->)])];
        [left; exact Hl | left; exact Hl |].
      apply dict_set_In in Hl. destruct Hl as [E|Hl]; [|left; exact Hl].
      inversion E; subst. right. exists content, pd. auto.
Qed.

(** X9: After a successful scan, the manifest of every selected entry has
    been read and has loaded, and every record of the plugin map has the
    fields of the manifest in the directory of its id, with the defaults of
    the script: [generate-registry.py] needs the name, description, author and
    license and [compatibility.min_delve_version], and passes an absent
    repository or homepage on; [simple-registry-generator.py] puts the empty
    string for those, and reads the minimal version under [info], with the
    default [v0.1.0]. *)
Theorem X9_records_come_from_manifests :
  (forall fs jl w plugins w' names,
      GenerateRegistry.scan_plugins fs jl w = (Ok plugins, w') ->
      listdir fs [] = Ok names ->
      (forall name, In name names -> full_selected fs name = true ->
         exists content pd p,
           read_bytes fs ([name] // "plugin.json") = Ok content
           /\ jl content = Ok pd
           /\ full_record_fields pd p)
      /\ (forall id p, In (id, p) plugins ->
            exists content pd,
              read_bytes fs ([id] // "plugin.json") = Ok content
              /\ jl content = Ok pd
              /\ full_record_fields pd p))
  /\ (forall fs jl w plugins w' items,
        SimpleRegistryGenerator.scan_plugins fs jl w = (Ok plugins, w') ->
        listdir fs [] = Ok items ->
        (forall item, In item items -> simple_selected fs item = true ->
           exists content pd,
             read_bytes fs ([] // item // "plugin.json") = Ok content /\ jl content = Ok pd)
        /\ (forall id p, In (id, p) plugins ->
              exists content pd,
                read_bytes fs ([] // id // "plugin.json") = Ok content
                /\ jl content = Ok pd
                /\ simple_record_fields pd p)).
Proof.
  split.
  - intros fs jl w plugins w' names H Hnames.
    unfold GenerateRegistry.scan_plugins in H. bind_lift H names' Hl.
    rewrite Hnames in Hl. inversion Hl; subst names'.
    apply full_scan_loop_manifests in H. destruct H as [Hall Hin].
    split; [exact Hall|]. intros id p Hp. destruct (Hin id p Hp) as [[]|Hr]. exact Hr.
  - intros fs jl w plugins w' items H Hitems.
    unfold SimpleRegistryGenerator.scan_plugins in H. bind_lift H items' Hl.
    rewrite Hitems in Hl. inversion Hl; subst items'.
    apply simple_scan_loop_manifests in H. destruct H as [Hall Hin].
    split; [exact Hall|]. intros id p Hp. destruct (Hin id p Hp) as [[]|Hr]. exact Hr.
Qed.

Lemma X9_records_come_from_manifests_witness :
  (exists id p rest w',
      GenerateRegistry.scan_plugins tree_one_release sample_json_load start
        = (Ok ((id, p) :: rest), w')
      /\ exists content pd,
           read_bytes tree_one_release ([id] // "plugin.json") = Ok content
           /\ sample_json_load content = Ok pd
           /\ full_record_fields pd p)
  /\ (exists id p rest w',
        SimpleRegistryGenerator.scan_plugins tree_one_release sample_json_load start
          = (Ok ((id, p) :: rest), w')
        /\ exists content pd,
             read_bytes tree_one_release ([] // id // "plugin.json") = Ok content
             /\ sample_json_load content = Ok pd
             /\ simple_record_fields pd p).
Proof.
  split.
  - assert (Hscan : exists id p rest w',
               GenerateRegistry.scan_plugins tree_one_release sample_json_load start
               = (Ok ((id, p) :: rest), w'))
      by (do 4 eexists; vm_compute; reflexivity).
    destruct Hscan as (id & p & rest & w' & Hscan).
    exists id, p, rest, w'. split; [exact Hscan|].
    exact (proj2 (proj1 X9_records_come_from_manifests tree_one_release sample_json_load
                    start ((id, p) :: rest) w' ["sample-plugin"] Hscan eq_refl)
             id p (or_introl eq_refl)).
  - assert (Hscan : exists id p rest w',
               SimpleRegistryGenerator.scan_plugins tree_one_release sample_json_load start
               = (Ok ((id, p) :: rest), w'))
      by (do 4 eexists; vm_compute; reflexivity).
    destruct Hscan as (id & p & rest & w' & Hscan).
    exists id, p, rest, w'. split; [exact Hscan|].
    exact (proj2 (proj2 X9_records_come_from_manifests tree_one_release sample_json_load
                    start ((id, p) :: rest) w' ["sample-plugin"] Hscan eq_refl)
             id p (or_introl eq_refl)).
Defined.

(** X10: When the scan ends with an exception, the run ends with that
    exception before anything is written and before the clock is read; of
    [generate-registry.py] only the first line has been printed. *)
Theorem X10_failed_scan_writes_nothing :
  (forall fs jl clock e w1,
      GenerateRegistry.scan_plugins fs jl (printed "Scanning plugins directory..." start)
        = (Raise e, w1) ->
      GenerateRegistry.main fs jl clock start
        = (Raise e, printed "Scanning plugins directory..." start)
      /\ w1 = printed "Scanning plugins directory..." start)
  /\ (forall fs jl clock e w1,
        SimpleRegistryGenerator.scan_plugins fs jl
          (printed (SimpleRegistryGenerator.mark_scanning ++ " Scanning for plugins...") start)
          = (Raise e, w1) ->
        SimpleRegistryGenerator.main fs jl clock start = (Raise e, w1)
        /\ effects w1 = [] /\ clock_reads w1 = 0).
Proof.
  split.
  - intros fs jl clock e w1 H.
    pose proof (full_scan_plugins_silent fs jl
                  (printed "Scanning plugins directory..." start)) as Hs.
    rewrite H in Hs. simpl in Hs. subst w1. split; [|reflexivity].
    unfold GenerateRegistry.main, bind at 1. unfold print at 1. unfold bind at 1.
    rewrite H. reflexivity.
  - intros fs jl clock e w1 H.
    pose proof (simple_scan_plugins_quiet fs jl
                  (printed (SimpleRegistryGenerator.mark_scanning
                            ++ " Scanning for plugins...") start)) as Hq.
    rewrite H in Hq. simpl in Hq. destruct Hq as (He & Hc & _).
    split; [|split; assumption].
    unfold SimpleRegistryGenerator.main, bind at 1. unfold print at 1. unfold bind at 1.
    rewrite H. reflexivity.
Qed.

Lemma X10_failed_scan_writes_nothing_witness :
  (exists w1,
      GenerateRegistry.scan_plugins tree_broken_manifest sample_json_load
        (printed "Scanning plugins directory..." start) = (Raise JSONDecodeError, w1)
      /\ GenerateRegistry.main tree_broken_manifest sample_json_load sample_clock start
         = (Raise JSONDecodeError, printed "Scanning plugins directory..." start)
      /\ w1 = printed "Scanning plugins directory..." start)
  /\ (exists w1,
        SimpleRegistryGenerator.scan_plugins tree_broken_manifest sample_json_load
          (printed (SimpleRegistryGenerator.mark_scanning ++ " Scanning for plugins...") start)
        = (Raise JSONDecodeError, w1)
        /\ SimpleRegistryGenerator.main tree_broken_manifest sample_json_load sample_clock
             start = (Raise JSONDecodeError, w1)
        /\ effects w1 = []
        /\ clock_reads w1 = 0).
Proof.
  split.
  - assert (Hscan : exists w1,
               GenerateRegistry.scan_plugins tree_broken_manifest sample_json_load
                 (printed "Scanning plugins directory..." start) = (Raise JSONDecodeError, w1))
      by (eexists; vm_compute; reflexivity).
    destruct Hscan as (w1 & Hscan). exists w1. split; [exact Hscan|].
    exact (proj1 X10_failed_scan_writes_nothing tree_broken_manifest sample_json_load
             sample_clock JSONDecodeError w1 Hscan).
  - assert (Hscan : exists w1,
               SimpleRegistryGenerator.scan_plugins tree_broken_manifest sample_json_load
                 (printed (SimpleRegistryGenerator.mark_scanning
                           ++ " Scanning for plugins...") start)
               = (Raise JSONDecodeError, w1))
      by (eexists; vm_compute; reflexivity).
    destruct Hscan as (w1 & Hscan). exists w1. split; [exact Hscan|].
    exact (proj2 X10_failed_scan_writes_nothing tree_broken_manifest sample_json_load
             sample_clock JSONDecodeError w1 Hscan).
Defined.

(* ------------------------------------------------------------------------- *)
(** ** The documents of a run *)

Lemma generate_api_files_clock fs clock plugins w u w' :
  GenerateRegistry.generate_api_files fs clock plugins w = (Ok u, w') ->
  clock_reads w' = S (clock_reads w).
Proof.
  unfold GenerateRegistry.generate_api_files. intros H.
  apply bind_Ok in H. destruct H as (u1 & w1 & Hmk1 & H).
  apply bind_Ok in H. destruct H as (u2 & w2 & Hmk2 & H).
  apply bind_Ok in H. destruct H as (u3 & w3 & Hopen & H).
  apply bind_Ok in H. destruct H as (now & w4 & Hnow & H).
  apply bind_Ok in H. destruct H as (u5 & w5 & Hdump & H).
  apply bind_Ok in H. destruct H as (u6 & w6 & Hloop & H).
  apply ret_Ok in H. destruct H as [_ ->].
  apply mkdir_exist_ok_Ok in Hmk1. destruct Hmk1 as (_ & Hc1 & _).
  apply mkdir_exist_ok_Ok in Hmk2. destruct Hmk2 as (_ & Hc2 & _).
  apply open_w_Ok in Hopen. subst w3.
  unfold utcnow in Hnow. inversion Hnow; subst now w4. clear Hnow.
  unfold dump, record_effect in Hdump. inversion Hdump; subst w5. clear Hdump.
  apply write_details_Ok in Hloop. simpl in Hloop. destruct Hloop as (_ & _ & Hc).
  rewrite Hc, Hc2, Hc1. reflexivity.
Qed.

(** [mkdir(exist_ok=True)] makes the directories that are not there, and
    only those. *)
Lemma generate_api_files_made fs clock plugins w u w' :
  GenerateRegistry.generate_api_files fs clock plugins w = (Ok u, w') ->
  (forall q, made w q = false) ->
  effects w'
  = (effects w ++ directories_made fs
       ++ [Write ["api"; "plugins.json"]
             (discovery plugins (utcnow_at (clock (clock_reads w))))]
       ++ map detail plugins)%list.
Proof.
  unfold GenerateRegistry.generate_api_files. intros H Hmade.
  change ([] // "api") with ["api"] in H.
  change (["api"] // "plugins") with ["api"; "plugins"] in H.
  apply bind_Ok in H. destruct H as (u1 & w1 & Hmk1 & H).
  apply bind_Ok in H. destruct H as (u2 & w2 & Hmk2 & H).
  apply bind_Ok in H. destruct H as (u3 & w3 & Hopen & H).
  apply bind_Ok in H. destruct H as (now & w4 & Hnow & H).
  apply bind_Ok in H. destruct H as (u5 & w5 & Hdump & H).
  apply bind_Ok in H. destruct H as (u6 & w6 & Hloop & H).
  apply ret_Ok in H. destruct H as [_ ->].
  assert (E1 : effects w1
               = (effects w ++ (if is_dir fs ["api"] then [] else [Mkdir ["api"]]))%list
               /\ clock_reads w1 = clock_reads w).
  { unfold mkdir_exist_ok, dir_now in Hmk1. rewrite !Hmade, !orb_false_r in Hmk1.
    destruct (is_dir fs ["api"]); [inversion Hmk1; rewrite app_nil_r; auto|].
    destruct (exists_ fs ["api"]); [discriminate|].
    destruct (is_dir fs (removelast ["api"])); [|discriminate].
    unfold record_effect in Hmk1. inversion Hmk1. simpl. auto. }
  destruct E1 as [E1 C1].
  assert (Hmade1 : made w1 ["api"; "plugins"] = false).
  { unfold made. rewrite E1, existsb_app. fold (made w ["api"; "plugins"]).
    rewrite Hmade. destruct (is_dir fs ["api"]); reflexivity. }
  assert (E2 : effects w2
               = (effects w1
                  ++ (if is_dir fs ["api"; "plugins"] then []
                      else [Mkdir ["api"; "plugins"]]))%list
               /\ clock_reads w2 = clock_reads w1).
  { unfold mkdir_exist_ok in Hmk2. unfold dir_now at 1 in Hmk2.
    rewrite Hmade1, orb_false_r in Hmk2.
    destruct (is_dir fs ["api"; "plugins"]); [inversion Hmk2; rewrite app_nil_r; auto|].
    destruct (exists_ fs ["api"; "plugins"]); [discriminate|].
    destruct (dir_now fs w1 (removelast ["api"; "plugins"])); [|discriminate].
    unfold record_effect in Hmk2. inversion Hmk2. simpl. auto. }
  destruct E2 as [E2 C2].
  apply open_w_Ok in Hopen. subst w3.
  unfold utcnow in Hnow. inversion Hnow; subst now w4. clear Hnow.
  unfold dump, record_effect in Hdump. inversion Hdump; subst w5. clear Hdump.
  apply write_details_Ok in Hloop. simpl in Hloop. destruct Hloop as (He & _ & _).
  rewrite He, E2, E1, C2, C1. unfold directories_made, discovery.
  rewrite <- !app_assoc. reflexivity.
Qed.

(** The writing part of a run that succeeds: the registry document with the
    first reading of the clock, the directories, the discovery document with
    the second reading, the detail files. *)
Lemma emit_Ok fs clock plugins line {B} (k : M B) w b w' :
  (registry <- GenerateRegistry.generate_registry clock plugins ;;
   open_w fs ["registry.yml"] ;;;
   dump ["registry.yml"] (RegistryYml registry) ;;;
   print line ;;;
   GenerateRegistry.generate_api_files fs clock plugins ;;;
   k) w = (Ok b, w') ->
  exists r mk w1 w3,
    GenerateRegistry.generate_registry clock plugins w = (Ok r, w1)
    /\ (forall q d, ~ In (Write q d) mk)
    /\ effects w3
       = (effects w ++ [Write ["registry.yml"] (RegistryYml r)] ++ mk
            ++ [Write ["api"; "plugins.json"]
                  (discovery plugins (utcnow_at (clock (S (clock_reads w)))))]
            ++ map detail plugins)%list
    /\ stdout w3 = (stdout w ++ [line])%list
    /\ clock_reads w3 = S (S (clock_reads w))
    /\ k w3 = (Ok b, w')
    /\ ((forall q, made w q = false) -> mk = directories_made fs).
Proof.
  intros H.
  apply bind_Ok in H. destruct H as (r & w1 & Hreg & H).
  pose proof Hreg as Hreg'. apply generate_registry_Ok in Hreg'.
  destruct Hreg' as (_ & Hs1 & He1 & Hc1).
  apply bind_Ok in H. destruct H as (u2 & w2 & Hopen & H). apply open_w_Ok in Hopen. subst w2.
  apply bind_Ok in H. destruct H as (u3 & w2 & Hdump & H).
  unfold dump, record_effect in Hdump. inversion Hdump; subst u3 w2. clear Hdump.
  apply bind_Ok in H. destruct H as (u4 & w2 & Hp & H). apply print_Ok in Hp. subst w2.
  apply bind_Ok in H. destruct H as (u5 & w3 & Hapi & H).
  pose proof Hapi as Hc3. apply generate_api_files_clock in Hc3.
  pose proof (generate_api_files_made _ _ _ _ Hapi) as Hdirs.
  apply generate_api_files_Ok in Hapi. destruct Hapi as (mk & Hmk & He3 & Hs3).
  simpl in He3, Hs3, Hc3, Hdirs.
  exists r, mk, w1, w3. split; [exact Hreg|]. split; [exact Hmk|].
  split; [|split; [|split; [|split]]].
  - rewrite He3, He1, Hc1. rewrite <- !app_assoc. reflexivity.
  - rewrite Hs3, Hs1. reflexivity.
  - rewrite Hc3, Hc1. reflexivity.
  - exact H.
  - intros Hmade. rewrite He3 in Hdirs.
    apply app_inv_head in Hdirs. apply app_inv_tail in Hdirs. apply Hdirs.
    intros q. unfold made. simpl effects. rewrite existsb_app, He1.
    fold (made w q). rewrite Hmade. reflexivity.
Qed.

(** The registry and the discovery document stay where they were written:
    no detail file and no directory takes their place. *)
Lemma registry_and_discovery_written before r mk now plugins :
  (forall q d, ~ In (Write q d) mk) ->
  let es := (before ++ [Write ["registry.yml"] (RegistryYml r)] ++ mk
               ++ [Write ["api"; "plugins.json"] (discovery plugins now)]
               ++ map detail plugins)%list in
  written_at es ["registry.yml"] = Some (RegistryYml r)
  /\ written_at es ["api"; "plugins.json"] = Some (discovery plugins now).
Proof.
  intros Hmk es. unfold es. split.
  - rewrite !written_at_app.
    rewrite written_at_details_other by (intros item _; apply detail_path_other).
    cbn [written_at path_eqb String.eqb Ascii.eqb Bool.eqb andb].
    rewrite (written_at_no_write mk _ Hmk). reflexivity.
  - rewrite !written_at_app.
    rewrite written_at_details_other by (intros item _; apply detail_path_other).
    reflexivity.
Qed.

(** A successful run of [generate-registry.py], with what it prints and how
    often it reads the clock. *)
Lemma full_main_Ok_documents fs jl clock w u w' :
  GenerateRegistry.main fs jl clock w = (Ok u, w') ->
  exists plugins r mk w0 w1,
    GenerateRegistry.scan_plugins fs jl (printed "Scanning plugins directory..." w)
      = (Ok plugins, printed "Scanning plugins directory..." w)
    /\ GenerateRegistry.generate_registry clock plugins w0 = (Ok r, w1)
    /\ clock_reads w0 = clock_reads w
    /\ (forall q d, ~ In (Write q d) mk)
    /\ effects w'
       = (effects w ++ [Write ["registry.yml"] (RegistryYml r)] ++ mk
            ++ [Write ["api"; "plugins.json"]
                  (discovery plugins (utcnow_at (clock (S (clock_reads w)))))]
            ++ map detail plugins)%list
    /\ stdout w'
       = (stdout w
          ++ ["Scanning plugins directory...";
              ("Found " ++ str_nat (List.length plugins) ++ " plugins")%string]
          ++ map versions_line plugins
          ++ ["Generating registry.yml..."; "Generating API files...";
              "Registry generation complete!"])%list
    /\ clock_reads w' = S (S (clock_reads w))
    /\ ((forall q, made w q = false) -> mk = directories_made fs).
Proof.
  unfold GenerateRegistry.main. intros H.
  apply bind_Ok in H. destruct H as (u0 & w0 & Hp0 & H). apply print_Ok in Hp0. subst w0.
  apply bind_Ok in H. destruct H as (plugins & w1 & Hscan & H).
  pose proof (full_scan_plugins_Ok _ _ _ Hscan) as (names & _ & Hw1 & _). subst w1.
  apply bind_Ok in H. destruct H as (u2 & w2 & Hp2 & H). apply print_Ok in Hp2. subst w2.
  apply bind_Ok in H. destruct H as (u3 & w3 & Hp3 & H).
  change (for_each plugins tt (fun (_ : unit) item => print (versions_line item))
            (printed ("Found " ++ str_nat (List.length plugins) ++ " plugins")
               (printed "Scanning plugins directory..." w)) = (Ok u3, w3)) in Hp3.
  rewrite print_loop in Hp3. inversion Hp3; subst u3 w3. clear Hp3.
  apply bind_Ok in H. destruct H as (u4 & w4 & Hp4 & H). apply print_Ok in Hp4. subst w4.
  apply emit_Ok in H.
  destruct H as (r & mk & w1 & w3 & Hreg & Hmk & He & Hs & Hc & H & Hdirs).
  apply print_Ok in H. subst w'.
  exists plugins, r, mk. eexists. exists w1.
  split; [exact Hscan|]. split; [exact Hreg|]. split; [reflexivity|].
  split; [exact Hmk|]. simpl. rewrite He, Hs, Hc. simpl.
  split; [reflexivity|]. split; [|split; [reflexivity|]].
  - rewrite <- !app_assoc. reflexivity.
  - intros Hmade. apply Hdirs. intros q. apply Hmade.
Qed.

Lemma list_entries_of_records : forall plugins,
  Forall2 entry_of_record plugins (map GenerateRegistry.list_entry plugins).
Proof.
  induction plugins as [|[id p] plugins IH]; simpl; constructor; [|exact IH].
  unfold entry_of_record. simpl. repeat split.
Qed.

Lemma list_entries_ids : forall plugins : dict Plugin.t,
  map Entry.id (map GenerateRegistry.list_entry plugins) = keys plugins.
Proof.
  induction plugins as [|[id p] plugins IH]; simpl; [reflexivity|].
  unfold keys in IH. rewrite IH. reflexivity.
Qed.

Lemma documents_agree_of_effects clock plugins r mk w0 w1 :
  GenerateRegistry.generate_registry clock plugins w0 = (Ok r, w1) ->
  clock_reads w0 = 0 ->
  (forall q d, ~ In (Write q d) mk) ->
  documents_agree clock
    ([Write ["registry.yml"] (RegistryYml r)] ++ mk
       ++ [Write ["api"; "plugins.json"] (discovery plugins (utcnow_at (clock 1)))]
       ++ map detail plugins)%list.
Proof.
  intros Hreg Hc Hmk.
  destruct (@registry_and_discovery_written [] r mk (utcnow_at (clock 1)) plugins Hmk)
    as [Hr Hd].
  unfold GenerateRegistry.generate_registry, bind, utcnow, ret in Hreg.
  inversion Hreg; subst r. clear Hreg. rewrite Hc in *.
  eexists. eexists. split; [exact Hr|]. split; [exact Hd|]. simpl.
  split; [apply list_entries_of_records|]. split; [apply list_entries_ids|].
  split; [apply length_map|]. split; reflexivity.
Qed.

(** X5: After a successful run the registry and the discovery list agree:
    the list has one entry for each plugin of the registry, in the order of
    the plugin map and of [most_popular]; each entry repeats the name,
    description, author, category, tags and minimal version of its record;
    the totals are equal; the generation times are the first and the second
    reading of the clock, and the clock is read twice.  A run of
    [simple-registry-generator.py] without plugins writes nothing and leaves
    the clock alone. *)
Theorem X5_registry_and_discovery_agree :
  (forall fs jl clock u w',
      GenerateRegistry.main fs jl clock start = (Ok u, w') ->
      documents_agree clock (effects w') /\ clock_reads w' = 2)
  /\ (forall fs jl clock u w',
        SimpleRegistryGenerator.main fs jl clock start = (Ok u, w') ->
        (effects w' = [] /\ clock_reads w' = 0)
        \/ (documents_agree clock (effects w') /\ clock_reads w' = 2)).
Proof.
  split.
  - intros fs jl clock u w' H. apply full_main_Ok_documents in H.
    destruct H as (plugins & r & mk & w0 & w1 & _ & Hreg & Hc0 & Hmk & He & _ & Hc & _).
    split; [|exact Hc]. rewrite He. simpl effects. rewrite app_nil_l.
    eapply documents_agree_of_effects; [exact Hreg | exact Hc0 | exact Hmk].
  - intros fs jl clock u w' H. unfold SimpleRegistryGenerator.main in H.
    apply bind_Ok in H. destruct H as (u0 & w0 & Hp0 & H). apply print_Ok in Hp0. subst w0.
    apply bind_Ok in H. destruct H as (plugins & w1 & Hscan & H).
    pose proof (simple_scan_plugins_quiet fs jl
                  (printed (SimpleRegistryGenerator.mark_scanning
                            ++ " Scanning for plugins...") start)) as Hq.
    rewrite Hscan in Hq. simpl in Hq. destruct Hq as (He1 & Hc1 & _).
    destruct plugins as [|item plugins].
    + left. apply print_Ok in H. subst w'. simpl. split; assumption.
    + right.
      apply bind_Ok in H. destruct H as (u2 & w2 & Hp2 & H). apply print_Ok in Hp2. subst w2.
      apply bind_Ok in H. destruct H as (u3 & w3 & Hp3 & H). apply print_Ok in Hp3. subst w3.
      change (SimpleRegistryGenerator.generate_registry clock (item :: plugins))
        with (GenerateRegistry.generate_registry clock (item :: plugins)) in H.
      change (SimpleRegistryGenerator.generate_api_files fs clock (item :: plugins))
        with (GenerateRegistry.generate_api_files fs clock (item :: plugins)) in H.
      apply emit_Ok in H.
      destruct H as (r & mk & w2 & w3 & Hreg & Hmk & He & _ & Hc & H & _).
      simpl in He, Hc. rewrite He1 in He. rewrite Hc1 in He, Hc. simpl in He.
      apply bind_Ok in H. destruct H as (u4 & w4 & Hp4 & H). apply print_Ok in Hp4. subst w4.
      apply bind_Ok in H. destruct H as (u5 & w5 & Hp5 & H). apply print_Ok in Hp5. subst w5.
      apply bind_Ok in H. destruct H as (u6 & w6 & Hp6 & H). apply print_Ok in Hp6. subst w6.
      apply print_Ok in H. subst w'. simpl. split; [|exact Hc]. rewrite He.
      eapply documents_agree_of_effects; [exact Hreg | simpl; exact Hc1 | exact Hmk].
Qed.

Lemma X5_registry_and_discovery_agree_witness :
  (exists w',
      GenerateRegistry.main tree_one_release sample_json_load sample_clock start = (Ok tt, w')
      /\ documents_agree sample_clock (effects w')
      /\ clock_reads w' = 2)
  /\ (exists w',
        SimpleRegistryGenerator.main tree_one_release sample_json_load sample_clock start
          = (Ok tt, w')
        /\ ((effects w' = [] /\ clock_reads w' = 0)
            \/ (documents_agree sample_clock (effects w') /\ clock_reads w' = 2))).
Proof.
  split.
  - assert (Hrun : exists w',
               GenerateRegistry.main tree_one_release sample_json_load sample_clock start
               = (Ok tt, w'))
      by (eexists; vm_compute; reflexivity).
    destruct Hrun as (w' & Hrun). exists w'. split; [exact Hrun|].
    exact (proj1 X5_registry_and_discovery_agree tree_one_release sample_json_load
             sample_clock tt w' Hrun).
  - assert (Hrun : exists w',
               SimpleRegistryGenerator.main tree_one_release sample_json_load sample_clock
                 start = (Ok tt, w'))
      by (eexists; vm_compute; reflexivity).
    destruct Hrun as (w' & Hrun). exists w'. split; [exact Hrun|].
    exact (proj2 X5_registry_and_discovery_agree tree_one_release sample_json_load
             sample_clock tt w' Hrun).
Defined.

(* ------------------------------------------------------------------------- *)
(** ** Runs without plugins, and runs that end at the directory [api] *)

Lemma bind_raise {A B} (m : M A) (k : A -> M B) w e w1 :
  m w = (Raise e, w1) -> bind m k w = (Raise e, w1).
Proof. unfold bind. intros ->. reflexivity. Qed.

Lemma made_nil w q : effects w = [] -> made w q = false.
Proof. unfold made. intros ->. reflexivity. Qed.

(** X3: When the scan finds no plugin, [simple-registry-generator.py]
    prints that no plugins were found and ends there: it writes nothing and
    does not read the clock.  [generate-registry.py] goes on: in a tree where
    nothing stands in the way of the outputs it writes a registry with an
    empty plugin map and statistics of zero, and a discovery list without
    entries, and no other file. *)
Theorem X3_runs_without_plugins :
  (forall fs jl clock w w1,
      SimpleRegistryGenerator.scan_plugins fs jl
        (printed (SimpleRegistryGenerator.mark_scanning ++ " Scanning for plugins...") w)
        = (Ok [], w1) ->
      SimpleRegistryGenerator.main fs jl clock w
        = (Ok tt, printed (SimpleRegistryGenerator.mark_none ++ " No plugins found") w1)
      /\ effects w1 = effects w
      /\ clock_reads w1 = clock_reads w)
  /\ (forall fs jl clock w1,
        GenerateRegistry.scan_plugins fs jl (printed "Scanning plugins directory..." start)
          = (Ok [], w1) ->
        unobstructed fs [] ->
        exists w' r d,
          GenerateRegistry.main fs jl clock start = (Ok tt, w')
          /\ written_at (effects w') ["registry.yml"] = Some (RegistryYml r)
          /\ Registry.plugins r = []
          /\ Registry.stats_ r = {| Registry.total_plugins := 0;
                                    Registry.total_versions := 0;
                                    Registry.most_popular := [] |}
          /\ written_at (effects w') ["api"; "plugins.json"] = Some (PluginsJson d)
          /\ Discovery.plugins d = []
          /\ Discovery.total d = 0
          /\ forall q x, In (Write q x) (effects w') ->
                         q = ["registry.yml"] \/ q = ["api"; "plugins.json"]).
Proof.
  split.
  - intros fs jl clock w w1 Hscan.
    pose proof (simple_scan_plugins_quiet fs jl
                  (printed (SimpleRegistryGenerator.mark_scanning
                            ++ " Scanning for plugins...") w)) as Hq.
    rewrite Hscan in Hq. simpl in Hq. destruct Hq as (He & Hc & _).
    split; [|split; assumption].
    unfold SimpleRegistryGenerator.main.
    erewrite bind_run by reflexivity.
    erewrite bind_run by exact Hscan.
    reflexivity.
  - intros fs jl clock w1 Hscan Hfree.
    destruct (@full_main_runs fs jl clock start [] w1 Hscan) as (w' & Hmain);
      [intros q; reflexivity | exact Hfree | intros id [] |].
    pose proof Hmain as Hdocs. apply full_main_Ok_documents in Hdocs.
    destruct Hdocs as (plugins & r & mk & w0 & w2 & Hscan' & Hreg & _ & Hmk & He & _).
    assert (Hw1 : w1 = printed "Scanning plugins directory..." start).
    { pose proof (full_scan_plugins_silent fs jl
                    (printed "Scanning plugins directory..." start)) as Hs.
      rewrite Hscan in Hs. exact Hs. }
    subst w1. rewrite Hscan in Hscan'. inversion Hscan'; subst plugins. clear Hscan'.
    destruct (@registry_and_discovery_written [] r mk
                (utcnow_at (clock (S (clock_reads start)))) [] Hmk) as [Hr Hd].
    simpl effects in He. rewrite app_nil_l in He.
    unfold GenerateRegistry.generate_registry, bind, utcnow, ret in Hreg.
    inversion Hreg; subst r. clear Hreg.
    exists w'. eexists. eexists. split; [exact Hmain|]. rewrite He.
    split; [exact Hr|]. split; [reflexivity|]. split; [reflexivity|].
    split; [exact Hd|]. split; [reflexivity|]. split; [reflexivity|].
    intros q x Hin. cbn [map app] in Hin. destruct Hin as [E|Hin].
    + inversion E. left. reflexivity.
    + apply in_app_or in Hin. destruct Hin as [Hin|[E|[]]].
      * exfalso. exact (Hmk q x Hin).
      * inversion E. right. reflexivity.
Qed.

Lemma X3_runs_without_plugins_witness :
  (exists w1,
      SimpleRegistryGenerator.scan_plugins tree_hidden sample_json_load
        (printed (SimpleRegistryGenerator.mark_scanning ++ " Scanning for plugins...") start)
      = (Ok [], w1)
      /\ SimpleRegistryGenerator.main tree_hidden sample_json_load sample_clock start
         = (Ok tt, printed (SimpleRegistryGenerator.mark_none ++ " No plugins found") w1)
      /\ effects w1 = effects start
      /\ clock_reads w1 = clock_reads start)
  /\ (exists w' r d,
        GenerateRegistry.main tree_no_plugin sample_json_load sample_clock start = (Ok tt, w')
        /\ written_at (effects w') ["registry.yml"] = Some (RegistryYml r)
        /\ Registry.plugins r = []
        /\ Registry.stats_ r = {| Registry.total_plugins := 0;
                                  Registry.total_versions := 0;
                                  Registry.most_popular := [] |}
        /\ written_at (effects w') ["api"; "plugins.json"] = Some (PluginsJson d)
        /\ Discovery.plugins d = []
        /\ Discovery.total d = 0
        /\ forall q x, In (Write q x) (effects w') ->
                       q = ["registry.yml"] \/ q = ["api"; "plugins.json"]).
Proof.
  split.
  - assert (Hscan : exists w1,
               SimpleRegistryGenerator.scan_plugins tree_hidden sample_json_load
                 (printed (SimpleRegistryGenerator.mark_scanning
                           ++ " Scanning for plugins...") start) = (Ok [], w1))
      by (eexists; vm_compute; reflexivity).
    destruct Hscan as (w1 & Hscan). exists w1. split; [exact Hscan|].
    exact (proj1 X3_runs_without_plugins tree_hidden sample_json_load sample_clock start
             w1 Hscan).
  - refine (proj2 X3_runs_without_plugins tree_no_plugin sample_json_load sample_clock
              (printed "Scanning plugins directory..." start) _ _).
    + vm_compute. reflexivity.
    + unfold unobstructed. repeat split; try reflexivity; try discriminate.
Defined.

(** The writing part of a run in a tree where [api] is a regular file: the
    registry document is written, and then making the directory fails. *)
Lemma emit_api_is_a_file fs clock plugins line {B} (k : M B) w content :
  effects w = [] ->
  is_dir fs [] = true ->
  is_dir fs ["registry.yml"] = false ->
  lookup fs ["api"] = Some (File content) ->
  exists r w',
    (registry <- GenerateRegistry.generate_registry clock plugins ;;
     open_w fs ["registry.yml"] ;;;
     dump ["registry.yml"] (RegistryYml registry) ;;;
     print line ;;;
     GenerateRegistry.generate_api_files fs clock plugins ;;;
     k) w = (Raise (FileExistsError ["api"]), w')
    /\ Registry.plugins r = plugins
    /\ effects w' = [Write ["registry.yml"] (RegistryYml r)].
Proof.
  intros He Hroot Hreg Hapi.
  destruct (GenerateRegistry.generate_registry clock plugins w) as [[r|e] w1] eqn:Hgen;
    [|unfold GenerateRegistry.generate_registry, bind, utcnow, ret in Hgen; discriminate].
  pose proof Hgen as Hgen'. apply generate_registry_Ok in Hgen'.
  destruct Hgen' as (Hr & _ & He1 & _). rewrite He in He1.
  assert (Hopen : open_w fs ["registry.yml"] w1 = (Ok tt, w1)).
  { apply open_w_runs.
    - unfold dir_now. rewrite Hreg, (made_nil w1 _ He1). reflexivity.
    - unfold dir_now. simpl removelast. rewrite Hroot. reflexivity. }
  exists r. eexists.
  erewrite bind_run by exact Hgen.
  erewrite bind_run by exact Hopen.
  erewrite bind_run by reflexivity.
  erewrite bind_run by reflexivity.
  split; [|split; [exact Hr|]].
  - apply bind_raise. unfold GenerateRegistry.generate_api_files.
    change ([] // "api") with ["api"].
    apply bind_raise. unfold mkdir_exist_ok.
    match goal with
    | |- (if dir_now fs ?W _ then _ else _) = _ =>
        assert (Hd : dir_now fs W ["api"] = false)
    end.
    { unfold dir_now, is_dir, made. rewrite Hapi. simpl effects. rewrite He1.
      reflexivity. }
    rewrite Hd. unfold exists_. rewrite Hapi. reflexivity.
  - simpl. rewrite He1. reflexivity.
Qed.

(** X4: The outputs are not written together.  Where [api] is a regular
    file, a run that has scanned its plugins ([simple-registry-generator.py]:
    at least one) ends with [FileExistsError] when it makes the directory,
    after [registry.yml] has been written with the scanned plugin map; it is
    the only file written. *)
Theorem X4_outputs_are_not_written_together :
  (forall fs jl clock plugins w1 content,
      GenerateRegistry.scan_plugins fs jl (printed "Scanning plugins directory..." start)
        = (Ok plugins, w1) ->
      is_dir fs ["registry.yml"] = false ->
      lookup fs ["api"] = Some (File content) ->
      exists r w',
        GenerateRegistry.main fs jl clock start = (Raise (FileExistsError ["api"]), w')
        /\ Registry.plugins r = plugins
        /\ effects w' = [Write ["registry.yml"] (RegistryYml r)])
  /\ (forall fs jl clock plugins w1 content,
        SimpleRegistryGenerator.scan_plugins fs jl
          (printed (SimpleRegistryGenerator.mark_scanning ++ " Scanning for plugins...") start)
          = (Ok plugins, w1) ->
        plugins <> [] ->
        is_dir fs ["registry.yml"] = false ->
        lookup fs ["api"] = Some (File content) ->
        exists r w',
          SimpleRegistryGenerator.main fs jl clock start
            = (Raise (FileExistsError ["api"]), w')
          /\ Registry.plugins r = plugins
          /\ effects w' = [Write ["registry.yml"] (RegistryYml r)]).
Proof.
  split.
  - intros fs jl clock plugins w1 content Hscan Hreg Hapi.
    pose proof Hscan as Hscan'. apply full_scan_plugins_Ok in Hscan'.
    destruct Hscan' as (names & Hnames & -> & _). apply listdir_is_dir in Hnames.
    unfold GenerateRegistry.main.
    erewrite bind_run by reflexivity.
    erewrite bind_run by exact Hscan.
    erewrite bind_run by reflexivity.
    erewrite bind_run by apply print_loop.
    erewrite bind_run by reflexivity.
    apply emit_api_is_a_file with (content := content); auto.
  - intros fs jl clock plugins w1 content Hscan Hne Hreg Hapi.
    pose proof (simple_scan_plugins_quiet fs jl
                  (printed (SimpleRegistryGenerator.mark_scanning
                            ++ " Scanning for plugins...") start)) as Hq.
    rewrite Hscan in Hq. simpl in Hq. destruct Hq as (He & _).
    pose proof Hscan as Hscan'. apply simple_scan_plugins_Ok in Hscan'.
    destruct Hscan' as (items & Hitems & _). apply listdir_is_dir in Hitems.
    unfold SimpleRegistryGenerator.main.
    erewrite bind_run by reflexivity.
    erewrite bind_run by exact Hscan.
    destruct plugins as [|item plugins]; [exfalso; apply Hne; reflexivity|].
    erewrite bind_run by reflexivity.
    erewrite bind_run by reflexivity.
    change (SimpleRegistryGenerator.generate_registry clock (item :: plugins))
      with (GenerateRegistry.generate_registry clock (item :: plugins)).
    change (SimpleRegistryGenerator.generate_api_files fs clock (item :: plugins))
      with (GenerateRegistry.generate_api_files fs clock (item :: plugins)).
    apply emit_api_is_a_file with (content := content); auto.
Qed.

Lemma X4_outputs_are_not_written_together_witness :
  (exists plugins w1 r w',
      GenerateRegistry.scan_plugins tree_api_file sample_json_load
        (printed "Scanning plugins directory..." start) = (Ok plugins, w1)
      /\ GenerateRegistry.main tree_api_file sample_json_load sample_clock start
         = (Raise (FileExistsError ["api"]), w')
      /\ Registry.plugins r = plugins
      /\ effects w' = [Write ["registry.yml"] (RegistryYml r)])
  /\ (exists plugins w1 r w',
        SimpleRegistryGenerator.scan_plugins tree_api_file sample_json_load
          (printed (SimpleRegistryGenerator.mark_scanning ++ " Scanning for plugins...") start)
        = (Ok plugins, w1)
        /\ SimpleRegistryGenerator.main tree_api_file sample_json_load sample_clock start
           = (Raise (FileExistsError ["api"]), w')
        /\ Registry.plugins r = plugins
        /\ effects w' = [Write ["registry.yml"] (RegistryYml r)]).
Proof.
  split.
  - assert (Hscan : exists plugins w1,
               GenerateRegistry.scan_plugins tree_api_file sample_json_load
                 (printed "Scanning plugins directory..." start) = (Ok plugins, w1))
      by (eexists; eexists; vm_compute; reflexivity).
    destruct Hscan as (plugins & w1 & Hscan).
    destruct (proj1 X4_outputs_are_not_written_together tree_api_file sample_json_load
                sample_clock plugins w1 (bytes_of "x") Hscan eq_refl eq_refl)
      as (r & w' & Hmain & Hr & He).
    exists plugins, w1, r, w'. auto.
  - assert (Hscan : exists item rest w1,
               SimpleRegistryGenerator.scan_plugins tree_api_file sample_json_load
                 (printed (SimpleRegistryGenerator.mark_scanning
                           ++ " Scanning for plugins...") start) = (Ok (item :: rest), w1))
      by (eexists; eexists; eexists; vm_compute; reflexivity).
    destruct Hscan as (item & rest & w1 & Hscan).
    destruct (proj2 X4_outputs_are_not_written_together tree_api_file sample_json_load
                sample_clock (item :: rest) w1 (bytes_of "x") Hscan)
      as (r & w' & Hmain & Hr & He); [discriminate | reflexivity | reflexivity |].
    exists (item :: rest), w1, r, w'. auto.
Defined.

(** X15: The lines of a successful run of [generate-registry.py]: the
    scan prints nothing; the run prints that it scans, the number of plugins
    found, one line for each plugin of the map with the number of its
    versions, and the three lines of the generation. *)
Theorem X15_lines_of_a_full_run :
  forall fs jl clock u w',
    GenerateRegistry.main fs jl clock start = (Ok u, w') ->
    exists plugins,
      GenerateRegistry.scan_plugins fs jl (printed "Scanning plugins directory..." start)
        = (Ok plugins, printed "Scanning plugins directory..." start)
      /\ stdout w'
         = (["Scanning plugins directory...";
             ("Found " ++ str_nat (List.length plugins) ++ " plugins")%string]
            ++ map versions_line plugins
            ++ ["Generating registry.yml..."; "Generating API files...";
                "Registry generation complete!"])%list.
Proof.
  intros fs jl clock u w' H. apply full_main_Ok_documents in H.
  destruct H as (plugins & r & mk & w0 & w1 & Hscan & _ & _ & _ & _ & Hs & _ & _).
  exists plugins. split; [exact Hscan | exact Hs].
Qed.

Lemma X15_lines_of_a_full_run_witness :
  exists w',
    GenerateRegistry.main tree_one_release sample_json_load sample_clock start = (Ok tt, w')
    /\ exists plugins,
         GenerateRegistry.scan_plugins tree_one_release sample_json_load
           (printed "Scanning plugins directory..." start)
         = (Ok plugins, printed "Scanning plugins directory..." start)
         /\ stdout w'
            = (["Scanning plugins directory...";
                ("Found " ++ str_nat (List.length plugins) ++ " plugins")%string]
               ++ map versions_line plugins
               ++ ["Generating registry.yml..."; "Generating API files...";
                   "Registry generation complete!"])%list.
Proof.
  assert (Hrun : exists w',
             GenerateRegistry.main tree_one_release sample_json_load sample_clock start
             = (Ok tt, w'))
    by (eexists; vm_compute; reflexivity).
  destruct Hrun as (w' & Hrun). exists w'. split; [exact Hrun|].
  exact (X15_lines_of_a_full_run tree_one_release sample_json_load sample_clock Hrun).
Defined.

(* ------------------------------------------------------------------------- *)
(** ** Platforms and patterns *)

Lemma split_slash_not_nil s : split_slash s <> [].
Proof.
  destruct s as [|c s]; simpl; [discriminate|].
  destruct (Ascii.eqb c "/"); [discriminate|].
  destruct (split_slash s); discriminate.
Qed.

Lemma split_slash_length s : List.length (split_slash s) = S (occurrences "/" s).
Proof.
  induction s as [|c s IH]; simpl; [reflexivity|].
  destruct (Ascii.eqb c "/"); simpl.
  - rewrite IH. reflexivity.
  - destruct (split_slash s) as [|h t] eqn:E; [exfalso; exact (split_slash_not_nil _ E)|].
    simpl in *. exact IH.
Qed.

Lemma split_slash_concat s : String.concat "/" (split_slash s) = s.
Proof.
  induction s as [|c s IH]; simpl; [reflexivity|].
  destruct (Ascii.eqb c "/") eqn:Hc.
  - apply Ascii.eqb_eq in Hc. subst c.
    destruct (split_slash s) as [|h t] eqn:E; [exfalso; exact (split_slash_not_nil _ E)|].
    change (String.concat "/" ("" :: h :: t))
      with ("" ++ "/" ++ String.concat "/" (h :: t)).
    rewrite IH. reflexivity.
  - destruct (split_slash s) as [|h t] eqn:E; [exfalso; exact (split_slash_not_nil _ E)|].
    destruct t as [|h' t].
    + simpl in *. rewrite IH. reflexivity.
    + change (String.concat "/" (String c h :: h' :: t))
        with (String c (h ++ "/" ++ String.concat "/" (h' :: t))).
      change (String.concat "/" (h :: h' :: t))
        with (h ++ "/" ++ String.concat "/" (h' :: t)) in IH.
      rewrite IH. reflexivity.
Qed.

Lemma split_slash_pieces s : Forall (fun piece => occurrences "/" piece = 0) (split_slash s).
Proof.
  induction s as [|c s IH]; simpl.
  - constructor; [reflexivity | constructor].
  - destruct (Ascii.eqb c "/") eqn:Hc.
    + constructor; [reflexivity | exact IH].
    + destruct (split_slash s) as [|h t]; [repeat constructor; simpl; rewrite Hc; reflexivity|].
      inversion IH; subst. constructor; [|assumption].
      simpl. rewrite Hc. assumption.
Qed.

(** A format that succeeds names keywords only. *)
Lemma str_format_fields : forall pattern kwargs s,
  str_format pattern kwargs = Ok s ->
  forall name, In name (fields_of pattern) -> In name (keys kwargs).
Proof.
  induction pattern as [|[t|n] pattern IH]; intros kwargs s H name Hin; simpl in *.
  - destruct Hin.
  - destruct (str_format pattern kwargs) as [r|e] eqn:E; [|discriminate].
    exact (IH kwargs r E name Hin).
  - destruct (all_digits n); [discriminate|].
    destruct (dict_get n kwargs) as [v|] eqn:Hget; [|discriminate].
    destruct (str_format pattern kwargs) as [r|e] eqn:E; [|discriminate].
    destruct Hin as [<-|Hin]; [|exact (IH kwargs r E name Hin)].
    clear -Hget. induction kwargs as [|[k' v'] kwargs IHk]; simpl in *; [discriminate|].
    destruct (String.eqb n k') eqn:Hk.
    + left. apply String.eqb_eq in Hk. symmetry. exact Hk.
    + right. exact (IHk Hget).
Qed.

(** What [binary_name_for] needs of a platform and of the manifest. *)
Lemma full_binary_name_for_Ok pd platform os_name arch binary_name :
  GenerateRegistry.binary_name_for pd platform = Ok (os_name, arch, binary_name) ->
  platform = os_name ++ "/" ++ arch
  /\ occurrences "/" os_name = 0
  /\ occurrences "/" arch = 0
  /\ exists pattern,
       binary_pattern_of pd = Some pattern
       /\ forall name, In name (fields_of pattern) -> In name ["plugin_name"; "os"; "arch"].
Proof.
  unfold GenerateRegistry.binary_name_for, binary_pattern_of. intros H.
  pose proof (split_slash_concat platform) as Hcat.
  pose proof (split_slash_pieces platform) as Hpieces.
  destruct (split_slash platform) as [|o [|a [|x rest]]]; try discriminate.
  destruct (Manifest.build pd) as [build|]; [|discriminate]. simpl in H.
  destruct (Manifest.assets build) as [assets|]; [|discriminate]. simpl in H.
  destruct (Manifest.binary assets) as [pattern|]; [|discriminate]. simpl in H.
  destruct (Manifest.info pd) as [info|]; [|discriminate]. simpl in H.
  destruct (Manifest.id info) as [plugin_name|]; [|discriminate]. simpl in H.
  destruct (str_format pattern [("plugin_name", plugin_name); ("os", o); ("arch", a)])
    as [name|e] eqn:Hf; [|discriminate].
  inversion H; subst o a. clear H.
  pose proof (Forall_inv Hpieces) as Ho.
  pose proof (Forall_inv (Forall_inv_tail Hpieces)) as Ha. simpl in Ho, Ha.
  split; [symmetry; exact Hcat|]. split; [exact Ho|]. split; [exact Ha|].
  exists pattern. split; [reflexivity|].
  intros n Hn. exact (str_format_fields _ _ Hf n Hn).
Qed.

(** X12: [binary_name_for] raises [ValueError] for a platform that does
    not hold exactly one slash, whatever the manifest; when it returns, the
    platform is the operating system, a slash and the architecture, and the
    manifest has a binary pattern.  When the replacement fields of that
    pattern are names and no more, each of them is [plugin_name], [os] or
    [arch].  And [process_release] returns only if every platform of the
    manifest holds exactly one slash. *)
Theorem X12_platforms_and_patterns :
  (forall pd platform,
      occurrences "/" platform <> 1 ->
      GenerateRegistry.binary_name_for pd platform = Raise ValueError)
  /\ (forall pd platform os_name arch binary_name,
        GenerateRegistry.binary_name_for pd platform = Ok (os_name, arch, binary_name) ->
        platform = os_name ++ "/" ++ arch
        /\ occurrences "/" os_name = 0
        /\ occurrences "/" arch = 0
        /\ exists pattern, binary_pattern_of pd = Some pattern)
  /\ (forall pd platform os_name arch binary_name pattern,
        GenerateRegistry.binary_name_for pd platform = Ok (os_name, arch, binary_name) ->
        binary_pattern_of pd = Some pattern ->
        forallb bare_field (fields_of pattern) = true ->
        forall name, In name (fields_of pattern) -> In name ["plugin_name"; "os"; "arch"])
  /\ (forall fs vd pd w r w' build platforms platform,
        GenerateRegistry.process_release fs vd pd w = (Ok r, w') ->
        Manifest.build pd = Some build ->
        Manifest.platforms build = Some platforms ->
        In platform platforms ->
        occurrences "/" platform = 1).
Proof.
  split; [|split; [|split]].
  - intros pd platform Hocc. unfold GenerateRegistry.binary_name_for.
    pose proof (split_slash_length platform) as Hlen.
    destruct (split_slash platform) as [|o [|a [|x rest]]]; try reflexivity.
    simpl in Hlen. exfalso. apply Hocc. congruence.
  - intros pd platform os_name arch binary_name H.
    apply full_binary_name_for_Ok in H. destruct H as (Hp & Ho & Ha & pattern & Hpat & _).
    split; [exact Hp|]. split; [exact Ho|]. split; [exact Ha|]. exists pattern. exact Hpat.
  - intros pd platform os_name arch binary_name pattern H Hpat _.
    apply full_binary_name_for_Ok in H. destruct H as (_ & _ & _ & pattern' & Hpat' & Hfields).
    rewrite Hpat in Hpat'. inversion Hpat'; subst pattern'. exact Hfields.
  - intros fs vd pd w r w' build platforms platform H Hbuild Hplat Hin.
    unfold GenerateRegistry.process_release in H.
    bind_lift H build' Hb. apply getitem_Ok in Hb. rewrite Hbuild in Hb.
    inversion Hb; subst build'.
    bind_lift H platforms' Hp. apply getitem_Ok in Hp. rewrite Hplat in Hp.
    inversion Hp; subst platforms'.
    apply bind_Ok in H. destruct H as (assets & w1 & Hloop & _).
    apply full_assets_loop_exact in Hloop. destruct Hloop as (_ & _ & Hall & _).
    destruct (Hall platform Hin) as (o & a & n & Hname & _).
    apply full_binary_name_for_Ok in Hname. destruct Hname as (-> & Ho & Ha & _).
    clear -Ho Ha. induction o as [|c o IH]; simpl in *.
    + rewrite Ha. reflexivity.
    + destruct (Ascii.eqb c "/"); [discriminate|]. simpl in *. exact (IH Ho).
Qed.

Lemma X12_platforms_and_patterns_witness :
  GenerateRegistry.binary_name_for sample_manifest "linux" = Raise ValueError
  /\ ("linux/amd64" = "linux" ++ "/" ++ "amd64"
      /\ occurrences "/" "linux" = 0
      /\ occurrences "/" "amd64" = 0
      /\ exists pattern, binary_pattern_of sample_manifest = Some pattern)
  /\ (forall name, In name (fields_of usual_pattern) -> In name ["plugin_name"; "os"; "arch"])
  /\ (exists r w',
        GenerateRegistry.process_release tree_no_binary
          ["sample-plugin"; "releases"; "1.0.0"] sample_manifest start = (Ok r, w')
        /\ occurrences "/" "linux/amd64" = 1).
Proof.
  pose proof X12_platforms_and_patterns as (Hbad & Hgood & Hfields & Hrelease).
  split; [|split; [|split]].
  - refine (Hbad sample_manifest "linux" _). vm_compute. discriminate.
  - refine (Hgood sample_manifest "linux/amd64" "linux" "amd64"
              "sample-plugin-linux-amd64" _).
    reflexivity.
  - refine (Hfields sample_manifest "linux/amd64" "linux" "amd64"
              "sample-plugin-linux-amd64" usual_pattern _ _ _); reflexivity.
  - assert (Hrun : exists r w',
               GenerateRegistry.process_release tree_no_binary
                 ["sample-plugin"; "releases"; "1.0.0"] sample_manifest start = (Ok r, w'))
      by (eexists; eexists; vm_compute; reflexivity).
    destruct Hrun as (r & w' & Hrun). exists r, w'. split; [exact Hrun|].
    exact (Hrelease tree_no_binary ["sample-plugin"; "releases"; "1.0.0"] sample_manifest
             start r w'
             {| Manifest.platforms := Some ["linux/amd64"];
                Manifest.assets := Some {| Manifest.binary := Some usual_pattern |} |}
             ["linux/amd64"] "linux/amd64" Hrun eq_refl eq_refl (or_introl eq_refl)).
Defined.

(* ------------------------------------------------------------------------- *)
(** ** A directory where a binary is expected *)












(* ------------------------------------------------------------------------- *)
(** ** Plugins without release directories *)

Lemma release_names_no_directory fs plugin_dir :
  exists_ fs (plugin_dir // "releases") = false -> release_names fs plugin_dir = [].
Proof.
  unfold release_names, exists_, listdir.
  destruct (lookup fs (plugin_dir // "releases")) as [[c|m es]|]; intros H;
    try discriminate; reflexivity.
Qed.

Lemma listdir_release_names fs plugin_dir names :
  listdir fs (plugin_dir // "releases") = Ok names -> release_names fs plugin_dir = names.
Proof. unfold release_names. intros ->. reflexivity. Qed.

(** X16: A [releases] that is there and is no directory ends the scan of
    the releases with [NotADirectoryError].  A plugin without [releases], or
    without a directory in it, has no versions, whatever its manifest holds,
    and nothing is printed about it; [simple-registry-generator.py] passes
    over such a plugin after its [Processing plugin] line and leaves the
    plugin map as it is. *)
Theorem X16_no_release_directory :
  (forall fs plugin_dir pd w,
      exists_ fs (plugin_dir // "releases") = true ->
      is_dir fs (plugin_dir // "releases") = false ->
      GenerateRegistry.scan_releases fs plugin_dir pd w
      = (Raise (NotADirectoryError (plugin_dir // "releases")), w)
      /\ SimpleRegistryGenerator.scan_versions fs plugin_dir pd w
         = (Raise (NotADirectoryError (plugin_dir // "releases")), w))
  /\ (forall fs plugin_dir pd w,
        (exists_ fs (plugin_dir // "releases") = true ->
         is_dir fs (plugin_dir // "releases") = true) ->
        (forall name, In name (release_names fs plugin_dir) ->
           is_dir fs ((plugin_dir // "releases") ++ [name])%list = false) ->
        GenerateRegistry.scan_releases fs plugin_dir pd w = (Ok [], w)
        /\ SimpleRegistryGenerator.scan_versions fs plugin_dir pd w = (Ok [], w))
  /\ (forall fs jl plugins item w content pd,
        simple_selected fs item = true ->
        read_bytes fs ([] // item // "plugin.json") = Ok content ->
        jl content = Ok pd ->
        (exists_ fs ([] // item // "releases") = true ->
         is_dir fs ([] // item // "releases") = true) ->
        (forall name, In name (release_names fs ([] // item)) ->
           is_dir fs (([] // item // "releases") ++ [name])%list = false) ->
        SimpleRegistryGenerator.scan_item fs jl plugins item w
        = (Ok plugins, printed (processing_line item) w)).
Proof.
  assert (Hnone : forall fs plugin_dir pd w,
            (exists_ fs (plugin_dir // "releases") = true ->
             is_dir fs (plugin_dir // "releases") = true) ->
            (forall name, In name (release_names fs plugin_dir) ->
               is_dir fs ((plugin_dir // "releases") ++ [name])%list = false) ->
            GenerateRegistry.scan_releases fs plugin_dir pd w = (Ok [], w)
            /\ SimpleRegistryGenerator.scan_versions fs plugin_dir pd w = (Ok [], w)).
  { intros fs plugin_dir pd w Hdir Hfiles.
    unfold GenerateRegistry.scan_releases, SimpleRegistryGenerator.scan_versions.
    destruct (exists_ fs (plugin_dir // "releases")) eqn:Hex; [|split; reflexivity].
    specialize (Hdir eq_refl).
    assert (Hl : exists names, listdir fs (plugin_dir // "releases") = Ok names).
    { unfold is_dir in Hdir. unfold listdir.
      destruct (lookup fs (plugin_dir // "releases")) as [[c|m es]|]; try discriminate.
      eexists. reflexivity. }
    destruct Hl as (names & Hl). rewrite (listdir_release_names _ _ Hl) in Hfiles.
    rewrite Hl. split.
    - erewrite bind_run by reflexivity. apply for_each_skip.
      intros name a w1 Hin. unfold GenerateRegistry.collect_release.
      rewrite (Hfiles name Hin). reflexivity.
    - erewrite bind_run by reflexivity. apply for_each_skip.
      intros name a w1 Hin. unfold SimpleRegistryGenerator.collect_version.
      rewrite (Hfiles name Hin). reflexivity. }
  split; [|split].
  - intros fs plugin_dir pd w Hex Hdir.
    unfold GenerateRegistry.scan_releases, SimpleRegistryGenerator.scan_versions.
    rewrite Hex.
    assert (Hl : listdir fs (plugin_dir // "releases")
                 = Raise (NotADirectoryError (plugin_dir // "releases"))).
    { unfold exists_ in Hex. unfold is_dir in Hdir. unfold listdir.
      destruct (lookup fs (plugin_dir // "releases")) as [[c|m es]|]; try discriminate.
      reflexivity. }
    rewrite Hl. split; reflexivity.
  - exact Hnone.
  - intros fs jl plugins item w content pd Hsel Hread Hload Hdir Hfiles.
    unfold simple_selected in Hsel. apply andb_true_iff in Hsel. destruct Hsel as [Hc Hex].
    unfold SimpleRegistryGenerator.scan_item. rewrite Hc, Hex.
    erewrite bind_run by reflexivity. rewrite Hread.
    erewrite bind_run by reflexivity. rewrite Hload.
    erewrite bind_run by reflexivity.
    destruct (Hnone fs ([] // item) pd (printed ("Processing plugin: " ++ item) w) Hdir Hfiles)
      as [_ Hs].
    erewrite bind_run by exact Hs. reflexivity.
Qed.

Lemma X16_no_release_directory_witness :
  (GenerateRegistry.scan_releases tree_releases_file ["sample-plugin"] sample_manifest start
   = (Raise (NotADirectoryError (["sample-plugin"] // "releases")), start)
   /\ SimpleRegistryGenerator.scan_versions tree_releases_file ["sample-plugin"]
        sample_manifest start
      = (Raise (NotADirectoryError (["sample-plugin"] // "releases")), start))
  /\ (GenerateRegistry.scan_releases tree_no_release ["sample-plugin"] sample_manifest start
      = (Ok [], start)
      /\ SimpleRegistryGenerator.scan_versions tree_no_release ["sample-plugin"]
           sample_manifest start = (Ok [], start))
  /\ SimpleRegistryGenerator.scan_item tree_no_release sample_json_load [] "sample-plugin"
       start
     = (Ok [], printed (processing_line "sample-plugin") start).
Proof.
  pose proof X16_no_release_directory as (Hfile & Hnone & Hitem).
  split; [|split].
  - refine (Hfile tree_releases_file ["sample-plugin"] sample_manifest start _ _);
      reflexivity.
  - refine (Hnone tree_no_release ["sample-plugin"] sample_manifest start _ _).
    + discriminate.
    + intros name [].
  - refine (Hitem tree_no_release sample_json_load [] "sample-plugin" start
              (bytes_of sample_text) sample_manifest _ _ _ _ _).
    + reflexivity.
    + reflexivity.
    + vm_compute. reflexivity.
    + discriminate.
    + intros name [].
Defined.

(* ------------------------------------------------------------------------- *)
(** ** The two scripts on the usual manifest *)

Lemma for_each_pointwise {A B S} (body1 : S -> A -> M S) (body2 : S -> B -> M S) :
  forall xs ys,
    Forall2 (fun x y => forall acc w, body1 acc x w = body2 acc y w) xs ys ->
    forall acc w, for_each xs acc body1 w = for_each ys acc body2 w.
Proof.
  induction 1 as [|x y xs ys Hxy _ IH]; intros acc w; simpl; [reflexivity|].
  unfold bind. rewrite Hxy. destruct (body2 acc y w) as [[a|e] w1]; [apply IH | reflexivity].
Qed.

Lemma usual_binary_name pd plugin_id os_name arch :
  manifest_id pd = Some plugin_id ->
  binary_pattern_of pd = Some usual_pattern ->
  In (os_name, arch) usual_platforms ->
  GenerateRegistry.binary_name_for pd (os_name ++ "/" ++ arch)
  = Ok (os_name, arch,
        SimpleRegistryGenerator.binary_name_for plugin_id (os_name ++ "-" ++ arch)).
Proof.
  unfold manifest_id, binary_pattern_of. intros Hid Hpat Hin.
  destruct (Manifest.info pd) as [info|] eqn:Hinfo; [|discriminate].
  destruct (Manifest.build pd) as [build|] eqn:Hbuild; [|discriminate].
  destruct (Manifest.assets build) as [assets|] eqn:Hassets; [|discriminate].
  unfold GenerateRegistry.binary_name_for.
  rewrite Hbuild, Hinfo. cbn [getitem]. rewrite Hassets, Hid. cbn [getitem]. rewrite Hpat.
  cbn [getitem].
  unfold usual_platforms in Hin. simpl in Hin.
  destruct Hin as [E|[E|[E|[E|[E|[]]]]]]; inversion E; subst os_name arch; reflexivity.
Qed.

Lemma usual_platform_asset fs vd pd plugin_id os_name arch assets w :
  manifest_id pd = Some plugin_id ->
  binary_pattern_of pd = Some usual_pattern ->
  In (os_name, arch) usual_platforms ->
  GenerateRegistry.platform_asset fs vd pd assets (os_name ++ "/" ++ arch) w
  = SimpleRegistryGenerator.platform_asset fs vd plugin_id assets (os_name ++ "-" ++ arch) w.
Proof.
  intros Hid Hpat Hin.
  unfold GenerateRegistry.platform_asset, SimpleRegistryGenerator.platform_asset.
  erewrite bind_run
    by (unfold lift; rewrite (@usual_binary_name pd plugin_id os_name arch Hid Hpat Hin); reflexivity).
  cbv beta iota zeta.
  destruct (exists_ fs (vd // SimpleRegistryGenerator.binary_name_for plugin_id
                                 (os_name ++ "-" ++ arch))); [|reflexivity].
  unfold manifest_id in Hid.
  destruct (Manifest.info pd) as [info|] eqn:Hinfo; [|discriminate].
  cbn [getitem]. erewrite bind_run by reflexivity. rewrite Hid. reflexivity.
Qed.

(** X14: For a manifest with the binary pattern
    [{plugin_name}-{os}-{arch}], the two scripts agree on the five platforms
    of [simple-registry-generator.py]: the same keys, the same expected binary
    names, and, in every tree and for every version directory, the same
    assets from the loops over the platforms. *)
Theorem X14_both_scripts_on_the_usual_manifest :
  forall pd plugin_id,
    manifest_id pd = Some plugin_id ->
    binary_pattern_of pd = Some usual_pattern ->
    map (fun p => fst p ++ "-" ++ snd p) usual_platforms = SimpleRegistryGenerator.platforms
    /\ (forall os_name arch,
          In (os_name, arch) usual_platforms ->
          GenerateRegistry.binary_name_for pd (os_name ++ "/" ++ arch)
          = Ok (os_name, arch,
                SimpleRegistryGenerator.binary_name_for plugin_id (os_name ++ "-" ++ arch)))
    /\ (forall fs vd w,
          for_each (map (fun p => fst p ++ "/" ++ snd p) usual_platforms) []
            (GenerateRegistry.platform_asset fs vd pd) w
          = for_each SimpleRegistryGenerator.platforms []
              (SimpleRegistryGenerator.platform_asset fs vd plugin_id) w).
Proof.
  intros pd plugin_id Hid Hpat. split; [reflexivity|]. split.
  - intros os_name arch Hin. exact (@usual_binary_name pd plugin_id os_name arch Hid Hpat Hin).
  - intros fs vd w. apply for_each_pointwise.
    change SimpleRegistryGenerator.platforms
      with (map (fun p => fst p ++ "-" ++ snd p) usual_platforms).
    assert (Hall : Forall (fun p => In p usual_platforms) usual_platforms)
      by (apply Forall_forall; auto).
    induction Hall as [|[o a] l Hin _ IH]; simpl; constructor; [|exact IH].
    intros acc w1. exact (@usual_platform_asset fs vd pd plugin_id o a acc w1 Hid Hpat Hin).
Qed.

Lemma X14_both_scripts_on_the_usual_manifest_witness :
  map (fun p => fst p ++ "-" ++ snd p) usual_platforms = SimpleRegistryGenerator.platforms
  /\ (forall os_name arch,
        In (os_name, arch) usual_platforms ->
        GenerateRegistry.binary_name_for sample_manifest (os_name ++ "/" ++ arch)
        = Ok (os_name, arch,
              SimpleRegistryGenerator.binary_name_for "sample-plugin"
                (os_name ++ "-" ++ arch)))
  /\ (forall fs vd w,
        for_each (map (fun p => fst p ++ "/" ++ snd p) usual_platforms) []
          (GenerateRegistry.platform_asset fs vd sample_manifest) w
        = for_each SimpleRegistryGenerator.platforms []
            (SimpleRegistryGenerator.platform_asset fs vd "sample-plugin") w).
Proof.
  refine (X14_both_scripts_on_the_usual_manifest sample_manifest _ _); reflexivity.
Defined.

(* ------------------------------------------------------------------------- *)
(** ** From the release directories to the plugin map *)

Lemma sorted_versions_listed kept fs plugin_dir (p : Plugin.t) versions :
  Plugin.versions p = sort_reverse Version.version versions ->
  map Version.version versions = filter kept (release_names fs plugin_dir) ->
  versions_listed kept fs plugin_dir p.
Proof.
  intros Hp Hnames. unfold versions_listed. rewrite Hp. split.
  - rewrite <- Hnames. apply Permutation_map. apply Permutation_sym.
    apply sort_reverse_perm.
  - apply sort_reverse_strongly_sorted.
Qed.

Lemma full_process_plugin_versions fs plugin_dir pd w p w' :
  GenerateRegistry.process_plugin fs plugin_dir pd w = (Ok p, w') ->
  versions_listed (full_release_kept fs pd (plugin_dir // "releases")) fs plugin_dir p.
Proof.
  intros H. apply full_process_plugin_Ok in H. destruct H as (_ & releases & Hscan & Hp).
  apply full_scan_releases_names in Hscan.
  exact (sorted_versions_listed _ _ _ _ _ Hp Hscan).
Qed.

Lemma full_scan_loop_versions fs jl : forall names plugins w plugins' w',
  for_each names plugins (GenerateRegistry.scan_entry fs jl) w = (Ok plugins', w') ->
  forall k p, In (k, p) plugins' ->
    In (k, p) plugins
    \/ exists content pd,
         read_bytes fs ([k] // "plugin.json") = Ok content
         /\ jl content = Ok pd
         /\ versions_listed (full_release_kept fs pd ([k] // "releases")) fs [k] p.
Proof.
  induction names as [|name names IH]; intros plugins w plugins' w' H; simpl in H.
  - apply ret_Ok in H. destruct H as [-> _]. auto.
  - apply bind_Ok in H. destruct H as (plugins1 & w1 & H1 & H2).
    apply full_scan_entry_Ok in H1. destruct H1 as (-> & Hcase).
    intros k p Hk. destruct (IH _ _ _ _ H2 k p Hk) as [Hl|Hr]; [|right; exact Hr].
    destruct Hcase as [[_ ->]|(_ & content & pd & p0 & Hread & Hload & Hp & ->)];
      [left; exact Hl|].
    apply dict_set_In in Hl. destruct Hl as [E|Hl]; [|left; exact Hl].
    inversion E; subst. right. exists content, pd. split; [exact Hread|].
    split; [exact Hload|]. exact (full_process_plugin_versions _ _ _ _ Hp).
Qed.

(** One turn of the scan of [simple-registry-generator.py], with the versions
    it collects. *)
Lemma simple_scan_item_versions fs jl plugins item w plugins' w' :
  SimpleRegistryGenerator.scan_item fs jl plugins item w = (Ok plugins', w') ->
  (simple_selected fs item = false /\ plugins' = plugins)
  \/ (simple_selected fs item = true
      /\ exists content pd versions,
           read_bytes fs ([] // item // "plugin.json") = Ok content
           /\ jl content = Ok pd
           /\ map Version.version versions
              = filter (simple_release_kept fs pd ([] // item // "releases"))
                       (release_names fs ([] // item))
           /\ ((versions = [] /\ plugins' = plugins)
               \/ (versions <> []
                   /\ exists p, Plugin.versions p = sort_reverse Version.version versions
                                /\ plugins' = dict_set item p plugins))).
Proof.
  unfold SimpleRegistryGenerator.scan_item, simple_selected. intros H.
  destruct (SimpleRegistryGenerator.candidate fs item); simpl.
  - destruct (exists_ fs ([] // item // "plugin.json")).
    + apply bind_Ok in H. destruct H as (u & w1 & _ & H).
      bind_lift H content Hread. bind_lift H pd Hload.
      apply bind_Ok in H. destruct H as (versions & w2 & Hv & H).
      apply simple_scan_versions_names in Hv.
      right. split; [reflexivity|]. exists content, pd, versions.
      split; [exact Hread|]. split; [exact Hload|]. split; [exact Hv|].
      destruct versions as [|v versions].
      * apply ret_Ok in H. destruct H as [-> _]. left. split; reflexivity.
      * apply bind_Ok in H. destruct H as (p & w3 & Hp & H).
        apply ret_Ok in H. destruct H as [-> _]. right. split; [discriminate|].
        exists p. apply simple_plugin_record_Ok in Hp. destruct Hp as [_ Hp].
        split; [exact Hp | reflexivity].
    + apply ret_Ok in H. destruct H as [-> _]. left. auto.
  - apply ret_Ok in H. destruct H as [-> _]. left. auto.
Qed.

Lemma existsb_filter_nil {A} (f : A -> bool) l : filter f l = [] -> existsb f l = false.
Proof.
  induction l as [|x l IH]; simpl; [reflexivity|].
  destruct (f x); [discriminate | exact IH].
Qed.

Lemma existsb_filter_not_nil {A} (f : A -> bool) l : filter f l <> [] -> existsb f l = true.
Proof.
  induction l as [|x l IH]; simpl; [intros H; exfalso; apply H; reflexivity|].
  destruct (f x); [reflexivity | exact IH].
Qed.

Lemma simple_scan_loop_keys fs jl : forall items plugins w plugins' w',
  for_each items plugins (SimpleRegistryGenerator.scan_item fs jl) w = (Ok plugins', w') ->
  (NoDup items ->
   (forall k, In k items -> ~ In k (keys plugins)) ->
   keys plugins' = (keys plugins ++ filter (simple_plugin_kept fs jl) items)%list)
  /\ (forall k p, In (k, p) plugins' ->
        In (k, p) plugins
        \/ exists content pd,
             read_bytes fs ([] // k // "plugin.json") = Ok content
             /\ jl content = Ok pd
             /\ versions_listed (simple_release_kept fs pd ([] // k // "releases"))
                                fs ([] // k) p).
Proof.
  induction items as [|item items IH]; intros plugins w plugins' w' H; simpl in H.
  - apply ret_Ok in H. destruct H as [-> _]. split; [|auto].
    intros _ _. simpl. rewrite app_nil_r. reflexivity.
  - apply bind_Ok in H. destruct H as (plugins1 & w1 & H1 & H2).
    apply simple_scan_item_versions in H1.
    apply IH in H2. destruct H2 as [Hkeys Hin]. split.
    + intros Hnd Hnew. inversion Hnd as [|? ? Hnotin Hnd']; subst.
      cbn [filter]. unfold simple_plugin_kept at 1.
      destruct H1 as [[Hsel ->]|(Hsel & content & pd & versions & Hread & Hload & Hv & Hcase)];
        rewrite Hsel; cbn [andb].
      * apply Hkeys; [exact Hnd' | intros k Hk; apply Hnew; right; exact Hk].
      * rewrite Hread, Hload.
        destruct Hcase as [[-> ->]|(Hne & p & _ & ->)].
        -- rewrite existsb_filter_nil by (symmetry; exact Hv).
           apply Hkeys; [exact Hnd' | intros k Hk; apply Hnew; right; exact Hk].
        -- rewrite existsb_filter_not_nil.
           ++ rewrite Hkeys; [|exact Hnd'|].
              ** rewrite keys_dict_set_new by (apply Hnew; left; reflexivity).
                 rewrite <- app_assoc. reflexivity.
              ** intros k Hk Hin'. apply keys_dict_set_In in Hin'.
                 destruct Hin' as [->|Hin']; [exact (Hnotin Hk)|].
                 exact (Hnew k (or_intror Hk) Hin').
           ++ rewrite <- Hv. intros E. apply map_eq_nil in E. exact (Hne E).
    + intros k p Hk. destruct (Hin k p Hk) as [Hl|Hr]; [|right; exact Hr].
      destruct H1 as [[_ ->]|(_ & content & pd & versions & Hread & Hload & Hv & Hcase)];
        [left; exact Hl|].
      destruct Hcase as [[_ ->]|(_ & p0 & Hp & ->)]; [left; exact Hl|].
      apply dict_set_In in Hl. destruct Hl as [E|Hl]; [|left; exact Hl].
      inversion E; subst. right. exists content, pd. split; [exact Hread|].
      split; [exact Hload|]. exact (sorted_versions_listed _ _ _ _ _ Hp Hv).
Qed.

(** X20: For every plugin of the map a scan returns, the versions are the
    kept entries of the releases directory of the plugin, under the manifest
    of its directory, in descending order of their names as strings. *)
Theorem X20_versions_of_the_plugin_map :
  (forall fs jl w plugins w' id p,
      GenerateRegistry.scan_plugins fs jl w = (Ok plugins, w') ->
      In (id, p) plugins ->
      exists content pd,
        read_bytes fs ([id] // "plugin.json") = Ok content
        /\ jl content = Ok pd
        /\ versions_listed (full_release_kept fs pd ([id] // "releases")) fs [id] p)
  /\ (forall fs jl w plugins w' id p,
        SimpleRegistryGenerator.scan_plugins fs jl w = (Ok plugins, w') ->
        In (id, p) plugins ->
        exists content pd,
          read_bytes fs ([] // id // "plugin.json") = Ok content
          /\ jl content = Ok pd
          /\ versions_listed (simple_release_kept fs pd ([] // id // "releases"))
                             fs ([] // id) p).
Proof.
  split.
  - intros fs jl w plugins w' id p H Hin.
    unfold GenerateRegistry.scan_plugins in H. bind_lift H names Hl.
    eapply full_scan_loop_versions in H; [|exact Hin].
    destruct H as [[]|Hr]. exact Hr.
  - intros fs jl w plugins w' id p H Hin.
    unfold SimpleRegistryGenerator.scan_plugins in H. bind_lift H items Hl.
    apply simple_scan_loop_keys in H. destruct H as [_ H].
    destruct (H id p Hin) as [[]|Hr]. exact Hr.
Qed.

Lemma X20_versions_of_the_plugin_map_witness :
  (exists id p rest w',
      GenerateRegistry.scan_plugins tree_one_release sample_json_load start
        = (Ok ((id, p) :: rest), w')
      /\ exists content pd,
           read_bytes tree_one_release ([id] // "plugin.json") = Ok content
           /\ sample_json_load content = Ok pd
           /\ versions_listed (full_release_kept tree_one_release pd ([id] // "releases"))
                              tree_one_release [id] p)
  /\ (exists id p rest w',
        SimpleRegistryGenerator.scan_plugins tree_one_release sample_json_load start
          = (Ok ((id, p) :: rest), w')
        /\ exists content pd,
             read_bytes tree_one_release ([] // id // "plugin.json") = Ok content
             /\ sample_json_load content = Ok pd
             /\ versions_listed
                  (simple_release_kept tree_one_release pd ([] // id // "releases"))
                  tree_one_release ([] // id) p).
Proof.
  split.
  - assert (Hscan : exists id p rest w',
               GenerateRegistry.scan_plugins tree_one_release sample_json_load start
               = (Ok ((id, p) :: rest), w'))
      by (do 4 eexists; vm_compute; reflexivity).
    destruct Hscan as (id & p & rest & w' & Hscan).
    exists id, p, rest, w'. split; [exact Hscan|].
    exact (proj1 X20_versions_of_the_plugin_map tree_one_release sample_json_load start
             ((id, p) :: rest) w' id p Hscan (or_introl eq_refl)).
  - assert (Hscan : exists id p rest w',
               SimpleRegistryGenerator.scan_plugins tree_one_release sample_json_load start
               = (Ok ((id, p) :: rest), w'))
      by (do 4 eexists; vm_compute; reflexivity).
    destruct Hscan as (id & p & rest & w' & Hscan).
    exists id, p, rest, w'. split; [exact Hscan|].
    exact (proj2 X20_versions_of_the_plugin_map tree_one_release sample_json_load start
             ((id, p) :: rest) w' id p Hscan (or_introl eq_refl)).
Defined.

(** X21: The keys of the plugin map of [simple-registry-generator.py] are,
    in listing order, the entries of the working directory that are selected,
    have a manifest that loads and a release that is kept. *)
Theorem X21_keys_of_the_simple_plugin_map :
  forall fs jl w plugins w' items,
    SimpleRegistryGenerator.scan_plugins fs jl w = (Ok plugins, w') ->
    listdir fs [] = Ok items ->
    NoDup items ->
    keys plugins = filter (simple_plugin_kept fs jl) items.
Proof.
  intros fs jl w plugins w' items H Hitems Hnd.
  unfold SimpleRegistryGenerator.scan_plugins in H. bind_lift H items' Hl.
  rewrite Hitems in Hl. inversion Hl; subst items'.
  apply simple_scan_loop_keys in H. destruct H as [H _].
  exact (H Hnd (fun k _ Hin => Hin)).
Qed.

Lemma X21_keys_of_the_simple_plugin_map_witness :
  exists plugins w',
    SimpleRegistryGenerator.scan_plugins tree_one_release sample_json_load start
      = (Ok plugins, w')
    /\ keys plugins
       = filter (simple_plugin_kept tree_one_release sample_json_load) ["sample-plugin"].
Proof.
  assert (Hscan : exists plugins w',
             SimpleRegistryGenerator.scan_plugins tree_one_release sample_json_load start
             = (Ok plugins, w'))
    by (eexists; eexists; vm_compute; reflexivity).
  destruct Hscan as (plugins & w' & Hscan). exists plugins, w'. split; [exact Hscan|].
  refine (X21_keys_of_the_simple_plugin_map tree_one_release sample_json_load start
            Hscan eq_refl _).
  repeat (constructor; [simpl; intuition discriminate|]). constructor.
Defined.

(* ------------------------------------------------------------------------- *)
(** ** The effects of a run, in order *)

(** X19: The effects of a successful run, in order: [registry.yml]; the
    directories [api] and [api/plugins], as far as the tree does not have
    them; [api/plugins.json]; and the detail files, in the order of the plugin
    map. *)
Theorem X19_effects_of_a_run_in_order :
  (forall fs jl clock u w',
      GenerateRegistry.main fs jl clock start = (Ok u, w') ->
      exists plugins r now,
        GenerateRegistry.scan_plugins fs jl (printed "Scanning plugins directory..." start)
          = (Ok plugins, printed "Scanning plugins directory..." start)
        /\ Registry.plugins r = plugins
        /\ effects w'
           = ([Write ["registry.yml"] (RegistryYml r)] ++ directories_made fs
                ++ [Write ["api"; "plugins.json"] (discovery plugins now)]
                ++ map detail plugins)%list)
  /\ (forall fs jl clock u w',
        SimpleRegistryGenerator.main fs jl clock start = (Ok u, w') ->
        exists plugins w1,
          SimpleRegistryGenerator.scan_plugins fs jl
            (printed (SimpleRegistryGenerator.mark_scanning ++ " Scanning for plugins...")
               start)
            = (Ok plugins, w1)
          /\ ((plugins = [] /\ effects w' = [])
              \/ (plugins <> []
                  /\ exists r now,
                       Registry.plugins r = plugins
                       /\ effects w'
                          = ([Write ["registry.yml"] (RegistryYml r)] ++ directories_made fs
                               ++ [Write ["api"; "plugins.json"] (discovery plugins now)]
                               ++ map detail plugins)%list))).
Proof.
  split.
  - intros fs jl clock u w' H. apply full_main_Ok_documents in H.
    destruct H as (plugins & r & mk & w0 & w1 & Hscan & Hreg & _ & _ & He & _ & _ & Hdirs).
    apply generate_registry_Ok in Hreg. destruct Hreg as (Hr & _).
    exists plugins, r. eexists. split; [exact Hscan|]. split; [exact Hr|].
    rewrite He, Hdirs by (intros q; reflexivity). reflexivity.
  - intros fs jl clock u w' H. unfold SimpleRegistryGenerator.main in H.
    apply bind_Ok in H. destruct H as (u0 & w0 & Hp0 & H). apply print_Ok in Hp0. subst w0.
    apply bind_Ok in H. destruct H as (plugins & w1 & Hscan & H).
    exists plugins, w1. split; [exact Hscan|].
    pose proof (simple_scan_plugins_quiet fs jl
                  (printed (SimpleRegistryGenerator.mark_scanning
                            ++ " Scanning for plugins...") start)) as Hq.
    rewrite Hscan in Hq. simpl in Hq. destruct Hq as (He1 & _).
    destruct plugins as [|item plugins].
    + left. apply print_Ok in H. subst w'. simpl. split; [reflexivity | exact He1].
    + right. split; [discriminate|].
      apply bind_Ok in H. destruct H as (u2 & w2 & Hp2 & H). apply print_Ok in Hp2. subst w2.
      apply bind_Ok in H. destruct H as (u3 & w3 & Hp3 & H). apply print_Ok in Hp3. subst w3.
      change (SimpleRegistryGenerator.generate_registry clock (item :: plugins))
        with (GenerateRegistry.generate_registry clock (item :: plugins)) in H.
      change (SimpleRegistryGenerator.generate_api_files fs clock (item :: plugins))
        with (GenerateRegistry.generate_api_files fs clock (item :: plugins)) in H.
      apply emit_Ok in H.
      destruct H as (r & mk & w2 & w3 & Hreg & _ & He & _ & _ & H & Hdirs).
      apply generate_registry_Ok in Hreg. destruct Hreg as (Hr & _).
      simpl in He. rewrite He1 in He. simpl in He.
      apply bind_Ok in H. destruct H as (u4 & w4 & Hp4 & H). apply print_Ok in Hp4. subst w4.
      apply bind_Ok in H. destruct H as (u5 & w5 & Hp5 & H). apply print_Ok in Hp5. subst w5.
      apply bind_Ok in H. destruct H as (u6 & w6 & Hp6 & H). apply print_Ok in Hp6. subst w6.
      apply print_Ok in H. subst w'. simpl.
      exists r. eexists. split; [exact Hr|]. rewrite He, Hdirs; [reflexivity|].
      intros q. apply made_nil. simpl. exact He1.
Qed.

Lemma X19_effects_of_a_run_in_order_witness :
  (exists w',
      GenerateRegistry.main tree_one_release sample_json_load sample_clock start = (Ok tt, w')
      /\ exists plugins r now,
           GenerateRegistry.scan_plugins tree_one_release sample_json_load
             (printed "Scanning plugins directory..." start)
           = (Ok plugins, printed "Scanning plugins directory..." start)
           /\ Registry.plugins r = plugins
           /\ effects w'
              = ([Write ["registry.yml"] (RegistryYml r)] ++ directories_made tree_one_release
                   ++ [Write ["api"; "plugins.json"] (discovery plugins now)]
                   ++ map detail plugins)%list)
  /\ (exists w',
        SimpleRegistryGenerator.main tree_one_release sample_json_load sample_clock start
          = (Ok tt, w')
        /\ exists plugins w1,
             SimpleRegistryGenerator.scan_plugins tree_one_release sample_json_load
               (printed (SimpleRegistryGenerator.mark_scanning ++ " Scanning for plugins...")
                  start)
             = (Ok plugins, w1)
             /\ ((plugins = [] /\ effects w' = [])
                 \/ (plugins <> []
                     /\ exists r now,
                          Registry.plugins r = plugins
                          /\ effects w'
                             = ([Write ["registry.yml"] (RegistryYml r)]
                                  ++ directories_made tree_one_release
                                  ++ [Write ["api"; "plugins.json"] (discovery plugins now)]
                                  ++ map detail plugins)%list))).
Proof.
  split.
  - assert (Hrun : exists w',
               GenerateRegistry.main tree_one_release sample_json_load sample_clock start
               = (Ok tt, w'))
      by (eexists; vm_compute; reflexivity).
    destruct Hrun as (w' & Hrun). exists w'. split; [exact Hrun|].
    exact (proj1 X19_effects_of_a_run_in_order tree_one_release sample_json_load
             sample_clock tt w' Hrun).
  - assert (Hrun : exists w',
               SimpleRegistryGenerator.main tree_one_release sample_json_load sample_clock
                 start = (Ok tt, w'))
      by (eexists; vm_compute; reflexivity).
    destruct Hrun as (w' & Hrun). exists w'. split; [exact Hrun|].
    exact (proj2 X19_effects_of_a_run_in_order tree_one_release sample_json_load
             sample_clock tt w' Hrun).
Defined.

(* ------------------------------------------------------------------------- *)
(** ** The frontend field and the form of a checksum *)

(** X17: The frontend field of a version record.  In
    [generate-registry.py] it is null exactly when the manifest declares no
    entry, or the empty one; else it holds the declared entry, with the
    checksum [sha256:missing] exactly when the entry file is not in the
    version directory; it is never left out.  In
    [simple-registry-generator.py] it is left out when [component.js] is not
    there, and else holds that name and a checksum other than
    [sha256:missing]; it is never null. *)
Theorem X17_frontend_field :
  (forall fs vd pd w v w',
      GenerateRegistry.process_release fs vd pd w = (Ok (Some v), w') ->
      match Version.frontend v with
      | Null => GenerateRegistry.truthy (GenerateRegistry.frontend_entry_of pd) = false
      | Present f =>
          GenerateRegistry.truthy (GenerateRegistry.frontend_entry_of pd) = true
          /\ Frontend.entry f = GenerateRegistry.frontend_entry_of pd
          /\ (Frontend.checksum f = "sha256:missing" <->
              exists entry, GenerateRegistry.frontend_entry_of pd = Some entry
                            /\ exists_ fs (vd // entry) = false)
      | Absent => False
      end)
  /\ (forall fs vd pd w v w',
        SimpleRegistryGenerator.process_version fs vd pd w = (Ok (Some v), w') ->
        match Version.frontend v with
        | Absent => exists_ fs (vd // "component.js") = false
        | Present f =>
            exists_ fs (vd // "component.js") = true
            /\ Frontend.entry f = Some "component.js"
            /\ Frontend.checksum f <> "sha256:missing"
        | Null => False
        end).
Proof.
  split.
  - intros fs vd pd w v w' H. apply full_process_release_Ok in H.
    destruct H as (_ & platforms & _ & _ & Hsome).
    destruct (Hsome v eq_refl) as (_ & _ & _ & _ & Hfront).
    destruct Hfront as [[Ht ->]|(f & -> & Hentry & Ht & Hfile)]; [exact Ht|].
    split; [exact Ht|]. split; [exact Hentry|].
    destruct Hfile as [(e & c & He & Hread & Hsum)|(e & He & Hex & Hsum)].
    + split.
      * intros Hm. rewrite Hsum in Hm. exfalso.
        exact (missing_is_no_digest (eq_sym Hm)).
      * intros (e' & He' & Hex'). rewrite Hentry, He' in He. inversion He; subst e'.
        apply read_bytes_exists in Hread. rewrite Hread in Hex'. discriminate.
    + split; [|intros _; exact Hsum].
      intros _. exists e. split; [rewrite <- Hentry; exact He | exact Hex].
  - intros fs vd pd w v w' H. apply simple_process_version_Ok in H.
    destruct H as (pid & _ & [(E & _)|(v' & E & _ & _ & _ & _ & _ & _ & Hfront)]);
      [discriminate|].
    inversion E; subst v'.
    destruct Hfront as [[Hex ->]|(f & -> & Hentry & (e & c & He & Hread & Hsum))];
      [exact Hex|].
    rewrite Hentry in He. inversion He; subst e.
    split; [exact (read_bytes_exists _ _ Hread)|]. split; [exact Hentry|].
    rewrite Hsum. intros Hm. exact (missing_is_no_digest (eq_sym Hm)).
Qed.

Lemma X17_frontend_field_witness :
  (exists v w',
      GenerateRegistry.process_release tree_one_release
        ["sample-plugin"; "releases"; "1.0.0"] sample_manifest start = (Ok (Some v), w')
      /\ match Version.frontend v with
         | Null =>
             GenerateRegistry.truthy (GenerateRegistry.frontend_entry_of sample_manifest)
             = false
         | Present f =>
             GenerateRegistry.truthy (GenerateRegistry.frontend_entry_of sample_manifest)
             = true
             /\ Frontend.entry f = GenerateRegistry.frontend_entry_of sample_manifest
             /\ (Frontend.checksum f = "sha256:missing" <->
                 exists entry,
                   GenerateRegistry.frontend_entry_of sample_manifest = Some entry
                   /\ exists_ tree_one_release
                        (["sample-plugin"; "releases"; "1.0.0"] // entry) = false)
         | Absent => False
         end)
  /\ (exists v w',
        SimpleRegistryGenerator.process_version tree_frontend
          ["sample-plugin"; "releases"; "1.0.0"] sample_manifest start = (Ok (Some v), w')
        /\ match Version.frontend v with
           | Absent =>
               exists_ tree_frontend
                 (["sample-plugin"; "releases"; "1.0.0"] // "component.js") = false
           | Present f =>
               exists_ tree_frontend
                 (["sample-plugin"; "releases"; "1.0.0"] // "component.js") = true
               /\ Frontend.entry f = Some "component.js"
               /\ Frontend.checksum f <> "sha256:missing"
           | Null => False
           end).
Proof.
  split.
  - assert (Hrun : exists v w',
               GenerateRegistry.process_release tree_one_release
                 ["sample-plugin"; "releases"; "1.0.0"] sample_manifest start
               = (Ok (Some v), w'))
      by (eexists; eexists; vm_compute; reflexivity).
    destruct Hrun as (v & w' & Hrun). exists v, w'. split; [exact Hrun|].
    exact (proj1 X17_frontend_field tree_one_release
             ["sample-plugin"; "releases"; "1.0.0"] sample_manifest start v w' Hrun).
  - assert (Hrun : exists v w',
               SimpleRegistryGenerator.process_version tree_frontend
                 ["sample-plugin"; "releases"; "1.0.0"] sample_manifest start
               = (Ok (Some v), w'))
      by (eexists; eexists; vm_compute; reflexivity).
    destruct Hrun as (v & w' & Hrun). exists v, w'. split; [exact Hrun|].
    exact (proj2 X17_frontend_field tree_frontend
             ["sample-plugin"; "releases"; "1.0.0"] sample_manifest start v w' Hrun).
Defined.












(* ------------------------------------------------------------------------- *)
(** ** Counting versions, and the lines of the simple scan *)

Lemma map_values_keys {V B} (f : V -> B) (g : string -> B) : forall d : dict V,
  (forall k v, In (k, v) d -> f v = g k) ->
  map f (values d) = map g (keys d).
Proof.
  induction d as [|[k v] d IH]; intros H; [reflexivity|].
  unfold values, keys in *. cbn [map fst snd].
  rewrite (H k v) by (left; reflexivity).
  rewrite IH by (intros k' v' Hin; apply H; right; exact Hin).
  reflexivity.
Qed.

Lemma versions_listed_length kept fs plugin_dir p :
  versions_listed kept fs plugin_dir p ->
  List.length (Plugin.versions p) = List.length (filter kept (release_names fs plugin_dir)).
Proof.
  intros [Hperm _]. apply Permutation_length in Hperm. rewrite length_map in Hperm.
  exact Hperm.
Qed.

(** X22: The statistic [total_versions] of the registry made from a
    scanned plugin map is the number of kept release directories, summed over
    the plugins of the map. *)
Theorem X22_total_versions_counts_release_directories :
  (forall fs jl w plugins w' clock w1 r w2,
      GenerateRegistry.scan_plugins fs jl w = (Ok plugins, w') ->
      GenerateRegistry.generate_registry clock plugins w1 = (Ok r, w2) ->
      Registry.total_versions (Registry.stats_ r)
      = list_sum (map (full_kept_count fs jl) (keys plugins)))
  /\ (forall fs jl w plugins w' clock w1 r w2,
        SimpleRegistryGenerator.scan_plugins fs jl w = (Ok plugins, w') ->
        SimpleRegistryGenerator.generate_registry clock plugins w1 = (Ok r, w2) ->
        Registry.total_versions (Registry.stats_ r)
        = list_sum (map (simple_kept_count fs jl) (keys plugins))).
Proof.
  split.
  - intros fs jl w plugins w' clock w1 r w2 Hscan Hreg.
    unfold GenerateRegistry.generate_registry, bind, utcnow, ret in Hreg.
    inversion Hreg; subst r. clear Hreg. simpl. rewrite sum_list_sum. f_equal.
    apply map_values_keys. intros k p Hin.
    unfold GenerateRegistry.scan_plugins in Hscan. bind_lift Hscan names Hl.
    eapply full_scan_loop_versions in Hscan; [|exact Hin].
    destruct Hscan as [[]|(content & pd & Hread & Hload & Hv)].
    unfold full_kept_count. rewrite Hread, Hload.
    exact (versions_listed_length Hv).
  - intros fs jl w plugins w' clock w1 r w2 Hscan Hreg.
    unfold SimpleRegistryGenerator.generate_registry, bind, utcnow, ret in Hreg.
    inversion Hreg; subst r. clear Hreg. simpl. rewrite sum_list_sum. f_equal.
    apply map_values_keys. intros k p Hin.
    unfold SimpleRegistryGenerator.scan_plugins in Hscan. bind_lift Hscan items Hl.
    apply simple_scan_loop_keys in Hscan. destruct Hscan as [_ Hscan].
    destruct (Hscan k p Hin) as [[]|(content & pd & Hread & Hload & Hv)].
    unfold simple_kept_count. rewrite Hread, Hload.
    exact (versions_listed_length Hv).
Qed.

Lemma X22_total_versions_witness :
  (exists plugins w' r w2,
      GenerateRegistry.scan_plugins tree_one_release sample_json_load start
        = (Ok plugins, w')
      /\ GenerateRegistry.generate_registry sample_clock plugins start = (Ok r, w2)
      /\ Registry.total_versions (Registry.stats_ r)
         = list_sum (map (full_kept_count tree_one_release sample_json_load)
                         (keys plugins)))
  /\ (exists plugins w' r w2,
        SimpleRegistryGenerator.scan_plugins tree_one_release sample_json_load start
          = (Ok plugins, w')
        /\ SimpleRegistryGenerator.generate_registry sample_clock plugins start = (Ok r, w2)
        /\ Registry.total_versions (Registry.stats_ r)
           = list_sum (map (simple_kept_count tree_one_release sample_json_load)
                           (keys plugins))).
Proof.
  split.
  - assert (Hscan : exists plugins w',
               GenerateRegistry.scan_plugins tree_one_release sample_json_load start
               = (Ok plugins, w'))
      by (eexists; eexists; vm_compute; reflexivity).
    destruct Hscan as (plugins & w' & Hscan).
    exists plugins, w'. eexists. eexists. split; [exact Hscan|]. split; [reflexivity|].
    exact (proj1 X22_total_versions_counts_release_directories tree_one_release
             sample_json_load start plugins w' sample_clock start _ _ Hscan eq_refl).
  - assert (Hscan : exists plugins w',
               SimpleRegistryGenerator.scan_plugins tree_one_release sample_json_load start
               = (Ok plugins, w'))
      by (eexists; eexists; vm_compute; reflexivity).
    destruct Hscan as (plugins & w' & Hscan).
    exists plugins, w'. eexists. eexists. split; [exact Hscan|]. split; [reflexivity|].
    exact (proj2 X22_total_versions_counts_release_directories tree_one_release
             sample_json_load start plugins w' sample_clock start _ _ Hscan eq_refl).
Defined.

Lemma simple_process_version_line fs vd pd w r w' :
  SimpleRegistryGenerator.process_version fs vd pd w = (Ok r, w') ->
  exists plugin_id found,
    manifest_id pd = Some plugin_id
    /\ found = filter (fun platform =>
                         exists_ fs (vd // SimpleRegistryGenerator.binary_name_for
                                              plugin_id platform))
                      SimpleRegistryGenerator.platforms
    /\ w' = printed (match found with
                     | [] => "  No binaries found for " ++ path_name vd
                     | _ => "  Found version " ++ path_name vd ++ " with "
                            ++ str_nat (List.length found) ++ " platform(s)"
                     end) w.
Proof.
  unfold SimpleRegistryGenerator.process_version. intros H.
  bind_lift H info Hinfo. bind_lift H plugin_id Hid.
  apply getitem_Ok in Hinfo. apply getitem_Ok in Hid.
  apply bind_Ok in H. destruct H as (assets & w1 & Hloop & H).
  pose proof (simple_assets_loop _ _ _ _ _ _ Hloop) as (Hw1 & _). subst w1.
  apply simple_assets_loop_exact in Hloop;
    [|exact simple_platforms_NoDup | intros p _ []].
  destruct Hloop as [Hkeys _]. cbn [keys map app] in Hkeys.
  exists plugin_id. eexists. split; [unfold manifest_id; rewrite Hinfo; exact Hid|].
  split; [reflexivity|]. rewrite <- Hkeys.
  destruct assets as [|asset assets].
  - apply bind_Ok in H. destruct H as (u & w1 & Hp & H). apply print_Ok in Hp. subst w1.
    apply ret_Ok in H. destruct H as [_ ->]. reflexivity.
  - bind_lift H mtime Hmtime.
    apply bind_Ok in H. destruct H as (frontend & w1 & Hfe & H).
    assert (Hw1 : w1 = w).
    { destruct (exists_ fs (vd // "component.js")).
      - bind_lift Hfe c Hc. apply ret_Ok in Hfe. destruct Hfe as [_ ->]. reflexivity.
      - apply ret_Ok in Hfe. destruct Hfe as [_ ->]. reflexivity. }
    subst w1. bind_lift H checksum Hsum.
    apply bind_Ok in H. destruct H as (u & w1 & Hp & H). apply print_Ok in Hp. subst w1.
    apply ret_Ok in H. destruct H as [_ ->].
    unfold keys. rewrite length_map. reflexivity.
Qed.

Lemma simple_versions_loop_lines fs pd rd plugin_id :
  manifest_id pd = Some plugin_id ->
  forall names versions w versions' w',
    for_each names versions (SimpleRegistryGenerator.collect_version fs rd pd) w
      = (Ok versions', w') ->
    w' = with_lines (map (simple_version_line fs plugin_id rd)
                         (filter (fun name => is_dir fs (rd ++ [name])%list) names)) w.
Proof.
  intros Hid.
  induction names as [|name names IH]; intros versions w versions' w' H; simpl in H.
  - apply ret_Ok in H. destruct H as [_ ->]. simpl. rewrite with_lines_nil. reflexivity.
  - apply bind_Ok in H. destruct H as (versions1 & w1 & H1 & H2).
    apply IH in H2. subst w'. clear IH.
    unfold SimpleRegistryGenerator.collect_version in H1. cbn [filter].
    destruct (is_dir fs (rd ++ [name])%list) eqn:Hdir.
    + apply bind_Ok in H1. destruct H1 as (r & w2 & Hr & H1).
      apply simple_process_version_line in Hr.
      destruct Hr as (pid & found & Hpid & Hfound & Hw2).
      rewrite Hid in Hpid. inversion Hpid; subst pid. clear Hpid.
      assert (Hw1 : w1 = w2) by (destruct r; apply ret_Ok in H1; destruct H1; auto).
      subst w1 w2. cbn [map].
      rewrite <- (with_lines_nil w) at 1. rewrite printed_with_lines.
      rewrite with_lines_with_lines. cbn [app].
      unfold simple_version_line at 2. rewrite <- Hfound, path_name_last. reflexivity.
    + apply ret_Ok in H1. destruct H1 as [_ ->]. reflexivity.
Qed.

(** X23: The scan of a releases directory by
    [simple-registry-generator.py] prints one line for each entry that is a
    directory, in listing order: the version found, with the number of
    platforms whose binary is there, or that no binaries were found. *)
Theorem X23_one_line_for_each_release_directory :
  forall fs plugin_dir pd w versions w' plugin_id,
    SimpleRegistryGenerator.scan_versions fs plugin_dir pd w = (Ok versions, w') ->
    manifest_id pd = Some plugin_id ->
    w' = with_lines
           (map (simple_version_line fs plugin_id (plugin_dir // "releases"))
                (filter (fun name => is_dir fs ((plugin_dir // "releases") ++ [name])%list)
                        (release_names fs plugin_dir))) w.
Proof.
  intros fs plugin_dir pd w versions w' plugin_id H Hid.
  unfold SimpleRegistryGenerator.scan_versions in H.
  destruct (exists_ fs (plugin_dir // "releases")) eqn:Hex.
  - bind_lift H names Hnames. rewrite (listdir_release_names _ _ Hnames).
    eapply simple_versions_loop_lines; [exact Hid | exact H].
  - apply ret_Ok in H. destruct H as [_ ->].
    rewrite (release_names_no_directory _ _ Hex). simpl. rewrite with_lines_nil.
    reflexivity.
Qed.

Lemma X23_one_line_for_each_release_directory_witness :
  exists versions w',
    SimpleRegistryGenerator.scan_versions tree_one_release ["sample-plugin"]
      sample_manifest start = (Ok versions, w')
    /\ w' = with_lines
              (map (simple_version_line tree_one_release "sample-plugin"
                      (["sample-plugin"] // "releases"))
                   (filter (fun name =>
                              is_dir tree_one_release
                                ((["sample-plugin"] // "releases") ++ [name])%list)
                           (release_names tree_one_release ["sample-plugin"]))) start.
Proof.
  assert (Hrun : exists versions w',
             SimpleRegistryGenerator.scan_versions tree_one_release ["sample-plugin"]
               sample_manifest start = (Ok versions, w'))
    by (eexists; eexists; vm_compute; reflexivity).
  destruct Hrun as (versions & w' & Hrun). exists versions, w'. split; [exact Hrun|].
  exact (X23_one_line_for_each_release_directory tree_one_release ["sample-plugin"]
           sample_manifest start Hrun eq_refl).
Defined.
